(** * oaks-mart: the offline-sync reconciler, product upsert and reorder
      heuristic of [backend/app.py], over the tables of [backend/models.py]

    The development is a shallow embedding of three Flask handlers

      - [create_or_update_product]  (POST /api/products)
      - [sync_transactions]         (POST /api/sync)
      - [ai_suggest]                (POST /api/ai/suggest)

    together with the parts of the Python runtime they call ([float], [int],
    [str.strip], truthiness, [repr]) and of the SQLAlchemy session they drive
    (pending changes, flush, [commit], [rollback]); and of the user table with
    its handlers

      - [create_user]               (POST /api/auth/create_user)
      - [login]                     (POST /api/auth/login)
      - [change_pin]                (POST /api/auth/change_pin)
      - [list_users]                (GET /api/users)

    the helper [require_admin] and the creation of the default admin at
    start-up, over the two functions of [werkzeug.security], which are
    parameters (class [Werkzeug]).

    Conventions of the embedding.

      - A request body is a value of type [json], the result of
        [request.json]: Python's [None], [bool], [int], [float], [str],
        [list] and [dict].  A [dict] is an association list read from the
        front.  Text is ASCII: [strip], [int], [float] and [repr] are
        those of CPython on ASCII text.
      - A Python [float] is a binary64 number, [spec_float] at precision 53
        and maximal exponent 1024, with the operations of [SpecFloat]
        (round to nearest, ties to even).
      - A Python exception is a value of type [exn]; [str(e)] is [str_exn].
        Messages are those of CPython 3.11 and later, where [int()]
        refuses a text of more than 4300 digits.
      - The database is SQLite, the default of [app.py], behind the
        driver [sqlite3], and the store keeps the values that the tables
        hold.  An INTEGER has 64 bits: the driver raises [OverflowError]
        on a Python [int] outside of them.  A [Float] column stores NaN as
        NULL and gives a zero of either sign back as [0.0].  A [String]
        column has TEXT affinity: the driver binds text or [None] as it
        is, SQLite stores a [bool] or an [int] as the decimal text of the
        integer and a [float] as its text, and compares such a value with
        the column as that text; the driver rejects a list or a dict.
        The text that SQLite gives a float is a parameter (class
        [Sqlite]).  The message of the driver's error for a list or a
        dict is abbreviated: SQLAlchemy adds the statement and its
        parameters.
      - A flush writes the pending change of a product before it inserts
        a new ledger line, the order of SQLAlchemy's unit of work since
        version 1.4, which sorts the tables by the names of their
        classes; where both statements fail the order decides which
        message is reported, and nothing else.  The UPDATE of a stock
        count binds the count that was assigned, also when it equals the
        stored one: the two differ only for a count outside 64 bits, which
        no table holds.
      - An integer primary key is assigned as SQLite, the default engine,
        assigns a rowid: one more than the largest in the table; an insert
        that is rolled back uses up no id.
      - The server clock is an input of each handler ([now]), read once
        per request; a timestamp parsed by [datetime.fromisoformat] is
        kept symbolically, see [datetime].
      - The handlers take any [json].  The theorems on batches are
        stated for a list of JSON objects ([sync_request]); an item that
        is not an object raises outside the [try] of [sync_transactions]
        and ends the request, see [stray_item_ends_the_request]. *)

From Stdlib Require Import ZArith String Ascii List Bool Lia QArith.
From Stdlib Require Import SpecFloat.
From stdpp Require Import base option list gmap strings pretty.

Open Scope Z_scope.

#[local] Set Warnings "-register-all".

(* ===================================================================== *)
(** * Python values, exceptions and built-in conversions                  *)
(* ===================================================================== *)

Module Py.

(** The result of [request.json]. *)
Inductive json : Type :=
  | JNull
  | JBool (b : bool)
  | JInt (z : Z)
  | JFloat (f : spec_float)
  | JStr (s : string)
  | JArr (l : list json)
  | JObj (kv : list (string * json)).

Abbreviation dict := (list (string * json)).

Inductive exn : Type :=
  | TypeError (msg : string)
  | ValueError (msg : string)
  | OverflowError (msg : string)
  | AttributeError (msg : string)
  | ZeroDivisionError (msg : string)
  | DriverError (msg : string).

(** [str(e)] *)
Definition str_exn (e : exn) : string :=
  match e with
  | TypeError m | ValueError m | OverflowError m | AttributeError m
  | ZeroDivisionError m | DriverError m => m
  end.

Inductive result (A : Type) : Type :=
  | Ok (a : A)
  | Raise (e : exn).
Arguments Ok {A} a.
Arguments Raise {A} e.

Definition is_ok {A} (r : result A) : bool :=
  match r with Ok _ => true | Raise _ => false end.

#[global] Instance result_ret : MRet result := λ A a, Ok a.

#[global] Instance result_bind : MBind result := λ A B f r,
  match r with
  | Ok a => f a
  | Raise e => Raise e
  end.

#[global] Instance result_fmap : FMap result := λ A B f r,
  match r with
  | Ok a => Ok (f a)
  | Raise e => Raise e
  end.

(** [type(v).__name__] *)
Definition type_name (v : json) : string :=
  match v with
  | JNull => "NoneType"
  | JBool _ => "bool"
  | JInt _ => "int"
  | JFloat _ => "float"
  | JStr _ => "str"
  | JArr _ => "list"
  | JObj _ => "dict"
  end.

(** ** Dictionaries *)

Fixpoint assoc (k : string) (d : dict) : option json :=
  match d with
  | [] => None
  | (k', v) :: d' => if String.eqb k k' then Some v else assoc k d'
  end.

(** [k in d] *)
Definition dict_has (d : dict) (k : string) : bool :=
  match assoc k d with Some _ => true | None => false end.

(** [d.get(k, dflt)] *)
Definition dict_get_or (d : dict) (k : string) (dflt : json) : json :=
  match assoc k d with Some v => v | None => dflt end.

(** [d.get(k)] *)
Definition dict_get (d : dict) (k : string) : json := dict_get_or d k JNull.

(** [v.get], for a value that may fail to be a dict. *)
Definition as_dict (v : json) : result dict :=
  match v with
  | JObj kv => Ok kv
  | _ => Raise (AttributeError
           ("'" ++ type_name v ++ "' object has no attribute 'get'"))
  end.

(** ** Binary64 *)

Definition prec : Z := 53.
Definition emax : Z := 1024.

Abbreviation float := spec_float.

Definition float_zero : float := S754_zero false.

(** The int-to-float conversion, correctly rounded; [None] on overflow. *)
Definition float_of_Z (z : Z) : option float :=
  match binary_normalize prec emax z 0 false with
  | S754_infinity _ => None
  | f => Some f
  end.

(** The correctly rounded quotient of two integers, [b <> 0]. *)
Definition float_quot (a b : Z) : float :=
  match a, b with
  | Z0, _ => S754_zero (b <? 0)
  | _, Z0 => S754_nan
  | _, _ =>
      SFdiv prec emax
        (S754_finite (a <? 0) (Z.to_pos (Z.abs a)) 0)
        (S754_finite (b <? 0) (Z.to_pos (Z.abs b)) 0)
  end.

(** [a / b] on two ints. *)
Definition py_truediv (a b : Z) : result float :=
  if b =? 0 then Raise (ZeroDivisionError "division by zero")
  else match float_quot a b with
       | S754_infinity _ =>
           Raise (OverflowError "integer division result too large for a float")
       | f => Ok f
       end.

(** The integer part of a finite float, rounded toward zero. *)
Definition float_trunc (f : float) : option Z :=
  match f with
  | S754_zero _ => Some 0
  | S754_finite s m e => Some (cond_Zopp s (Z.shiftl (Zpos m) e))
  | S754_infinity _ | S754_nan => None
  end.

Definition float_is_zero (f : float) : bool := SFeqb f float_zero.
Definition float_is_pos (f : float) : bool := SFltb float_zero f.

(** ** Truthiness and [or] *)

Definition truthy (v : json) : bool :=
  match v with
  | JNull => false
  | JBool b => b
  | JInt z => negb (z =? 0)
  | JFloat f => negb (float_is_zero f)
  | JStr s => negb (String.eqb s "")
  | JArr l => match l with [] => false | _ => true end
  | JObj kv => match kv with [] => false | _ => true end
  end.

(** [a or b] *)
Definition py_or (a b : json) : json := if truthy a then a else b.

(** [n or 0] on an integer column value *)
Definition or0 (n : Z) : Z := if n =? 0 then 0 else n.

(** ** Text: whitespace, digits, [repr] *)

Definition code (c : ascii) : Z := Z.of_nat (nat_of_ascii c).

(** [str.isspace] on ASCII: TAB, LF, VT, FF, CR, FS, GS, RS, US, space. *)
Definition is_space (c : ascii) : bool :=
  let n := code c in
  ((9 <=? n) && (n <=? 13)) || ((28 <=? n) && (n <=? 32)).

Definition is_digit (c : ascii) : bool :=
  let n := code c in (48 <=? n) && (n <=? 57).

Fixpoint lstrip (cs : list ascii) : list ascii :=
  match cs with
  | c :: cs' => if is_space c then lstrip cs' else cs
  | [] => []
  end.

Definition strip_chars (cs : list ascii) : list ascii :=
  rev (lstrip (rev (lstrip cs))).

(** The blanks that [int()] and [float()] skip around ASCII text: TAB, LF,
    VT, FF, CR and space.  The separators FS, GS, RS and US, which
    [str.strip] removes, are not among them. *)
Definition is_c_space (c : ascii) : bool :=
  let n := code c in
  ((9 <=? n) && (n <=? 13)) || (n =? 32).

Fixpoint lstrip_c (cs : list ascii) : list ascii :=
  match cs with
  | c :: cs' => if is_c_space c then lstrip_c cs' else cs
  | [] => []
  end.

Definition strip_c (cs : list ascii) : list ascii :=
  rev (lstrip_c (rev (lstrip_c cs))).

(** [s.strip()] *)
Definition str_strip (s : string) : string :=
  string_of_list_ascii (strip_chars (list_ascii_of_string s)).

(** [v.strip()], for a value that may fail to be a string. *)
Definition py_strip (v : json) : result string :=
  match v with
  | JStr s => Ok (str_strip s)
  | _ => Raise (AttributeError
           ("'" ++ type_name v ++ "' object has no attribute 'strip'"))
  end.

Definition hex_digit (n : Z) : ascii :=
  ascii_of_nat (Z.to_nat (if n <? 10 then 48 + n else 87 + n)).

(** One character of [repr(s)] inside the quotes [q]. *)
Definition repr_char (q c : ascii) : list ascii :=
  let n := code c in
  if (n =? 92) || Ascii.eqb c q then ["\"%char; c]
  else if n =? 9 then ["\"; "t"]%char
  else if n =? 10 then ["\"; "n"]%char
  else if n =? 13 then ["\"; "r"]%char
  else if (n <? 32) || (n =? 127)
       then ["\"; "x"; hex_digit (n / 16); hex_digit (n mod 16)]%char
  else [c].

Definition has_char (c : ascii) (cs : list ascii) : bool :=
  existsb (Ascii.eqb c) cs.

Definition dquote : ascii := ascii_of_nat 34.

(** [repr(s)]: single quotes, unless the text has a single quote and no
    double quote. *)
Definition py_repr (s : string) : string :=
  let cs := list_ascii_of_string s in
  let q : ascii :=
    if has_char "'" cs && negb (has_char dquote cs) then dquote
    else "'"%char in
  string_of_list_ascii (q :: flat_map (repr_char q) cs ++ [q]).

(** ** [int(s)] and [float(s)] on text *)

Definition nul : ascii := ascii_of_nat 0.

(** The underscores of a numeric literal: each one stands between two
    digits.  Returns the text without them. *)
Fixpoint drop_underscores (prev : ascii) (cs : list ascii)
  : option (list ascii) :=
  match cs with
  | [] => if Ascii.eqb prev "_" then None else Some []
  | c :: cs' =>
      if Ascii.eqb c "_" then
        if is_digit prev then drop_underscores c cs' else None
      else if Ascii.eqb prev "_" && negb (is_digit c) then None
      else option_map (cons c) (drop_underscores c cs')
  end.

Definition split_sign (cs : list ascii) : bool * list ascii :=
  match cs with
  | "-"%char :: r => (true, r)
  | "+"%char :: r => (false, r)
  | _ => (false, cs)
  end.

Definition digits_val (cs : list ascii) : Z :=
  fold_left (fun acc c => 10 * acc + (code c - 48)) cs 0.

Definition all_digits (cs : list ascii) : bool :=
  match cs with [] => false | _ => forallb is_digit cs end.

(** The leading digits and underscores of a text. *)
Fixpoint span_number (cs : list ascii) : list ascii * list ascii :=
  match cs with
  | c :: cs' =>
      if is_digit c || Ascii.eqb c "_"
      then let (n, r) := span_number cs' in (c :: n, r)
      else ([], cs)
  | [] => ([], [])
  end.

(** What [int(s)] makes of a text: a value, a literal it rejects, or a
    literal with more digits than [sys.get_int_max_str_digits()], which is
    4300. *)
Inductive int_literal : Type :=
  | IntValue (z : Z)
  | IntInvalid
  | IntTooLong (digits : Z).

(** [int(s)], base 10: blanks, sign, digits with single underscores,
    blanks.  The digits are counted before the rest of the text is looked
    at. *)
Definition int_of_str (s : string) : int_literal :=
  let (neg, body) := split_sign (lstrip_c (list_ascii_of_string s)) in
  let (num, rest) := span_number body in
  match drop_underscores nul num with
  | Some ds =>
      if all_digits ds then
        let n := Z.of_nat (length ds) in
        if 4300 <? n then IntTooLong n
        else if forallb is_c_space rest
             then IntValue (cond_Zopp neg (digits_val ds))
             else IntInvalid
      else IntInvalid
  | None => IntInvalid
  end.

Fixpoint span_digits (cs : list ascii) : list ascii * list ascii :=
  match cs with
  | c :: cs' =>
      if is_digit c then let (ds, r) := span_digits cs' in (c :: ds, r)
      else ([], cs)
  | [] => ([], [])
  end.

(** [digits[.digits][(e|E)[sign]digits]] with a digit before the exponent:
    the decimal mantissa and the power of ten. *)
Definition parse_decimal (cs : list ascii) : option (Z * Z) :=
  let (ip, r1) := span_digits cs in
  let (fp, r2) :=
    match r1 with
    | "."%char :: r => span_digits r
    | _ => ([], r1)
    end in
  match ip ++ fp with
  | [] => None
  | ds =>
      let m := digits_val ds in
      let shift := Z.of_nat (length fp) in
      match r2 with
      | [] => Some (m, - shift)
      | c :: r3 =>
          if Ascii.eqb c "e" || Ascii.eqb c "E" then
            let (eneg, es) := split_sign r3 in
            if all_digits es
            then Some (m, cond_Zopp eneg (digits_val es) - shift)
            else None
          else None
      end
  end.

(** The binary64 number nearest to [m * 10^e10], ties to even. *)
Definition dec_to_float (neg : bool) (m e10 : Z) : float :=
  match m with
  | Zpos p =>
      if 0 <=? e10 then binary_normalize prec emax (cond_Zopp neg (m * 10 ^ e10)) 0 neg
      else SFdiv prec emax (S754_finite neg p 0)
             (S754_finite false (Z.to_pos (10 ^ (- e10))) 0)
  | _ => S754_zero neg
  end.

Definition lower (c : ascii) : ascii :=
  let n := code c in
  if (65 <=? n) && (n <=? 90) then ascii_of_nat (Z.to_nat (n + 32)) else c.

Definition parse_inf_nan (neg : bool) (cs : list ascii) : option float :=
  let w := string_of_list_ascii (map lower cs) in
  if String.eqb w "inf" || String.eqb w "infinity" then Some (S754_infinity neg)
  else if String.eqb w "nan" then Some S754_nan
  else None.

(** [float(s)] on text. *)
Definition float_of_str (s : string) : option float :=
  match drop_underscores nul (strip_c (list_ascii_of_string s)) with
  | Some t =>
      let (neg, body) := split_sign t in
      match parse_decimal body with
      | Some (m, e10) => Some (dec_to_float neg m e10)
      | None => parse_inf_nan neg body
      end
  | None => None
  end.

(** ** [float(v)], [int(v)], iteration *)

Definition py_float (v : json) : result float :=
  match v with
  | JBool b => Ok (dec_to_float false (if b then 1 else 0) 0)
  | JInt z =>
      match float_of_Z z with
      | Some f => Ok f
      | None => Raise (OverflowError "int too large to convert to float")
      end
  | JFloat f => Ok f
  | JStr s =>
      match float_of_str s with
      | Some f => Ok f
      | None => Raise (ValueError
                  ("could not convert string to float: " ++ py_repr s))
      end
  | _ => Raise (TypeError
           ("float() argument must be a string or a real number, not '"
            ++ type_name v ++ "'"))
  end.

Definition py_int (v : json) : result Z :=
  match v with
  | JBool b => Ok (if b then 1 else 0)
  | JInt z => Ok z
  | JFloat f =>
      match f with
      | S754_nan => Raise (ValueError "cannot convert float NaN to integer")
      | S754_infinity _ =>
          Raise (OverflowError "cannot convert float infinity to integer")
      | _ => Ok (default 0 (float_trunc f))
      end
  | JStr s =>
      match int_of_str s with
      | IntValue z => Ok z
      | IntInvalid =>
          Raise (ValueError
                   ("invalid literal for int() with base 10: " ++ py_repr s))
      | IntTooLong n =>
          Raise (ValueError
                   ("Exceeds the limit (4300 digits) for integer string conversion: value has "
                    ++ pretty n
                    ++ " digits; use sys.set_int_max_str_digits() to increase the limit"))
      end
  | _ => Raise (TypeError
           ("int() argument must be a string, a bytes-like object or a real number, not '"
            ++ type_name v ++ "'"))
  end.

(** The items of [for x in v]. *)
Definition py_iter (v : json) : result (list json) :=
  match v with
  | JArr l => Ok l
  | JStr s => Ok (map (fun c => JStr (String c EmptyString)) (list_ascii_of_string s))
  | JObj kv => Ok (map (fun e => JStr (fst e)) kv)
  | _ => Raise (TypeError ("'" ++ type_name v ++ "' object is not iterable"))
  end.

(** ** What the driver binds and SQLite stores *)

(** The one function of the engine that the embedding leaves open: the
    text that SQLite gives a REAL when it lands in a column of TEXT
    affinity ([1.5] becomes ['1.5'], [1e100] becomes ['1.0e+100']). *)
Class Sqlite : Type := {
  text_of_real : float → string
}.

(** A 64-bit signed integer, the INTEGER of SQLite. *)
Definition in_int64 (z : Z) : bool :=
  (- 2 ^ 63 <=? z) && (z <? 2 ^ 63).

(** A Python [int] bound to a statement. *)
Definition bind_int (z : Z) : result Z :=
  if in_int64 z then Ok z
  else Raise (OverflowError
                "Python int too large to convert to SQLite INTEGER").

(** A Python [float] stored in a [Float] column and read back: NaN is
    stored as NULL, a zero of either sign comes back as [0.0]. *)
Definition store_real (f : float) : option float :=
  match f with
  | S754_nan => None
  | S754_zero _ => Some float_zero
  | _ => Some f
  end.

(** A value bound to a [String] column or compared with one: [None] and
    text as they are, [bool] and [int] as the decimal text of the integer,
    a [float] as the text of the REAL that SQLite holds for it (NULL for
    NaN, one text for the two zeros); a list or a dict is rejected. *)
Definition bind_text `{Eng : Sqlite} (v : json) : result (option string) :=
  match v with
  | JNull => Ok None
  | JStr s => Ok (Some s)
  | JBool b => Ok (Some (if b then "1" else "0"))
  | JInt z => (λ n, Some (pretty n)) <$> bind_int z
  | JFloat f => Ok (text_of_real <$> store_real f)
  | JArr _ | JObj _ =>
      Raise (DriverError
               ("Error binding parameter: type '" ++ type_name v
                ++ "' is not supported"))
  end.

End Py.

(* ===================================================================== *)
(** * The tables of [models.py] and the session                           *)
(* ===================================================================== *)

Module Store.
Import Py.

(** A [DateTime] value.  [UtcNow c] is [datetime.utcnow()] read when the
    server clock shows [c].  [FromIso s c] is
    [datetime.fromisoformat(s)] when [s] parses and [datetime.utcnow()]
    read at [c] when it does not: the text and the fallback are both kept,
    the ISO-8601 grammar is not interpreted. *)
Inductive datetime : Type :=
  | UtcNow (clock : Z)
  | FromIso (text : string) (clock : Z).

(** A row of [product].  The table is a finite map from the unique,
    non-null [barcode] column to the rest of the row.  A [Float] column
    holds a number that is not NaN, or NULL. *)
Record Product : Type := {
  p_id : Z;
  p_name : option string;
  p_price : option float;
  p_cost : option float;
  p_qty : Z;
  p_is_new : bool;
  p_created_at : datetime
}.

(** [Product.to_dict()] *)
Record ProductDict : Type := {
  d_id : Z;
  d_barcode : string;
  d_name : option string;
  d_price : option float;
  d_cost : option float;
  d_qty : Z;
  d_is_new : bool;
  d_created_at : datetime
}.

Record Transaction : Type := {
  t_id : Z;
  t_created_at : datetime;
  t_total : option float;
  t_payment_type : option string;
  t_synced : bool
}.

Record TransactionLine : Type := {
  l_id : Z;
  l_transaction_id : Z;
  l_barcode : option string;
  l_name : option string;
  l_qty : Z;
  l_price : option float;
  l_cost : option float
}.

Record db : Type := {
  products : gmap string Product;
  transactions : list Transaction;
  transaction_lines : list TransactionLine
}.

Definition empty_db : db :=
  {| products := ∅; transactions := []; transaction_lines := [] |}.

Definition to_dict (barcode : string) (p : Product) : ProductDict :=
  {| d_id := p_id p; d_barcode := barcode; d_name := p_name p;
     d_price := p_price p; d_cost := p_cost p; d_qty := p_qty p;
     d_is_new := p_is_new p; d_created_at := p_created_at p |}.

(** The integer primary key given to a new row: one more than the largest
    in the table, 1 in an empty table. *)
Definition next_rowid (ids : list Z) : Z :=
  match ids with
  | [] => 1
  | i :: r => 1 + foldr Z.max i r
  end.

Definition product_ids (d : db) : list Z :=
  (λ e, p_id (snd e)) <$> map_to_list (products d).

(** [Product.query.filter_by(barcode=b).first()] *)
Definition find_product (b : option string) (d : db) : option Product :=
  match b with
  | Some s => products d !! s
  | None => None
  end.

(** [Transaction.lines], in insertion order. *)
Definition lines_of (tid : Z) (d : db) : list TransactionLine :=
  filter (λ l, l_transaction_id l = tid) (transaction_lines d).

(** [Transaction.query.get(tid)] *)
Definition find_transaction (tid : Z) (d : db) : option Transaction :=
  List.find (λ t, t_id t =? tid) (transactions d).

(** [TransactionLine.query.filter_by(barcode=b).all()] *)
Definition lines_with_barcode (b : string) (d : db) : list TransactionLine :=
  filter (λ l, l_barcode l = Some b) (transaction_lines d).

Definition set_product (b : string) (p : Product) (d : db) : db :=
  {| products := <[b := p]> (products d);
     transactions := transactions d;
     transaction_lines := transaction_lines d |}.

Definition set_qty (q : Z) (p : Product) : Product :=
  {| p_id := p_id p; p_name := p_name p; p_price := p_price p;
     p_cost := p_cost p; p_qty := q; p_is_new := p_is_new p;
     p_created_at := p_created_at p |}.

End Store.

(* ===================================================================== *)
(** * The handlers of [app.py]                                            *)
(* ===================================================================== *)

Module App.
Import Py Store.

(** ** The body of a [try] block: session state and exceptions

    [pending] is the session's view of the database, the committed rows
    with the changes added or flushed since the last commit; [updated] is
    the Python dict [updated_products]; [unflushed] is the stock count
    assigned to [prod.qty] and not yet written by an UPDATE.  An exception
    leaves them as they were when it was raised. *)
Record work : Type := {
  pending : db;
  updated : gmap string ProductDict;
  unflushed : option Z
}.

Definition M (A : Type) : Type := work → work * result A.

#[global] Instance M_ret : MRet M := λ A a w, (w, Ok a).

#[global] Instance M_bind : MBind M := λ A B f m w,
  match m w with
  | (w', Ok a) => f a w'
  | (w', Raise e) => (w', Raise e)
  end.

Definition lift {A} (r : result A) : M A := λ w, (w, r).

Definition get_pending : M db := λ w, (w, Ok (pending w)).

Definition put_pending (d : db) : M unit :=
  λ w, ({| pending := d; updated := updated w; unflushed := unflushed w |},
        Ok tt).

(** [updated_products[k] = v] *)
Definition put_updated (k : string) (v : ProductDict) : M unit :=
  λ w, ({| pending := pending w; updated := <[k := v]> (updated w);
           unflushed := unflushed w |}, Ok tt).

(** [prod.qty = q]: the UPDATE waits for the next flush. *)
Definition put_unflushed (q : Z) : M unit :=
  λ w, ({| pending := pending w; updated := updated w;
           unflushed := Some q |}, Ok tt).

(** The session flushes before a query and at the commit: the UPDATE of
    the stock count assigned last binds the new count. *)
Definition flush : M unit :=
  λ w, match unflushed w with
       | None => (w, Ok tt)
       | Some q =>
           match bind_int q with
           | Ok _ => ({| pending := pending w; updated := updated w;
                         unflushed := None |}, Ok tt)
           | Raise e => (w, Raise e)
           end
       end.

(** [for x in l: body(x)] *)
Fixpoint for_each {A} (body : A → M unit) (l : list A) : M unit :=
  match l with
  | [] => mret tt
  | x :: l' => body x ≫= λ _, for_each body l'
  end.

(** ** POST /api/sync *)

(** Lines 227 to 233: the timestamp of the new Transaction. *)
Definition parse_created_at (now : Z) (tx : dict) : datetime :=
  let v := dict_get tx "createdAt" in
  if truthy v then
    match v with
    | JStr s => FromIso s now
    | _ => UtcNow now
    end
  else UtcNow now.

(** [db.session.add(t); db.session.flush()], giving [t.id]. *)
Definition insert_transaction (created_at : datetime) (total : option float)
    (payment_type : option string) : M Z :=
  d ← get_pending;
  let tid := next_rowid (t_id <$> transactions d) in
  put_pending
    {| products := products d;
       transactions := transactions d ++
         [{| t_id := tid; t_created_at := created_at; t_total := total;
             t_payment_type := payment_type; t_synced := true |}];
       transaction_lines := transaction_lines d |};;
  mret tid.

(** The INSERT of [db.session.add(l)], with the values as they are
    stored. *)
Definition insert_line (tid : Z) (barcode name : option string) (qty : Z)
    (price cost : option float) : M unit :=
  d ← get_pending;
  put_pending
    {| products := products d;
       transactions := transactions d;
       transaction_lines := transaction_lines d ++
         [{| l_id := next_rowid (l_id <$> transaction_lines d);
             l_transaction_id := tid; l_barcode := barcode; l_name := name;
             l_qty := qty; l_price := price; l_cost := cost |}] |}.

(** Lines 239 to 251: one iteration of [for line in tx.get('lines', [])].
    The constructor of line 239 converts [qty], [price] and [cost]; the
    query of line 248 first flushes the session, which writes the stock
    count that the iteration before assigned and then inserts the new
    line, binding its columns in their order. *)
Definition sync_line `{Eng : Sqlite} (tid : Z) (line : json) : M unit :=
  l ← lift (as_dict line);
  qty ← lift (py_int (dict_get_or l "qty" (JInt 0)));
  price ← lift (py_float (dict_get_or l "price" (JInt 0)));
  cost ← lift (py_float (dict_get_or l "cost" (JInt 0)));
  flush;;
  barcode ← lift (bind_text (dict_get l "barcode"));
  name ← lift (bind_text (dict_get l "name"));
  stored_qty ← lift (bind_int qty);
  insert_line tid barcode name stored_qty (store_real price) (store_real cost);;
  d ← get_pending;
  match barcode, find_product barcode d with
  | Some b, Some prod =>
      let prod' := set_qty (Z.max 0 (or0 (p_qty prod) - qty)) prod in
      put_pending (set_product b prod' d);;
      put_unflushed (p_qty prod');;
      put_updated b (to_dict b prod')
  | _, _ => mret tt
  end.

(** Lines 225 to 253: the [try] block with the flush of the commit;
    returns [t.id]. *)
Definition sync_try `{Eng : Sqlite} (now : Z) (tx : dict) : M Z :=
  total ← lift (py_float (dict_get_or tx "total" (JInt 0)));
  let payment_type := dict_get_or tx "payment_type" (JStr "cash") in
  let created_at := parse_created_at now tx in
  pt ← lift (bind_text payment_type);
  tid ← insert_transaction created_at (store_real total) pt;
  lines ← lift (py_iter (dict_get_or tx "lines" (JArr [])));
  for_each (sync_line tid) lines;;
  flush;;
  mret tid.

(** The session at the start of an iteration of [for tx in txs]: nothing
    is pending. *)
Definition session (d : db) (u : gmap string ProductDict) : work :=
  {| pending := d; updated := u; unflushed := None |}.

(** The variables of the handler across the loop: the committed database,
    [ack] and [updated_products]. *)
Record loop_state : Type := {
  store : db;
  ack : list json;
  updated_products : gmap string ProductDict
}.

Definition ack_ok (local_id : json) (tid : Z) : json :=
  JObj [("local_id", local_id); ("status", JStr "ok"); ("server_id", JInt tid)].

Definition ack_error (local_id : json) (e : exn) : json :=
  JObj [("local_id", local_id); ("status", JStr "error");
        ("error", JStr (str_exn e))].

(** [db.session.commit()]: the pending view of the session becomes the
    committed database. *)
Definition commit (w : work) : db := pending w.

(** [db.session.rollback()]: the pending changes are dropped, the
    committed database stays. *)
Definition rollback (committed : db) (w : work) : db := committed.

(** Lines 223 to 257: one iteration of [for tx in txs].  The session starts
    from the committed database.  [updated_products] keeps what the [try]
    block wrote to it, on both paths. *)
Definition sync_step `{Eng : Sqlite} (now : Z) (s : loop_state) (tx : dict)
  : loop_state :=
  let local_id := dict_get tx "local_id" in
  match sync_try now tx (session (store s) (updated_products s)) with
  | (w, Ok tid) =>
      {| store := commit w;
         ack := ack s ++ [ack_ok local_id tid];
         updated_products := updated w |}
  | (w, Raise e) =>
      {| store := rollback (store s) w;
         ack := ack s ++ [ack_error local_id e];
         updated_products := updated w |}
  end.

(** [for tx in txs]: [tx.get('local_id')] is outside the [try], so an item
    that is not a dict ends the request. *)
Fixpoint sync_loop `{Eng : Sqlite} (now : Z) (txs : list json) (s : loop_state)
  : loop_state * result unit :=
  match txs with
  | [] => (s, Ok tt)
  | tx :: rest =>
      match as_dict tx with
      | Ok d => sync_loop now rest (sync_step now s d)
      | Raise e => (s, Raise e)
      end
  end.

(** What a handler answers: a JSON body with status 200, an error body
    [{'ok': False, 'error': ...}] with its status, or an exception that left
    the handler (status 500). *)
Inductive response (A : Type) : Type :=
  | Success (body : A)
  | Failure (status : Z) (error : string)
  | Unhandled (e : exn).
Arguments Success {A} body.
Arguments Failure {A} status error.
Arguments Unhandled {A} e.

(** The body [{'ok': True, 'ack': ..., 'updated_products': ...}]. *)
Record sync_body : Type := {
  body_ack : list json;
  body_updated_products : list ProductDict
}.

(** The body of an answer with status 200. *)
Definition body_of {A} (r : response A) : option A :=
  match r with
  | Success body => Some body
  | _ => None
  end.

Definition init_loop (st : db) : loop_state :=
  {| store := st; ack := []; updated_products := ∅ |}.

(** [list(updated_products.values())].  The answer lists the snapshots in
    the order of the finite map, not in the insertion order of the Python
    dict: the collection is read as unordered. *)
Definition sync_body_of (s : loop_state) : sync_body :=
  {| body_ack := ack s;
     body_updated_products := snd <$> map_to_list (updated_products s) |}.

(** [sync_transactions()]: the database after the request and the answer. *)
Definition sync_transactions `{Eng : Sqlite} (now : Z) (st : db)
    (request_json : json) : db * response sync_body :=
  match as_dict (py_or request_json (JObj [])) with
  | Raise e => (st, Unhandled e)
  | Ok payload =>
      match py_iter (dict_get_or payload "transactions" (JArr [])) with
      | Raise e => (st, Unhandled e)
      | Ok txs =>
          match sync_loop now txs (init_loop st) with
          | (s, Ok _) => (store s, Success (sync_body_of s))
          | (s, Raise e) => (store s, Unhandled e)
          end
      end
  end.

(** ** POST /api/products *)

(** [Product(barcode=barcode)] with the column defaults of the INSERT. *)
Definition new_product (now : Z) (st : db) : Product :=
  {| p_id := next_rowid (product_ids st); p_name := None; p_price := None;
     p_cost := None; p_qty := 0; p_is_new := true;
     p_created_at := UtcNow now |}.

(** Lines 199 to 205: the assignments, then the commit, which binds the
    assigned [name] and [qty] in the order of their columns.  The result
    is the row as the table holds it. *)
Definition assign_fields `{Eng : Sqlite} (data : dict) (p : Product)
  : result Product :=
  price ← (if dict_has data "price"
           then store_real <$> py_float (py_or (dict_get data "price") (JInt 0))
           else Ok (p_price p));
  cost ← (if dict_has data "cost"
          then store_real <$> py_float (py_or (dict_get data "cost") (JInt 0))
          else Ok (p_cost p));
  qty ← (if dict_has data "qty"
         then py_int (py_or (dict_get data "qty") (JInt 0))
         else Ok (p_qty p));
  let is_new := if dict_has data "is_new"
                then truthy (dict_get data "is_new") else p_is_new p in
  name ← (if dict_has data "name"
          then bind_text (dict_get data "name") else Ok (p_name p));
  stored_qty ← (if dict_has data "qty" then bind_int qty else Ok qty);
  mret {| p_id := p_id p; p_name := name; p_price := price; p_cost := cost;
          p_qty := stored_qty; p_is_new := is_new;
          p_created_at := p_created_at p |}.

(** [create_or_update_product()].  An exception leaves the handler before
    the commit has written anything, and the session is dropped with the
    request.  The answer is [product.to_dict()] after the commit, which
    reads the row back from the table. *)
Definition create_or_update_product `{Eng : Sqlite} (now : Z) (st : db)
    (request_json : json) : db * response ProductDict :=
  match
    data ← as_dict (py_or request_json (JObj []));
    barcode ← py_strip (py_or (dict_get data "barcode") (JStr ""));
    mret (data, barcode)
  with
  | Raise e => (st, Unhandled e)
  | Ok (data, barcode) =>
      if String.eqb barcode "" then (st, Failure 400 "barcode required")
      else
        let product :=
          match products st !! barcode with
          | Some p => p
          | None => new_product now st
          end in
        match assign_fields data product with
        | Raise e => (st, Unhandled e)
        | Ok p => (set_product barcode p st, Success (to_dict barcode p))
        end
  end.

(** ** POST /api/ai/suggest *)

Definition float_14 : float :=
  Eval vm_compute in binary_normalize prec emax 14 0 false.

Definition float_100 : float :=
  Eval vm_compute in binary_normalize prec emax 100 0 false.

(** [sum(l.qty for l in lines)] *)
Definition total_sold (lines : list TransactionLine) : Z :=
  foldr Z.add 0 (l_qty <$> lines).

(** Line 288, and the test of line 309: [None] stands for [float('inf')].
    The value is the one before [round(_, 1)], which is not modelled. *)
Definition days_of_cover (qty : Z) (avg_daily : float)
  : result (option float) :=
  if float_is_zero avg_daily then Ok None
  else
    q ← py_float (JInt qty);
    match SFdiv prec emax q avg_daily with
    | S754_infinity false => Ok None
    | d => Ok (Some d)
    end.

(** Lines 287 to 291. *)
Definition suggested_reorder (qty : Z) (avg_daily : float) : result Z :=
  if float_is_pos avg_daily then
    target ← (λ t, Z.max t 5) <$> py_int (JFloat (SFmul prec emax avg_daily float_14));
    mret (Z.max 0 (target - qty))
  else Ok 0.

(** Lines 293 to 297. *)
Definition margins (p : Product) : option float * option float :=
  match p_price p, p_cost p with
  | Some price, Some cost =>
      let margin := SFsub prec emax price cost in
      (Some margin,
       Some (if truthy (JFloat price)
             then SFmul prec emax (SFdiv prec emax margin price) float_100
             else float_zero))
  | _, _ => (None, None)
  end.

(** The fields of the answer that depend on the request. *)
Record suggest_body : Type := {
  sb_product : ProductDict;
  sb_total_sold_in_history : Z;
  sb_avg_daily_estimate : float;
  sb_days_of_cover : option float;
  sb_suggested_reorder_qty : Z;
  sb_margin_kes : option float;
  sb_margin_pct : option float
}.

(** Lines 283 to 319, for the product [prod] found at [barcode]. *)
Definition suggest_for (st : db) (barcode : string) (prod : Product)
    (lookback_days : Z) : result suggest_body :=
  let lines := lines_with_barcode barcode st in
  let sold := total_sold lines in
  avg_daily ← py_truediv sold (Z.max 1 lookback_days);
  cover ← days_of_cover (p_qty prod) avg_daily;
  reorder ← suggested_reorder (p_qty prod) avg_daily;
  mret {| sb_product := to_dict barcode prod;
          sb_total_sold_in_history := sold;
          sb_avg_daily_estimate := avg_daily;
          sb_days_of_cover := cover;
          sb_suggested_reorder_qty := reorder;
          sb_margin_kes := fst (margins prod);
          sb_margin_pct := snd (margins prod) |}.

(** [ai_suggest()] *)
Definition ai_suggest (st : db) (request_json : json)
  : response suggest_body :=
  match
    data ← as_dict (py_or request_json (JObj []));
    barcode ← py_strip (py_or (dict_get data "barcode") (JStr ""));
    lookback_days ← py_int (dict_get_or data "lookback_days" (JInt 14));
    mret (barcode, lookback_days)
  with
  | Raise e => Unhandled e
  | Ok (barcode, lookback_days) =>
      if String.eqb barcode "" then Failure 400 "barcode required"
      else
        match products st !! barcode with
        | None => Failure 404 "product not found"
        | Some prod =>
            match suggest_for st barcode prod lookback_days with
            | Raise e => Unhandled e
            | Ok body => Success body
            end
        end
  end.

End App.

(* ===================================================================== *)
(** * The properties: vocabulary                                          *)
(* ===================================================================== *)

Module Spec.
Import Py Store App.

(** ** Batches *)

(** The body [{'transactions': [tx, ...]}] carrying a batch of client
    transactions. *)
Definition sync_request (batch : list dict) : json :=
  JObj [("transactions", JArr (JObj <$> batch))].

(** The handler's variables after the loop over [batch]. *)
Definition run_batch `{Eng : Sqlite} (now : Z) (st : db) (batch : list dict)
  : loop_state :=
  foldl (sync_step now) (init_loop st) batch.

(** What the session does with the transaction [tx] found at the loop
    state [s]. *)
Definition attempt `{Eng : Sqlite} (now : Z) (s : loop_state) (tx : dict)
  : work * result Z :=
  sync_try now tx (session (store s) (updated_products s)).

(** ** The [try] block in two stages: the values built from the request,
       then the changes of the session *)

(** What the constructor of line 239 builds: the barcode and the name as
    submitted, and the numbers that [int()] and [float()] return. *)
Record line_values : Type := {
  lv_barcode : json;
  lv_name : json;
  lv_qty : Z;
  lv_price : float;
  lv_cost : float
}.

Definition read_line (line : json) : result line_values :=
  l ← as_dict line;
  qty ← py_int (dict_get_or l "qty" (JInt 0));
  price ← py_float (dict_get_or l "price" (JInt 0));
  cost ← py_float (dict_get_or l "cost" (JInt 0));
  mret {| lv_barcode := dict_get l "barcode"; lv_name := dict_get l "name";
          lv_qty := qty; lv_price := price; lv_cost := cost |}.

(** The columns of the row, as the INSERT binds and stores them. *)
Record line_fields : Type := {
  lf_barcode : option string;
  lf_name : option string;
  lf_qty : Z;
  lf_price : option float;
  lf_cost : option float
}.

Definition bind_line `{Eng : Sqlite} (v : line_values) : result line_fields :=
  barcode ← bind_text (lv_barcode v);
  name ← bind_text (lv_name v);
  qty ← bind_int (lv_qty v);
  mret {| lf_barcode := barcode; lf_name := name; lf_qty := qty;
          lf_price := store_real (lv_price v);
          lf_cost := store_real (lv_cost v) |}.

Definition parse_line `{Eng : Sqlite} (line : json) : result line_fields :=
  read_line line ≫= bind_line.

Definition line_row (tid : Z) (f : line_fields) (d : db) : TransactionLine :=
  {| l_id := next_rowid (l_id <$> transaction_lines d);
     l_transaction_id := tid; l_barcode := lf_barcode f;
     l_name := lf_name f; l_qty := lf_qty f; l_price := lf_price f;
     l_cost := lf_cost f |}.

Definition add_row (r : TransactionLine) (d : db) : db :=
  {| products := products d; transactions := transactions d;
     transaction_lines := transaction_lines d ++ [r] |}.

(** The floor-at-zero decrement of line 250. *)
Definition decrement (qty : Z) (p : Product) : Product :=
  set_qty (Z.max 0 (or0 (p_qty p) - qty)) p.

(** The session after the INSERT of the line and the assignment of line
    250. *)
Definition apply_line (tid : Z) (f : line_fields) (w : work) : work :=
  let d := add_row (line_row tid f (pending w)) (pending w) in
  match lf_barcode f, find_product (lf_barcode f) d with
  | Some b, Some prod =>
      {| pending := set_product b (decrement (lf_qty f) prod) d;
         updated := <[b := to_dict b (decrement (lf_qty f) prod)]> (updated w);
         unflushed := Some (p_qty (decrement (lf_qty f) prod)) |}
  | _, _ => {| pending := d; updated := updated w; unflushed := unflushed w |}
  end.

(** The stock count that waits for its UPDATE can be written. *)
Definition fits (w : work) : bool :=
  match unflushed w with
  | Some q => in_int64 q
  | None => true
  end.

(** The session after a flush. *)
Definition flushed (w : work) : work :=
  {| pending := pending w; updated := updated w; unflushed := None |}.

(** Two sessions with the same view of the database and the same stock
    count to write. *)
Definition same_view (w w' : work) : Prop :=
  pending w = pending w' ∧ unflushed w = unflushed w'.

(** One iteration of the loop over the lines. *)
Definition line_step `{Eng : Sqlite} (tid : Z) (line : json) (w : work)
  : work * result unit :=
  match read_line line with
  | Raise e => (w, Raise e)
  | Ok v =>
      match flush w with
      | (w', Raise e) => (w', Raise e)
      | (w', Ok _) =>
          match bind_line v with
          | Raise e => (w', Raise e)
          | Ok f => (apply_line tid f w', Ok tt)
          end
      end
  end.

Fixpoint apply_lines `{Eng : Sqlite} (tid : Z) (ls : list json) (w : work)
  : work * result unit :=
  match ls with
  | [] => (w, Ok tt)
  | x :: r =>
      match line_step tid x w with
      | (w', Ok _) => apply_lines tid r w'
      | (w', Raise e) => (w', Raise e)
      end
  end.

(** The loop over the lines and the flush of the commit. *)
Definition commit_lines `{Eng : Sqlite} (tid : Z) (ls : list json) (w : work)
  : work * result unit :=
  match apply_lines tid ls w with
  | (w', Ok _) => flush w'
  | (w', Raise e) => (w', Raise e)
  end.

(** The transaction [tx] with [ls] as its lines. *)
Definition with_lines (ls : list json) (tx : dict) : dict :=
  ("lines", JArr ls) :: tx.

(** The session [wa] is the session [wb] but for the rows of the ledger
    lines, and it may have written the stock count that [wb] has yet to
    write. *)
Definition ahead (wa wb : work) : Prop :=
  products (pending wa) = products (pending wb)
  ∧ transactions (pending wa) = transactions (pending wb)
  ∧ updated wa = updated wb
  ∧ (unflushed wa = unflushed wb ∨ unflushed wa = None ∧ fits wb = true).

(** The arguments of [Transaction(...)]. *)
Definition parse_head `{Eng : Sqlite} (tx : dict)
  : result (option float * option string) :=
  total ← py_float (dict_get_or tx "total" (JInt 0));
  pt ← bind_text (dict_get_or tx "payment_type" (JStr "cash"));
  mret (store_real total, pt).

Definition head_row (now : Z) (tx : dict) (h : option float * option string)
    (d : db) : Transaction :=
  {| t_id := next_rowid (t_id <$> transactions d);
     t_created_at := parse_created_at now tx; t_total := fst h;
     t_payment_type := snd h; t_synced := true |}.

Definition add_head (t : Transaction) (w : work) : work :=
  {| pending := {| products := products (pending w);
                   transactions := transactions (pending w) ++ [t];
                   transaction_lines := transaction_lines (pending w) |};
     updated := updated w;
     unflushed := unflushed w |}.

(** Every conversion and every binding of the transaction succeeds: its
    total, its payment type, its list of lines and the fields of each
    line.  A transaction that commits is one of these; one of these
    commits unless a stock count that it assigns is too large for the
    UPDATE (lemmas [sync_try_converts] and [sync_try_fit]). *)
Definition line_converts `{Eng : Sqlite} (line : json) : bool :=
  is_ok (parse_line line).

Definition tx_converts `{Eng : Sqlite} (tx : dict) : bool :=
  is_ok (parse_head tx) &&
  match py_iter (dict_get_or tx "lines" (JArr [])) with
  | Ok ls => forallb line_converts ls
  | Raise _ => false
  end.

(** ** Acknowledgements *)

(** An entry of [ack]: status ok with a [server_id] that is the id of a
    transaction of the ledger [d] and no [error], or status error with an
    [error] text and no [server_id]. *)
Definition ok_entry (d : db) (a : dict) : Prop :=
  assoc "status" a = Some (JStr "ok")
  ∧ (∃ tid, assoc "server_id" a = Some (JInt tid)
            ∧ is_Some (find_transaction tid d))
  ∧ assoc "error" a = None.

Definition error_entry (a : dict) : Prop :=
  assoc "status" a = Some (JStr "error")
  ∧ (∃ msg, assoc "error" a = Some (JStr msg))
  ∧ assoc "server_id" a = None.

Definition ack_entry (d : db) (v : json) : Prop :=
  ∃ a, v = JObj a ∧ (ok_entry d a ∨ error_entry a).

(** The entry that an iteration appends, lines 254 and 257. *)
Definition entry_of (tx : dict) (r : result Z) : json :=
  match r with
  | Ok tid => ack_ok (dict_get tx "local_id") tid
  | Raise e => ack_error (dict_get tx "local_id") e
  end.

(** ** Changed products *)

(** The snapshots of [updated_products] are filed under their own barcode,
    and none is filed under [b]. *)
Definition updated_without (b : string) (m : gmap string ProductDict) : Prop :=
  ∀ k d, m !! k = Some d → d_barcode d = k ∧ k ≠ b.

(** Every snapshot of [m] is filed under its own barcode. *)
Definition snapshots_keyed (m : gmap string ProductDict) : Prop :=
  ∀ k s, m !! k = Some s → d_barcode s = k.

(** Every snapshot of [m] is the row that the store [d] holds under its
    barcode. *)
Definition snapshots_current (d : db) (m : gmap string ProductDict) : Prop :=
  ∀ k s, m !! k = Some s → ∃ p, products d !! k = Some p ∧ s = to_dict k p.

(** ** The ledger *)

(** The foreign key of [transaction_line.transaction_id]. *)
Definition fk_ok (st : db) : Prop :=
  Forall (λ r, l_transaction_id r ∈ t_id <$> transactions st)
         (transaction_lines st).

(** The stored row holds what the submitted line gives for its barcode,
    qty, price and cost: the barcode as the driver binds it, the qty that
    [int()] returns, the price and the cost that [float()] returns, as the
    table stores them. *)
Definition line_stored `{Eng : Sqlite} (row : TransactionLine) (l : dict)
  : Prop :=
  bind_text (dict_get l "barcode") = Ok (l_barcode row)
  ∧ py_int (dict_get_or l "qty" (JInt 0)) = Ok (l_qty row)
  ∧ store_real <$> py_float (dict_get_or l "price" (JInt 0))
    = Ok (l_price row)
  ∧ store_real <$> py_float (dict_get_or l "cost" (JInt 0))
    = Ok (l_cost row).

(** A float that the table gives back as it was stored: not NaN, and not
    the negative zero. *)
Definition kept (f : float) : Prop := store_real f = Some f.

(** The stored row equals the submitted line field by field, for a line
    typed as the interface has it: a text barcode, an integer qty, and for
    price and for cost a float that the table keeps or an int, stored as
    the float nearest to it. *)
Definition line_equal (row : TransactionLine) (l : dict) : Prop :=
  (∀ s, dict_get l "barcode" = JStr s → l_barcode row = Some s)
  ∧ (∀ z, dict_get l "qty" = JInt z → l_qty row = z)
  ∧ (∀ f, dict_get l "price" = JFloat f → kept f → l_price row = Some f)
  ∧ (∀ z, dict_get l "price" = JInt z →
       ∃ f, float_of_Z z = Some f ∧ l_price row = store_real f)
  ∧ (∀ f, dict_get l "cost" = JFloat f → kept f → l_cost row = Some f)
  ∧ (∀ z, dict_get l "cost" = JInt z →
       ∃ f, float_of_Z z = Some f ∧ l_cost row = store_real f).

Definition line_matches `{Eng : Sqlite} (row : TransactionLine) (line : json)
  : Prop :=
  ∃ l, line = JObj l ∧ line_stored row l ∧ line_equal row l.


(** The ledger holds the transaction [tx] under the id [tid], with one row
    per submitted line, in order. *)
Definition recorded `{Eng : Sqlite} (tid : Z) (tx : dict) (d : db) : Prop :=
  ∃ t ls,
    find_transaction tid d = Some t
    ∧ t_id t = tid ∧ t_synced t = true
    ∧ py_iter (dict_get_or tx "lines" (JArr [])) = Ok ls
    ∧ Forall2 line_matches (lines_of tid d) ls.

(** The ledger holds a row of the transaction [tid] for every line
    submitted with [tx]. *)
Definition persisted `{Eng : Sqlite} (tid : Z) (tx : dict) (d : db) : Prop :=
  ∃ ls,
    py_iter (dict_get_or tx "lines" (JArr [])) = Ok ls
    ∧ ∀ (j : nat) line, ls !! j = Some line →
        ∃ row, row ∈ transaction_lines d
               ∧ l_transaction_id row = tid
               ∧ line_matches row line.

(** ** Stock *)

(** No product has a negative stock count. *)
Definition qty_nonneg (st : db) : Prop :=
  map_Forall (λ _ p, 0 ≤ p_qty p) (products st).

(** The requests that change the store. *)
Inductive op : Type :=
  | Sync (now : Z) (request_json : json)
  | Upsert (now : Z) (request_json : json).

Definition apply_op `{Eng : Sqlite} (st : db) (o : op) : db :=
  match o with
  | Sync now r => fst (sync_transactions now st r)
  | Upsert now r => fst (create_or_update_product now st r)
  end.

(** The stock count that a product request assigns at line 202, if it
    assigns one. *)
Definition supplied_qty (request_json : json) : option Z :=
  match as_dict (py_or request_json (JObj [])) with
  | Ok data =>
      if dict_has data "qty" then
        match py_int (py_or (dict_get data "qty") (JInt 0)) with
        | Ok z => Some z
        | Raise _ => None
        end
      else None
  | Raise _ => None
  end.

(** A product request that assigns no negative stock count. *)
Definition op_keeps_stock (o : op) : Prop :=
  match o with
  | Sync _ _ => True
  | Upsert _ r =>
      match supplied_qty r with
      | Some z => 0 ≤ z
      | None => True
      end
  end.

(** ** The reorder heuristic *)

(** A zero, or a finite float whose binary order of magnitude is at most
    [K]: less than [2^K] in absolute value. *)
Definition float_within (K : Z) (f : float) : Prop :=
  match f with
  | S754_zero _ => True
  | S754_finite _ m e => Zdigits2 (Zpos m) + e ≤ K ∧ e ≤ 971
  | _ => False
  end.

(** The body [{'barcode': b, 'lookback_days': days}]. *)
Definition suggest_request (b : string) (days : Z) : json :=
  JObj [("barcode", JStr b); ("lookback_days", JInt days)].

Definition Qmax (a b : Q) : Q := if Qle_bool a b then b else a.

(** The suggested reorder quantity, as the specification words it: the
    average daily rate is the quantity sold divided by the lookback days,
    the target is [max(avg_daily * 14, 5)] and the suggestion is
    [max(0, target - current_qty)].  Exact arithmetic on rationals. *)
Definition spec_reorder_qty (sold lookback_days qty : Z) : Q :=
  let avg_daily := (inject_Z sold / inject_Z lookback_days)%Q in
  let target := Qmax (avg_daily * inject_Z 14)%Q (inject_Z 5) in
  Qmax (inject_Z 0) (target - inject_Z qty)%Q.

End Spec.

(* ===================================================================== *)
(** * A small shop: the scenarios of the specification                    *)
(* ===================================================================== *)

Module Examples.
Import Py Store App Spec.

(** A stand-in for the engine in the examples, none of which binds a float
    to a column of text: it gives every float the same text. *)
Definition engine : Sqlite := {| text_of_real _ := "real" |}.

(** The product "111" with ten units in stock. *)
Definition milk : Product :=
  {| p_id := 1; p_name := Some "Milk"; p_price := None; p_cost := None;
     p_qty := 10; p_is_new := true; p_created_at := UtcNow 0 |}.

Definition shop : db :=
  {| products := {["111" := milk]}; transactions := [];
     transaction_lines := [] |}.

Definition line (barcode : string) (qty : json) : dict :=
  [("barcode", JStr barcode); ("name", JStr "item"); ("qty", qty);
   ("price", JInt 3); ("cost", JInt 2)].

(** A client transaction with the given lines. *)
Definition sale (local_id : string) (total : json) (lines : list dict) : dict :=
  [("local_id", JStr local_id); ("total", total);
   ("payment_type", JStr "cash"); ("lines", JArr (JObj <$> lines))].

(** Scenario A: a line on "111" and a line on the unknown "999". *)
Definition scenario_a : dict :=
  sale "a" (JInt 24) [line "111" (JInt 3); line "999" (JInt 5)].

(** Scenario B: two sales of "111", 4 then 8 units. *)
Definition scenario_b1 : dict := sale "b1" (JInt 12) [line "111" (JInt 4)].
Definition scenario_b2 : dict := sale "b2" (JInt 24) [line "111" (JInt 8)].

(** Scenario C: a total that is not a number. *)
Definition scenario_c : dict :=
  sale "c" (JStr "abc") [line "111" (JInt 1)].

(** A transaction without a [total] key. *)
Definition no_total : dict :=
  [("local_id", JStr "n"); ("lines", JArr [JObj (line "111" (JInt 1))])].

(** A transaction whose second line has a quantity that [int()] rejects. *)
Definition half_valid : dict :=
  sale "h" (JInt 9) [line "111" (JInt 3); line "111" (JStr "three")].

(** A batch with an item that is no object between two sales. *)
Definition stray_batch : json :=
  JObj [("transactions", JArr [JObj scenario_b1; JNull; JObj scenario_b2])].

(** A sale of one unit of "111" whose price is the float NaN. *)
Definition nan_sale : dict :=
  sale "x" (JInt 3)
    [[("barcode", JStr "111"); ("name", JStr "item"); ("qty", JInt 1);
      ("price", JFloat S754_nan); ("cost", JInt 2)]].

(** A product request that sets a negative stock count. *)
Definition negative_stock : json :=
  JObj [("barcode", JStr "111"); ("name", JStr "Milk"); ("qty", JInt (-5))].

Definition restock : json :=
  JObj [("barcode", JStr "111"); ("name", JStr "Milk"); ("qty", JInt 10)].

(** The answers of the handler, evaluated. *)
Definition answer (batch : list dict) : sync_body :=
  sync_body_of (run_batch (Eng := engine) 0 shop batch).

Definition scenario_a_body : sync_body :=
  Eval vm_compute in answer [scenario_a].

(** A ledger in which five units of "111" were sold, and one without
    sales. *)
Definition sold_five : db :=
  {| products := {["111" := set_qty 3 milk]};
     transactions :=
       [{| t_id := 1; t_created_at := UtcNow 0; t_total := Some float_zero;
           t_payment_type := Some "cash"; t_synced := true |}];
     transaction_lines :=
       [{| l_id := 1; l_transaction_id := 1; l_barcode := Some "111";
           l_name := None; l_qty := 2; l_price := Some float_zero;
           l_cost := Some float_zero |};
        {| l_id := 2; l_transaction_id := 1; l_barcode := Some "111";
           l_name := None; l_qty := 3; l_price := Some float_zero;
           l_cost := Some float_zero |}] |}.

Definition sold_none : db :=
  {| products := {["111" := set_qty 0 milk]}; transactions := [];
     transaction_lines := [] |}.

End Examples.

(* ===================================================================== *)
(** * The users of [models.py] and the auth handlers of [app.py]          *)
(* ===================================================================== *)

Module Auth.
Import Py Store App.

(** [werkzeug.security], a library outside the repository.  Its two
    functions are parameters of the handlers:
    [generate_password_hash(password)], with the salt that it draws as a
    second argument, and [check_password_hash(pwhash, password)], on any
    Python value and with the exceptions it may raise. *)
Class Werkzeug : Type := {
  generate_password_hash : string → string → string;
  check_password_hash : string → json → result bool
}.

(** A row of [user].  The table is the list of its rows in the order of
    their insertion, which is the order of their ids; [name] is the
    column with the unique constraint. *)
Record User : Type := {
  u_id : Z;
  u_name : string;
  u_pin_hash : string;
  u_is_admin : bool;
  u_created_at : datetime
}.

(** [User.to_dict()]: the row without [pin_hash]. *)
Record UserDict : Type := {
  ud_id : Z;
  ud_name : string;
  ud_is_admin : bool;
  ud_created_at : datetime
}.

Definition user_to_dict (u : User) : UserDict :=
  {| ud_id := u_id u; ud_name := u_name u; ud_is_admin := u_is_admin u;
     ud_created_at := u_created_at u |}.

(** [User.query.filter_by(name=n).first()] *)
Definition find_user (n : option string) (users : list User) : option User :=
  match n with
  | Some s => List.find (λ u, String.eqb (u_name u) s) users
  | None => None
  end.

(** [require_admin(name, pin)], lines 52 to 61. *)
Definition require_admin `{W : Werkzeug} `{Eng : Sqlite} (users : list User)
    (name pin : json)
  : result (option User) :=
  if negb (truthy name) || negb (truthy pin) then Ok None
  else
    n ← bind_text name;
    match find_user n users with
    | None => Ok None
    | Some user =>
        ok ← check_password_hash (u_pin_hash user) pin;
        mret (if ok && u_is_admin user then Some user else None)
    end.

(** [(data.get(k) or '').strip()] *)
Definition get_stripped (data : dict) (k : string) : result string :=
  py_strip (py_or (dict_get data k) (JStr "")).

(** Lines 39 to 46: the default admin of an empty table.  [env_admin_pin]
    is the environment variable ADMIN_PIN. *)
Definition bootstrap `{W : Werkzeug} (now : Z) (salt : string)
    (env_admin_pin : option string) (users : list User) : list User :=
  let admin_pin := default "1234" env_admin_pin in
  match users with
  | [] =>
      [{| u_id := next_rowid []; u_name := "admin";
          u_pin_hash := generate_password_hash admin_pin salt;
          u_is_admin := true; u_created_at := UtcNow now |}]
  | _ :: _ => users
  end.

(** [create_user()]: the table after the request and the answer. *)
Definition create_user `{W : Werkzeug} `{Eng : Sqlite} (now : Z)
    (salt : string)
    (users : list User) (request_json : json)
  : list User * response UserDict :=
  match
    data ← as_dict (py_or request_json (JObj []));
    name ← get_stripped data "name";
    pin ← get_stripped data "pin";
    mret (data, name, pin)
  with
  | Raise e => (users, Unhandled e)
  | Ok (data, name, pin) =>
      let is_admin := truthy (dict_get_or data "is_admin" (JBool false)) in
      let admin_name := dict_get data "admin_name" in
      let admin_pin := dict_get data "admin_pin" in
      if negb (truthy admin_name) || negb (truthy admin_pin) then
        (users,
         Failure 403 "admin_name and admin_pin required to create user on server")
      else
        match require_admin users admin_name admin_pin with
        | Raise e => (users, Unhandled e)
        | Ok None => (users, Failure 403 "admin auth failed")
        | Ok (Some _) =>
            if String.eqb name "" || String.eqb pin "" then
              (users, Failure 400 "name and pin required")
            else
              match find_user (Some name) users with
              | Some _ => (users, Failure 400 "user already exists")
              | None =>
                  let user :=
                    {| u_id := next_rowid (u_id <$> users); u_name := name;
                       u_pin_hash := generate_password_hash pin salt;
                       u_is_admin := is_admin; u_created_at := UtcNow now |} in
                  (users ++ [user], Success (user_to_dict user))
              end
        end
  end.

(** [login()] *)
Definition login `{W : Werkzeug} (users : list User) (request_json : json)
  : response UserDict :=
  match
    data ← as_dict (py_or request_json (JObj []));
    name ← get_stripped data "name";
    pin ← get_stripped data "pin";
    mret (name, pin)
  with
  | Raise e => Unhandled e
  | Ok (name, pin) =>
      if String.eqb name "" || String.eqb pin "" then
        Failure 400 "name and pin required"
      else
        match find_user (Some name) users with
        | None => Failure 401 "invalid credentials"
        | Some user =>
            match check_password_hash (u_pin_hash user) (JStr pin) with
            | Raise e => Unhandled e
            | Ok true => Success (user_to_dict user)
            | Ok false => Failure 401 "invalid credentials"
            end
        end
  end.

(** [user.pin_hash = h] on the row that
    [User.query.filter_by(name=n).first()] returns. *)
Fixpoint set_pin_hash (n h : string) (users : list User) : list User :=
  match users with
  | [] => []
  | u :: rest =>
      if String.eqb (u_name u) n then
        {| u_id := u_id u; u_name := u_name u; u_pin_hash := h;
           u_is_admin := u_is_admin u; u_created_at := u_created_at u |}
        :: rest
      else u :: set_pin_hash n h rest
  end.

(** [change_pin()]: the table after the request and the answer. *)
Definition change_pin `{W : Werkzeug} `{Eng : Sqlite} (salt : string)
    (users : list User)
    (request_json : json) : list User * response UserDict :=
  match
    data ← as_dict (py_or request_json (JObj []));
    target_name ← get_stripped data "target_name";
    new_pin ← get_stripped data "new_pin";
    mret (data, target_name, new_pin)
  with
  | Raise e => (users, Unhandled e)
  | Ok (data, target_name, new_pin) =>
      let admin_name := dict_get data "admin_name" in
      let admin_pin := dict_get data "admin_pin" in
      if String.eqb target_name "" || String.eqb new_pin ""
         || negb (truthy admin_name) || negb (truthy admin_pin) then
        (users,
         Failure 400 "target_name, new_pin, admin_name, admin_pin required")
      else
        match require_admin users admin_name admin_pin with
        | Raise e => (users, Unhandled e)
        | Ok None => (users, Failure 403 "admin auth failed")
        | Ok (Some _) =>
            match find_user (Some target_name) users with
            | None => (users, Failure 404 "target user not found")
            | Some user =>
                (set_pin_hash target_name
                   (generate_password_hash new_pin salt) users,
                 Success (user_to_dict user))
            end
        end
  end.

(** A query parameter of [request.args.get]: a text or [None]. *)
Definition arg (v : option string) : json :=
  match v with
  | Some s => JStr s
  | None => JNull
  end.

(** [list_users()], with the query parameters [admin_name] and
    [admin_pin].  [User.query.all()] gives the rows in the order of the
    table. *)
Definition list_users `{W : Werkzeug} `{Eng : Sqlite} (users : list User)
    (admin_name admin_pin : option string) : response (list UserDict) :=
  if negb (truthy (arg admin_name)) || negb (truthy (arg admin_pin)) then
    Failure 403 "admin auth required"
  else
    match require_admin users (arg admin_name) (arg admin_pin) with
    | Raise e => Unhandled e
    | Ok None => Failure 403 "admin auth required"
    | Ok (Some _) => Success (user_to_dict <$> users)
    end.

End Auth.

(* ===================================================================== *)
(** * Further vocabulary: the ledger, the catalog, the user table         *)
(* ===================================================================== *)

Module Terms.
Import Py Store App Spec Auth.

(** ** Acknowledgements *)

(** The [status] of an entry of [ack]. *)
Definition status_of (v : json) : option string :=
  match v with
  | JObj a =>
      match assoc "status" a with
      | Some (JStr s) => Some s
      | _ => None
      end
  | _ => None
  end.

Definition server_id_of (v : json) : option Z :=
  match v with
  | JObj a =>
      match assoc "server_id" a with
      | Some (JInt tid) => Some tid
      | _ => None
      end
  | _ => None
  end.

(** The [server_id]s of an [ack] list, in order. *)
Definition server_ids (acks : list json) : list Z := omap server_id_of acks.

(** The ledger of [d'] is the ledger of [d] followed by new transactions
    with the ids [ids], all marked as synced, and by lines that belong to
    them. *)
Definition ledger_grows (ids : list Z) (d d' : db) : Prop :=
  ∃ ts ls,
    transactions d' = transactions d ++ ts
    ∧ transaction_lines d' = transaction_lines d ++ ls
    ∧ t_id <$> ts = ids
    ∧ Forall (λ t, t_synced t = true) ts
    ∧ Forall (λ l, l_transaction_id l ∈ ids) ls.

(** The row [t] holds what the [try] block builds from the head of the
    submitted transaction [tx] at the clock reading [now]: the total that
    [float()] returns, as the table stores it (NULL for NaN), the payment
    type as the driver binds it, "cash" when there is none, the
    flag [synced], and as timestamp the text of [createdAt] when it is a
    text that is not empty, with the server clock in every other case and
    as the fallback of a text that does not parse. *)
Definition header_stored `{Eng : Sqlite} (now : Z) (t : Transaction) (tx : dict)
  : Prop :=
  store_real <$> py_float (dict_get_or tx "total" (JInt 0)) = Ok (t_total t)
  ∧ bind_text (dict_get_or tx "payment_type" (JStr "cash"))
    = Ok (t_payment_type t)
  ∧ t_synced t = true
  ∧ t_created_at t
    = match dict_get tx "createdAt" with
      | JStr s => if String.eqb s "" then UtcNow now else FromIso s now
      | _ => UtcNow now
      end.

(** ** Stock against the ledger *)

(** The stock count [q] after sales of [ns] units, each floored at zero. *)
Definition sold_down (q : Z) (ns : list Z) : Z :=
  foldl (λ q n, Z.max 0 (q - n)) q ns.

(** The quantities of the rows with the barcode [b], in order. *)
Definition quantities (b : string) (rows : list TransactionLine) : list Z :=
  l_qty <$> filter (λ r, l_barcode r = Some b) rows.

(** The store [d'] holds the ledger lines of [d] followed by [rows], and
    the products of [d], each with its stock count sold down by the rows
    of its barcode. *)
Definition stock_follows (rows : list TransactionLine) (d d' : db) : Prop :=
  transaction_lines d' = transaction_lines d ++ rows
  ∧ ∀ b, products d' !! b
         = (λ p, set_qty (sold_down (p_qty p) (quantities b rows)) p)
             <$> products d !! b.

(** Every line of the transaction that converts and binds has a quantity
    that is not negative. *)
Definition sells_nonneg `{Eng : Sqlite} (tx : dict) : bool :=
  match py_iter (dict_get_or tx "lines" (JArr [])) with
  | Ok ls =>
      forallb (λ x, match parse_line x with
                    | Ok f => 0 <=? lf_qty f
                    | Raise _ => true
                    end) ls
  | Raise _ => true
  end.

(** No stock count of [m'] is above the count of the same product in
    [m], or above zero. *)
Definition not_above (m m' : gmap string Product) : Prop :=
  ∀ b p', m' !! b = Some p' →
    ∃ p, m !! b = Some p ∧ p_qty p' ≤ Z.max 0 (p_qty p).

(** A line of the transaction carries the barcode [b]: the text [b], or
    a number that the driver binds as [b]. *)
Definition names_barcode `{Eng : Sqlite} (b : string) (tx : dict) : Prop :=
  ∃ ls l, py_iter (dict_get_or tx "lines" (JArr [])) = Ok ls
          ∧ JObj l ∈ ls
          ∧ bind_text (dict_get l "barcode") = Ok (Some b).

(** The entry has status ok. *)
Definition acknowledged (v : json) : Prop := status_of v = Some "ok".

(** Every stock count of the catalog is a 64-bit integer, as SQLite holds
    it. *)
Definition stock_fits (m : gmap string Product) : Prop :=
  map_Forall (λ _ p, in_int64 (p_qty p) = true) m.

(** Every key of [updated_products] is a barcode of the catalog with the
    property [P]. *)
Definition listed (P : string → Prop) (catalog : gmap string Product)
    (m : gmap string ProductDict) : Prop :=
  ∀ k d, m !! k = Some d → is_Some (catalog !! k) ∧ P k.

(** The primary keys of the three tables are pairwise distinct. *)
Definition keys_unique (st : db) : Prop :=
  NoDup (product_ids st)
  ∧ NoDup (t_id <$> transactions st)
  ∧ NoDup (l_id <$> transaction_lines st).

(** ** The user table *)

(** The requests that change the user table. *)
Inductive auth_op : Type :=
  | CreateUser (now : Z) (salt : string) (request_json : json)
  | ChangePin (salt : string) (request_json : json).

Definition apply_auth_op `{W : Werkzeug} `{Eng : Sqlite} (users : list User)
    (o : auth_op)
  : list User :=
  match o with
  | CreateUser now salt r => fst (create_user now salt users r)
  | ChangePin salt r => fst (change_pin salt users r)
  end.

Definition auth_body (o : auth_op) : json :=
  match o with
  | CreateUser _ _ r => r
  | ChangePin _ r => r
  end.

(** [check_password_hash] accepts [pin] for the hash of an admin of the
    table, and [name], when it is a text, is the name of that admin. *)
Definition admin_credentials `{W : Werkzeug} (users : list User)
    (name pin : json)
  : Prop :=
  ∃ admin,
    admin ∈ users
    ∧ u_is_admin admin = true
    ∧ (∀ s, name = JStr s → u_name admin = s)
    ∧ check_password_hash (u_pin_hash admin) pin = Ok true.

(** The body of the request carries the credentials of an admin as
    [admin_name] and [admin_pin]. *)
Definition by_admin `{W : Werkzeug} (users : list User) (request_json : json)
  : Prop :=
  ∃ data,
    as_dict (py_or request_json (JObj [])) = Ok data
    ∧ admin_credentials users (dict_get data "admin_name")
        (dict_get data "admin_pin").

(** The unique constraint of [name], and the primary key. *)
Definition users_unique (users : list User) : Prop :=
  NoDup (u_name <$> users) ∧ NoDup (u_id <$> users).

(** What the library promises: a hash that [generate_password_hash] made
    for a text is accepted for that text. *)
Definition hash_sound `{W : Werkzeug} : Prop :=
  ∀ pw salt,
    check_password_hash (generate_password_hash pw salt) (JStr pw) = Ok true.

(** The body [{'name': name, 'pin': pin}]. *)
Definition login_request (name pin : json) : json :=
  JObj [("name", name); ("pin", pin)].

(** The row [u'] is the row [u] with, possibly, another [pin_hash]. *)
Definition same_user (u u' : User) : Prop :=
  u_id u' = u_id u ∧ u_name u' = u_name u
  ∧ u_is_admin u' = u_is_admin u ∧ u_created_at u' = u_created_at u.

End Terms.

(* ===================================================================== *)
(** * A small staff: examples for the user table                          *)
(* ===================================================================== *)

Module Staff.
Import Py Store App Spec Examples Auth Terms.

(** A stand-in for the library in the examples: the hash of a text is the
    text itself, whatever the salt, and a value that is no text is
    rejected. *)
#[export] Instance plain : Werkzeug := {|
  generate_password_hash pw _ := pw;
  check_password_hash h v :=
    match v with
    | JStr p => Ok (String.eqb h p)
    | _ => Raise (TypeError "a password is a text")
    end
|}.

(** The table after the first start, with the default pin. *)
Definition office : list User := bootstrap 0 "s0" None [].

(** A table that holds a clerk and no admin. *)
Definition clerks : list User :=
  [{| u_id := 1; u_name := "ann"; u_pin_hash := "4321"; u_is_admin := false;
      u_created_at := UtcNow 0 |}].

(** The admin creates the clerk "ann"; the name comes with blanks. *)
Definition hire : json :=
  JObj [("name", JStr " ann "); ("pin", JStr "4321");
        ("admin_name", JStr "admin"); ("admin_pin", JStr "1234")].

(** The admin gives "ann" another pin. *)
Definition repin : json :=
  JObj [("target_name", JStr "ann"); ("new_pin", JStr "9999");
        ("admin_name", JStr "admin"); ("admin_pin", JStr "1234")].

(** The clerk tries to create an admin with the clerk's own credentials. *)
Definition promote : json :=
  JObj [("name", JStr "eve"); ("pin", JStr "0000"); ("is_admin", JBool true);
        ("admin_name", JStr "ann"); ("admin_pin", JStr "4321")].

(** What the answers show of "ann". *)
Definition ann : UserDict :=
  {| ud_id := 2; ud_name := "ann"; ud_is_admin := false;
     ud_created_at := UtcNow 1 |}.

(** A product request that sets a name and a null price, and names no
    other field. *)
Definition rename : json :=
  JObj [("barcode", JStr " 111 "); ("name", JStr "Whole milk");
        ("price", JNull)].

(** The sale [scenario_b1] with a time stamp. *)
Definition stamped : dict :=
  ("createdAt", JStr "2024-05-01T10:00:00") :: scenario_b1.

End Staff.

(* ===================================================================== *)
(** * The loop of [sync_transactions]                                     *)
(* ===================================================================== *)

Import Py Store App Spec Examples Terms.

Section SyncLoop.
Context `{Eng : Sqlite}.
Variable now : Z.

Lemma sync_loop_dicts (batch : list dict) (s : loop_state) :
  sync_loop now (JObj <$> batch) s = (foldl (sync_step now) s batch, Ok tt).
Proof.
  revert s. induction batch as [|tx batch IH]; intros s; simpl; [done|].
  apply IH.
Qed.

Lemma sync_transactions_batch (st : db) (batch : list dict) :
  sync_transactions now st (sync_request batch)
  = (store (run_batch now st batch),
     Success (sync_body_of (run_batch now st batch))).
Proof.
  unfold sync_transactions, sync_request, run_batch. simpl.
  by rewrite sync_loop_dicts.
Qed.

Lemma run_batch_snoc (st : db) (batch : list dict) (tx : dict) :
  run_batch now st (batch ++ [tx])
  = sync_step now (run_batch now st batch) tx.
Proof. unfold run_batch. by rewrite foldl_snoc. Qed.

Lemma run_batch_app (st : db) (pre post : list dict) :
  run_batch now st (pre ++ post)
  = foldl (sync_step now) (run_batch now st pre) post.
Proof. unfold run_batch. by rewrite foldl_app. Qed.

(** One iteration appends one entry to [ack]. *)
Lemma sync_step_ack (s : loop_state) (tx : dict) :
  ∃ a, ack (sync_step now s tx) = ack s ++ [JObj a]
       ∧ dict_get a "local_id" = dict_get tx "local_id".
Proof.
  unfold sync_step.
  destruct (sync_try now tx _) as [w [tid|e]]; simpl;
    (eexists; split; reflexivity).
Qed.

Lemma foldl_step_ack_length (batch : list dict) (s : loop_state) :
  length (ack (foldl (sync_step now) s batch))
  = (length (ack s) + length batch)%nat.
Proof.
  revert s. induction batch as [|tx batch IH]; intros s; simpl; [lia|].
  rewrite IH. destruct (sync_step_ack s tx) as (a & -> & _).
  rewrite length_app. simpl. lia.
Qed.

Lemma foldl_step_ack_prefix (batch : list dict) (s : loop_state) :
  ∃ k, ack (foldl (sync_step now) s batch) = ack s ++ k.
Proof.
  revert s. induction batch as [|tx batch IH]; intros s; simpl.
  - exists []. by rewrite app_nil_r.
  - destruct (IH (sync_step now s tx)) as [k ->].
    destruct (sync_step_ack s tx) as (a & -> & _).
    eexists. by rewrite <- app_assoc.
Qed.

Lemma foldl_step_ack_lookup (batch : list dict) (s : loop_state)
    (i : nat) (tx : dict) :
  batch !! i = Some tx →
  ∃ a, ack (foldl (sync_step now) s batch) !! (length (ack s) + i)%nat
       = Some (JObj a)
       ∧ dict_get a "local_id" = dict_get tx "local_id".
Proof.
  revert s i. induction batch as [|tx' batch IH]; intros s i Hi; [done|].
  simpl. destruct i as [|i]; simpl in Hi.
  - injection Hi as ->.
    destruct (sync_step_ack s tx) as (a & Ha & Hl).
    destruct (foldl_step_ack_prefix batch (sync_step now s tx)) as [k ->].
    exists a. rewrite Ha, <- app_assoc, Nat.add_0_r.
    split; [|done]. simpl. by apply list_lookup_middle.
  - destruct (IH (sync_step now s tx') i Hi) as (a & Ha & Hl).
    exists a. split; [|done].
    destruct (sync_step_ack s tx') as (a' & Ha' & _).
    rewrite Ha', length_app in Ha. simpl in Ha.
    by replace (length (ack s) + S i)%nat
      with (length (ack s) + 1 + i)%nat by lia.
Qed.

End SyncLoop.

(** For every batch of objects the handler answers with status 200,
    [ack] has the length of the batch, and the entry at each position is
    the one of the transaction at that position: it carries that
    transaction's [local_id]. *)
Lemma ack_follows_batch `{Eng : Sqlite} (now : Z) (st : db)
    (batch : list dict) :
  ∃ body,
    snd (sync_transactions now st (sync_request batch)) = Success body
    ∧ length (body_ack body) = length batch
    ∧ ∀ (i : nat) (tx : dict), batch !! i = Some tx →
        ∃ a, body_ack body !! i = Some (JObj a)
             ∧ dict_get a "local_id" = dict_get tx "local_id".
Proof.
  rewrite sync_transactions_batch. eexists; split; [reflexivity|].
  unfold run_batch; simpl. split.
  - by rewrite foldl_step_ack_length.
  - intros i tx Hi.
    destruct (foldl_step_ack_lookup now batch (init_loop st) i tx Hi)
      as (a & Ha & Hl).
    exists a. by split.
Qed.

(* ===================================================================== *)
(** * The [try] block, stage by stage                                     *)
(* ===================================================================== *)

Ltac unfold_M :=
  unfold mbind, mret, M_bind, M_ret, result_bind, result_ret, lift,
    get_pending, put_pending, put_updated, put_unflushed; simpl.

Section TryBlock.
Context `{Eng : Sqlite}.

(** A flush goes through when the pending stock count fits, and raises
    without a change otherwise. *)
Lemma flush_eq (w : work) :
  flush w
  = if fits w then (flushed w, Ok tt)
    else (w, Raise (OverflowError
                      "Python int too large to convert to SQLite INTEGER")).
Proof.
  unfold flush, fits, flushed, bind_int.
  destruct w as [d u [q|]]; simpl; [|done].
  by destruct (in_int64 q).
Qed.

Lemma flush_ok (w w' : work) :
  flush w = (w', Ok tt) → fits w = true ∧ w' = flushed w.
Proof. rewrite flush_eq. destruct (fits w); [|done]. by intros [= <-]. Qed.

Lemma flushed_fits (w : work) : fits (flushed w) = true.
Proof. done. Qed.

Lemma sync_line_eq (tid : Z) (line : json) (w : work) :
  sync_line tid line w = line_step tid line w.
Proof.
  unfold sync_line, line_step, read_line. unfold_M.
  destruct (as_dict line) as [l|e]; [|done].
  destruct (py_int _) as [qty|e]; [|done].
  destruct (py_float (dict_get_or l "price" _)) as [price|e]; [|done].
  destruct (py_float (dict_get_or l "cost" _)) as [cost|e]; [|done].
  simpl. destruct (flush w) as [w' [[]|e]]; [|done].
  unfold bind_line. unfold_M.
  destruct (bind_text (dict_get l "barcode")) as [barcode|e]; [|done].
  destruct (bind_text (dict_get l "name")) as [name|e]; [|done].
  destruct (bind_int qty) as [q|e] eqn:Eq; [|done].
  assert (q = qty) as ->.
  { unfold bind_int in Eq. destruct (in_int64 qty); congruence. }
  unfold insert_line, apply_line. unfold_M.
  destruct barcode as [b|]; [|done]. simpl.
  by destruct (products (pending w') !! b).
Qed.

Lemma for_each_sync_line (tid : Z) (ls : list json) (w : work) :
  for_each (sync_line tid) ls w = apply_lines tid ls w.
Proof.
  revert w. induction ls as [|x ls IH]; intros w; simpl; [done|].
  unfold mbind, M_bind. rewrite sync_line_eq.
  destruct (line_step tid x w) as [w' [[]|e]]; [apply IH|done].
Qed.

(** The outcomes of one iteration over the lines: the line goes through
    from a session that could be flushed, or the session keeps its view
    and the snapshots. *)
Lemma line_step_cases (tid : Z) (x : json) (w : work) :
  (∃ f, parse_line x = Ok f ∧ fits w = true
        ∧ line_step tid x w = (apply_line tid f (flushed w), Ok tt))
  ∨ (∃ w' e, line_step tid x w = (w', Raise e)
             ∧ (w' = w ∨ w' = flushed w)
             ∧ (line_converts x = true → fits w = false)).
Proof.
  unfold line_converts, line_step, parse_line. rewrite flush_eq.
  destruct (read_line x) as [v|e]; simpl.
  - destruct (fits w) eqn:Ef.
    + destruct (bind_line v) as [f|e]; [left; by exists f|].
      right. eexists _, _. split; [done|]. split; [by right|done].
    + right. eexists _, _. split; [done|]. split; [by left|done].
  - right. eexists _, _. split; [done|]. split; [by left|done].
Qed.

(** What a flush and every line keep holds after the loop over the
    lines, and after the flush of the commit. *)
Lemma apply_lines_invariant (P : work → Prop) (tid : Z) (ls : list json)
    (w : work) :
  (∀ w, P w → P (flushed w)) →
  (∀ x f w, x ∈ ls → parse_line x = Ok f → P w → P (apply_line tid f w)) →
  P w → P (fst (apply_lines tid ls w)).
Proof.
  intros Hf. revert w. induction ls as [|x ls IH]; intros w Ha H; simpl;
    [done|].
  destruct (line_step_cases tid x w)
    as [(f & Hp & _ & ->)|(w' & e & -> & [->| ->] & _)]; simpl; auto.
  apply IH.
  - intros y g w1 Hy. apply Ha. by right.
  - apply (Ha x f); [by left|done|]. by apply Hf.
Qed.

Lemma commit_lines_invariant (P : work → Prop) (tid : Z) (ls : list json)
    (w : work) :
  (∀ w, P w → P (flushed w)) →
  (∀ x f w, x ∈ ls → parse_line x = Ok f → P w → P (apply_line tid f w)) →
  P w → P (fst (commit_lines tid ls w)).
Proof.
  intros Hf Ha H. unfold commit_lines.
  pose proof (apply_lines_invariant P tid ls w Hf Ha H) as H'.
  destruct (apply_lines tid ls w) as [w' [[]|e]]; [|done].
  rewrite flush_eq. destruct (fits w'); simpl in *; auto.
Qed.

Lemma sync_try_eq (now : Z) (tx : dict) (w : work) :
  sync_try now tx w
  = match parse_head tx with
    | Raise e => (w, Raise e)
    | Ok h =>
        let t := head_row now tx h (pending w) in
        match py_iter (dict_get_or tx "lines" (JArr [])) with
        | Raise e => (add_head t w, Raise e)
        | Ok ls =>
            match commit_lines (t_id t) ls (add_head t w) with
            | (w', Ok _) => (w', Ok (t_id t))
            | (w', Raise e) => (w', Raise e)
            end
        end
    end.
Proof.
  unfold sync_try, parse_head, commit_lines. unfold_M.
  destruct (py_float _) as [total|e]; [|done].
  destruct (bind_text _) as [pt|e]; [|done].
  unfold insert_transaction. unfold_M.
  destruct (py_iter _) as [ls|e]; [|done].
  rewrite for_each_sync_line. unfold add_head, head_row. simpl.
  destruct (apply_lines _ ls _) as [w' [[]|e]]; [|done].
  by destruct (flush w') as [w'' [[]|e]].
Qed.

Lemma commit_lines_ok (tid : Z) (ls : list json) (w w' : work) :
  commit_lines tid ls w = (w', Ok tt) →
  ∃ w1, apply_lines tid ls w = (w1, Ok tt) ∧ fits w1 = true
        ∧ w' = flushed w1.
Proof.
  unfold commit_lines.
  destruct (apply_lines tid ls w) as [w1 [[]|e]]; [|done].
  intros [Hf ->]%flush_ok. by exists w1.
Qed.

Lemma line_step_ok (tid : Z) (x : json) (f : line_fields) (w : work) :
  parse_line x = Ok f → fits w = true →
  line_step tid x w = (apply_line tid f (flushed w), Ok tt).
Proof.
  unfold line_step, parse_line. rewrite flush_eq.
  destruct (read_line x) as [v|e]; simpl; [|done].
  intros Hb ->. by rewrite Hb.
Qed.

Lemma commit_lines_cons (tid : Z) (x : json) (ls : list json) (w : work) :
  commit_lines tid (x :: ls) w
  = match line_step tid x w with
    | (w', Ok _) => commit_lines tid ls w'
    | (w', Raise e) => (w', Raise e)
    end.
Proof.
  unfold commit_lines. simpl.
  by destruct (line_step tid x w) as [w' [[]|e]].
Qed.

Lemma commit_lines_app (tid : Z) (ls1 ls2 : list json) (w : work) :
  commit_lines tid (ls1 ++ ls2) w
  = match apply_lines tid ls1 w with
    | (w', Ok _) => commit_lines tid ls2 w'
    | (w', Raise e) => (w', Raise e)
    end.
Proof.
  revert w. induction ls1 as [|x ls1 IH]; intros w; [done|].
  simpl. rewrite commit_lines_cons.
  destruct (line_step tid x w) as [w' [[]|e]]; [apply IH|done].
Qed.

(** A loop that reaches the commit starts from a session that could be
    flushed. *)
Lemma commit_lines_fits (tid : Z) (ls : list json) (w w' : work) :
  commit_lines tid ls w = (w', Ok tt) → fits w = true.
Proof.
  destruct ls as [|x ls].
  - by intros (w1 & [= <-] & Hf & _)%commit_lines_ok.
  - rewrite commit_lines_cons.
    destruct (line_step_cases tid x w)
      as [(f & _ & Hf & _)|(w2 & e & -> & _)]; done.
Qed.

(** The same for the whole [try] block, for a property that the INSERT of
    the transaction keeps. *)
Lemma sync_try_invariant (P : work → Prop) (now : Z) (tx : dict) (w : work) :
  (∀ w, P w → P (flushed w)) →
  (∀ h, P w → P (add_head (head_row now tx h (pending w)) w)) →
  (∀ tid f w, P w → P (apply_line tid f w)) →
  P w → P (fst (sync_try now tx w)).
Proof.
  intros Hf Hh Ha H. rewrite sync_try_eq.
  destruct (parse_head tx) as [h|e]; [|done]. simpl.
  destruct (py_iter _) as [ls|e]; [|by apply Hh].
  set (t := head_row now tx h (pending w)).
  pose proof (commit_lines_invariant P (t_id t) ls (add_head t w)) as H'.
  destruct (commit_lines _ ls _) as [w' [[]|e]]; simpl in *;
    (apply H'; [done|by intros; apply Ha|by apply Hh]).
Qed.

End TryBlock.

(* ===================================================================== *)
(** * Rollback: a failed transaction leaves the store as it found it      *)
(* ===================================================================== *)

Section Rollback.
Context `{Eng : Sqlite}.
Variable now : Z.

(** What the block does to a session does not depend on the contents of
    [updated_products]. *)
Lemma apply_line_view (tid : Z) (f : line_fields) (w w' : work) :
  pending w = pending w' →
  same_view (apply_line tid f (flushed w)) (apply_line tid f (flushed w')).
Proof.
  intros H. unfold apply_line, same_view. simpl. rewrite H.
  destruct (lf_barcode f) as [b|]; [|done].
  by destruct (find_product _ _).
Qed.

Lemma line_step_view (tid : Z) (x : json) (w w' : work) :
  same_view w w' →
  same_view (fst (line_step tid x w)) (fst (line_step tid x w'))
  ∧ snd (line_step tid x w) = snd (line_step tid x w').
Proof.
  intros [Hp Hu]. unfold line_step. rewrite !flush_eq.
  assert (fits w = fits w') as Hf by (unfold fits; by rewrite Hu).
  destruct (read_line x) as [v|e]; [|done]. rewrite <- Hf.
  destruct (fits w); [|done].
  destruct (bind_line v) as [f|e]; simpl; [|done].
  split; [|done]. by apply apply_line_view.
Qed.

Lemma apply_lines_view (tid : Z) (ls : list json) (w w' : work) :
  same_view w w' →
  same_view (fst (apply_lines tid ls w)) (fst (apply_lines tid ls w'))
  ∧ snd (apply_lines tid ls w) = snd (apply_lines tid ls w').
Proof.
  revert w w'. induction ls as [|x ls IH]; intros w w' H; simpl; [done|].
  destruct (line_step_view tid x w w' H) as [Hv Hr].
  destruct (line_step tid x w) as [w1 r1], (line_step tid x w') as [w1' r1'].
  simpl in *. subst r1'. destruct r1 as [[]|e]; [|done]. by apply IH.
Qed.

Lemma commit_lines_view (tid : Z) (ls : list json) (w w' : work) :
  same_view w w' →
  pending (fst (commit_lines tid ls w)) = pending (fst (commit_lines tid ls w'))
  ∧ snd (commit_lines tid ls w) = snd (commit_lines tid ls w').
Proof.
  intros H. unfold commit_lines.
  destruct (apply_lines_view tid ls w w' H) as [[Hp Hu] Hr].
  destruct (apply_lines tid ls w) as [w1 r1],
           (apply_lines tid ls w') as [w1' r1'].
  simpl in *. subst r1'. destruct r1 as [[]|e]; [|done].
  rewrite !flush_eq.
  assert (fits w1 = fits w1') as <- by (unfold fits; by rewrite Hu).
  by destruct (fits w1).
Qed.

Lemma sync_try_pending (tx : dict) (w w' : work) :
  same_view w w' →
  pending (fst (sync_try now tx w)) = pending (fst (sync_try now tx w'))
  ∧ snd (sync_try now tx w) = snd (sync_try now tx w').
Proof.
  intros [H Hu]. rewrite !sync_try_eq.
  destruct (parse_head tx) as [h|e]; [|done]. simpl. rewrite <- H.
  destruct (py_iter _) as [ls|e]; [|by simpl; rewrite H].
  set (t := head_row now tx h (pending w)).
  destruct (commit_lines_view (t_id t) ls (add_head t w) (add_head t w'))
    as [Hp Hr]; [by split; simpl; rewrite ?H|].
  destruct (commit_lines _ ls (add_head t w)) as [w1 r1],
           (commit_lines _ ls (add_head t w')) as [w1' r1'].
  simpl in *. subst r1'. by destruct r1 as [[]|e].
Qed.

(** One iteration, seen from the store: the new store and the new entry
    of [ack] are functions of the old store and the transaction. *)
Lemma sync_step_store (s s' : loop_state) (tx : dict) :
  store s = store s' →
  store (sync_step now s tx) = store (sync_step now s' tx)
  ∧ ∃ a, ack (sync_step now s tx) = ack s ++ [a]
         ∧ ack (sync_step now s' tx) = ack s' ++ [a].
Proof.
  intros H. unfold sync_step.
  destruct (sync_try_pending tx
              (session (store s) (updated_products s))
              (session (store s') (updated_products s')))
    as [Hp Hr]; [by split|].
  destruct (sync_try now tx (session (store s) _)) as [w1 r1],
    (sync_try now tx (session (store s') _)) as [w1' r1'].
  simpl in *. subst r1'. destruct r1 as [tid|e]; simpl; eauto.
Qed.

Lemma foldl_step_store (batch : list dict) (s s' : loop_state) :
  store s = store s' →
  store (foldl (sync_step now) s batch) = store (foldl (sync_step now) s' batch)
  ∧ ∃ k, ack (foldl (sync_step now) s batch) = ack s ++ k
         ∧ ack (foldl (sync_step now) s' batch) = ack s' ++ k.
Proof.
  revert s s'. induction batch as [|tx batch IH]; intros s s' H; simpl.
  - split; [done|]. exists []. by rewrite !app_nil_r.
  - destruct (sync_step_store s s' tx H) as (Hs & a & Ha & Ha').
    destruct (IH _ _ Hs) as (Hf & k & Hk & Hk').
    split; [done|]. exists (a :: k).
    rewrite Hk, Hk', Ha, Ha', <- !app_assoc. done.
Qed.

(** The iteration of a transaction that raises. *)
Lemma sync_step_raise (s : loop_state) (tx : dict) (e : exn) :
  snd (attempt now s tx) = Raise e →
  store (sync_step now s tx) = store s
  ∧ ack (sync_step now s tx)
    = ack s ++ [ack_error (dict_get tx "local_id") e].
Proof.
  unfold attempt, sync_step.
  destruct (sync_try now tx _) as [w [tid|e']]; simpl; [done|].
  by intros [= ->].
Qed.

Lemma run_batch_ack_length (st : db) (batch : list dict) :
  length (ack (run_batch now st batch)) = length batch.
Proof. unfold run_batch. by rewrite foldl_step_ack_length. Qed.

(** A batch with a failing transaction, against the same batch without
    it. *)
Lemma run_batch_skip (st : db) (pre post : list dict) (tx : dict) (e : exn) :
  snd (attempt now (run_batch now st pre) tx) = Raise e →
  store (run_batch now st (pre ++ tx :: post))
  = store (run_batch now st (pre ++ post))
  ∧ ack (run_batch now st (pre ++ tx :: post))
    = take (length pre) (ack (run_batch now st (pre ++ post)))
      ++ ack_error (dict_get tx "local_id") e
      :: drop (length pre) (ack (run_batch now st (pre ++ post))).
Proof.
  intros He. destruct (sync_step_raise _ _ _ He) as [Hs Ha].
  rewrite !run_batch_app. simpl.
  destruct (foldl_step_store post
              (sync_step now (run_batch now st pre) tx)
              (run_batch now st pre) Hs) as (Hf & k & Hk & Hk').
  split; [done|]. rewrite Hk, Hk', Ha.
  rewrite take_app_length', drop_app_length'
    by (symmetry; apply run_batch_ack_length).
  by rewrite <- app_assoc.
Qed.

End Rollback.

(** In a batch of objects, when the [try] block of a transaction raises,
    the rollback leaves the store as it was before that transaction, the
    transaction gets an error entry in [ack], and the loop goes on: the
    store after the batch and the entries of all other transactions are
    those of the same batch without the failing transaction. *)
Lemma failure_is_isolated `{Eng : Sqlite} (now : Z) (st : db)
    (pre post : list dict) (tx : dict) (e : exn) :
  snd (attempt now (run_batch now st pre) tx) = Raise e →
  let before := run_batch now st pre in
  let with_tx := sync_transactions now st (sync_request (pre ++ tx :: post)) in
  let without := sync_transactions now st (sync_request (pre ++ post)) in
  store (sync_step now before tx) = store before
  ∧ fst with_tx = fst without
  ∧ ∃ body body',
      snd with_tx = Success body ∧ snd without = Success body'
      ∧ body_ack body
        = take (length pre) (body_ack body')
          ++ ack_error (dict_get tx "local_id") e
          :: drop (length pre) (body_ack body').
Proof.
  intros He. simpl. rewrite !sync_transactions_batch. simpl.
  destruct (run_batch_skip now st pre post tx e He) as [Hs Ha].
  split; [by apply (sync_step_raise now _ _ e)|]. split; [done|].
  eexists _, _. split; [reflexivity|]. split; [reflexivity|]. done.
Qed.

(* ===================================================================== *)
(** * The total of a transaction                                          *)
(* ===================================================================== *)

Lemma py_float_message (v : json) (e : exn) :
  py_float v = Raise e → str_exn e ≠ "".
Proof.
  destruct v as [|b|z|f|s|l|kv]; simpl; try discriminate;
    try (intros [= <-]; discriminate).
  - destruct (float_of_Z z); [discriminate|]. intros [= <-]. discriminate.
  - destruct (float_of_str s); [discriminate|]. intros [= <-]. discriminate.
Qed.

Lemma attempt_bad_total `{Eng : Sqlite} (now : Z) (s : loop_state) (tx : dict)
    (v : json) (e : exn) :
  assoc "total" tx = Some v → py_float v = Raise e →
  snd (attempt now s tx) = Raise e.
Proof.
  intros Hv He. unfold attempt. rewrite sync_try_eq.
  assert (parse_head tx = Raise e) as ->; [|done].
  unfold parse_head, dict_get_or. rewrite Hv.
  unfold mbind, result_bind. by rewrite He.
Qed.

(** C5 (as the code has it).  A transaction whose [total] is present and
    is rejected by [float()] does not stop the batch: its entry of [ack]
    has status error with the text of the exception, which is not empty,
    the ledger gets no row for it, and the store after the batch is the
    one of the batch without that transaction. *)
Theorem C5_rejected_total_is_reported (Eng : Sqlite) (now : Z) (st : db)
    (pre post : list dict) (tx : dict) (v : json) (e : exn) :
  assoc "total" tx = Some v →
  py_float v = Raise e →
  let before := run_batch now st pre in
  let r := sync_transactions now st (sync_request (pre ++ tx :: post)) in
  ∃ body,
    snd r = Success body
    ∧ body_ack body !! length pre
      = Some (JObj [("local_id", dict_get tx "local_id");
                    ("status", JStr "error"); ("error", JStr (str_exn e))])
    ∧ str_exn e ≠ ""
    ∧ transactions (store (sync_step now before tx))
      = transactions (store before)
    ∧ fst r = fst (sync_transactions now st (sync_request (pre ++ post))).
Proof.
  intros Hv He. simpl. rewrite !sync_transactions_batch. simpl.
  pose proof (attempt_bad_total now (run_batch now st pre) tx v e Hv He) as Ha.
  destruct (run_batch_skip now st pre post tx e Ha) as [Hs Hk].
  destruct (sync_step_raise now _ _ e Ha) as [Hr _].
  eexists; split; [reflexivity|]. simpl. repeat split.
  - rewrite Hk. apply list_lookup_middle.
    rewrite length_take, run_batch_ack_length, length_app. lia.
  - by apply (py_float_message v).
  - by rewrite Hr.
  - done.
Qed.

(* ===================================================================== *)
(** * Stock counts stay non-negative                                      *)
(* ===================================================================== *)

Section Stock.
Context `{Eng : Sqlite}.

Lemma apply_line_nonneg (tid : Z) (f : line_fields) (w : work) :
  qty_nonneg (pending w) → qty_nonneg (pending (apply_line tid f w)).
Proof.
  unfold qty_nonneg, apply_line. intros H.
  destruct (lf_barcode f) as [b|]; [|done]. simpl.
  destruct (products (pending w) !! b) as [prod|]; [|done]. simpl.
  apply map_Forall_insert_2; [|done]. simpl. lia.
Qed.

Lemma sync_try_nonneg (now : Z) (tx : dict) (w : work) :
  qty_nonneg (pending w) → qty_nonneg (pending (fst (sync_try now tx w))).
Proof.
  apply (sync_try_invariant (λ w, qty_nonneg (pending w))); [done..|].
  intros tid f w'. apply apply_line_nonneg.
Qed.

Lemma sync_step_nonneg (now : Z) (s : loop_state) (tx : dict) :
  qty_nonneg (store s) → qty_nonneg (store (sync_step now s tx)).
Proof.
  intros H. unfold sync_step.
  pose proof (sync_try_nonneg now tx
                (session (store s) (updated_products s)) H)
    as H'.
  by destruct (sync_try now tx _) as [w [tid|e]].
Qed.

Lemma sync_loop_nonneg (now : Z) (txs : list json) (s : loop_state) :
  qty_nonneg (store s) → qty_nonneg (store (fst (sync_loop now txs s))).
Proof.
  revert s. induction txs as [|tx txs IH]; intros s H; simpl; [done|].
  destruct (as_dict tx) as [d|e]; [|done].
  by apply IH, sync_step_nonneg.
Qed.

(** The reconciler keeps every stock count non-negative, whatever the
    request. *)
Lemma sync_transactions_nonneg (now : Z) (st : db) (request_json : json) :
  qty_nonneg st → qty_nonneg (fst (sync_transactions now st request_json)).
Proof.
  intros H. unfold sync_transactions.
  destruct (as_dict _) as [payload|e]; [|done].
  destruct (py_iter _) as [txs|e]; [|done].
  pose proof (sync_loop_nonneg now txs (init_loop st) H) as H'.
  by destruct (sync_loop now txs (init_loop st)) as [s [[]|e]].
Qed.

Lemma assign_fields_qty (data : dict) (p p' : Product) :
  assign_fields data p = Ok p' →
  p_qty p' = (if dict_has data "qty"
              then match py_int (py_or (dict_get data "qty") (JInt 0)) with
                   | Ok z => z
                   | Raise _ => p_qty p
                   end
              else p_qty p).
Proof.
  unfold assign_fields, mbind, mret, result_bind, result_ret.
  destruct (if dict_has data "price" then _ else _) as [price|e]; [|done].
  destruct (if dict_has data "cost" then _ else _) as [cost|e]; [|done].
  destruct (dict_has data "qty").
  - destruct (py_int _) as [z|e]; [|done].
    destruct (if dict_has data "name" then _ else _) as [name|e]; [|done].
    unfold bind_int. destruct (in_int64 z); [|done]. by intros [= <-].
  - destruct (if dict_has data "name" then _ else _) as [name|e]; [|done].
    by intros [= <-].
Qed.

(** The product handler stores the count it is given. *)
Lemma create_or_update_product_nonneg (now : Z) (st : db)
    (request_json : json) :
  op_keeps_stock (Upsert now request_json) →
  qty_nonneg st →
  qty_nonneg (fst (create_or_update_product now st request_json)).
Proof.
  unfold op_keeps_stock, supplied_qty, create_or_update_product.
  unfold mbind, mret, result_bind, result_ret.
  intros Hq H.
  destruct (as_dict _) as [data|e]; [|done].
  destruct (py_strip _) as [barcode|e]; [|done].
  destruct (String.eqb barcode ""); [done|].
  set (product := match products st !! barcode with
                  | Some p => p | None => new_product now st end).
  assert (0 ≤ p_qty product) as Hp.
  { subst product. destruct (products st !! barcode) as [p|] eqn:E.
    - by apply (H barcode p).
    - simpl. lia. }
  destruct (assign_fields data product) as [p'|e] eqn:E; [|done].
  simpl. apply map_Forall_insert_2; [|done].
  rewrite (assign_fields_qty _ _ _ E).
  destruct (dict_has data "qty"); [|done].
  by destruct (py_int _).
Qed.

End Stock.

(** The reconciler floors every decrement at zero, and the product
    handler stores the stock count of the request unchanged: after any
    sequence of sync requests and of product requests that assign no
    negative count, no product has a negative [qty]. *)
Lemma qty_stays_nonneg `{Eng : Sqlite} (ops : list op) (st : db) :
  qty_nonneg st →
  Forall op_keeps_stock ops →
  qty_nonneg (foldl apply_op st ops).
Proof.
  revert st. induction ops as [|o ops IH]; intros st H Hops; simpl; [done|].
  apply Forall_cons in Hops as [Ho Hops]. apply IH; [|done].
  destruct o as [now r|now r]; simpl.
  - by apply sync_transactions_nonneg.
  - by apply create_or_update_product_nonneg.
Qed.

(* ===================================================================== *)
(** * The ledger after a batch                                            *)
(* ===================================================================== *)

Section Ledger.
Context `{Eng : Sqlite}.

Lemma foldr_max_ge (i : Z) (r : list Z) :
  i ≤ foldr Z.max i r ∧ Forall (λ j, j ≤ foldr Z.max i r) r.
Proof.
  induction r as [|j r [IH1 IH2]]; simpl; [split; [lia|constructor]|].
  split; [lia|]. constructor; [lia|].
  eapply Forall_impl; [exact IH2|]. simpl. intros; lia.
Qed.

Lemma next_rowid_fresh (ids : list Z) : next_rowid ids ∉ ids.
Proof.
  destruct ids as [|i r]; [by intros ?%elem_of_nil|].
  unfold next_rowid. destruct (foldr_max_ge i r) as [H1 H2].
  intros [E|E]%elem_of_cons; [lia|].
  rewrite Forall_forall in H2. specialize (H2 _ E). simpl in H2. lia.
Qed.

Lemma find_transaction_id (tid : Z) (d : db) (t : Transaction) :
  find_transaction tid d = Some t →
  t_id t = tid ∧ tid ∈ t_id <$> transactions d.
Proof.
  unfold find_transaction. induction (transactions d) as [|t' ts IH]; simpl;
    [done|].
  destruct (t_id t' =? tid) eqn:E.
  - intros [= <-]. apply Z.eqb_eq in E. split; [done|]. rewrite <- E. left.
  - intros [? ?]%IH. split; [done|]. by right.
Qed.

Lemma find_snoc_old (tid : Z) (ts : list Transaction) (t t' : Transaction) :
  List.find (λ x, t_id x =? tid) ts = Some t →
  List.find (λ x, t_id x =? tid) (ts ++ [t']) = Some t.
Proof.
  induction ts as [|x ts IH]; simpl; [done|].
  by destruct (t_id x =? tid).
Qed.

Lemma find_snoc_new (ts : list Transaction) (t : Transaction) :
  t_id t ∉ t_id <$> ts →
  List.find (λ x, t_id x =? t_id t) (ts ++ [t]) = Some t.
Proof.
  induction ts as [|x ts IH]; simpl; intros H.
  - by rewrite Z.eqb_refl.
  - apply not_elem_of_cons in H as [H1 H2].
    destruct (t_id x =? t_id t) eqn:E; [apply Z.eqb_eq in E; congruence|].
    by apply IH.
Qed.

Lemma bind_int_ok (z q : Z) : bind_int z = Ok q → q = z ∧ in_int64 z = true.
Proof. unfold bind_int. destruct (in_int64 z); [|done]. by intros [= <-]. Qed.

Lemma parse_line_matches (tid : Z) (x : json) (f : line_fields) (d : db) :
  parse_line x = Ok f → line_matches (line_row tid f d) x.
Proof.
  unfold parse_line, read_line, bind_line, mbind, mret, result_bind,
    result_ret.
  destruct x as [| | | | | |l]; try done. simpl.
  destruct (py_int _) as [qty|e] eqn:Eq; [|done].
  destruct (py_float (dict_get_or l "price" _)) as [price|e] eqn:Ep; [|done].
  destruct (py_float (dict_get_or l "cost" _)) as [cost|e] eqn:Ec; [|done].
  simpl.
  destruct (bind_text (dict_get l "barcode")) as [barcode|e] eqn:Eb; [|done].
  destruct (bind_text (dict_get l "name")) as [name|e]; [|done].
  destruct (bind_int qty) as [q|e] eqn:Ei; [|done].
  apply bind_int_ok in Ei as [-> _].
  intros [= <-]. exists l. split; [done|]. split.
  { unfold line_stored. simpl. by rewrite Eq, Ep, Ec. }
  unfold line_equal, kept, dict_get, dict_get_or in *. simpl.
  repeat split.
  - intros s Hs. rewrite Hs in Eb. simpl in Eb. congruence.
  - intros z Hz. destruct (assoc "qty" l); [|done]. subst.
    simpl in Eq. congruence.
  - intros p Hp Hk. destruct (assoc "price" l); [|done]. subst.
    simpl in Ep. congruence.
  - intros z Hz. destruct (assoc "price" l); [|done]. subst.
    simpl in Ep. destruct (float_of_Z z) as [p|]; [|done].
    exists p. split; [done|]. congruence.
  - intros c Hc Hk. destruct (assoc "cost" l); [|done]. subst.
    simpl in Ec. congruence.
  - intros z Hz. destruct (assoc "cost" l); [|done]. subst.
    simpl in Ec. destruct (float_of_Z z) as [c|]; [|done].
    exists c. split; [done|]. congruence.
Qed.

(** The rows that the lines of a transaction add to the session. *)
Lemma apply_line_rows (tid : Z) (f : line_fields) (w : work) :
  transactions (pending (apply_line tid f w)) = transactions (pending w)
  ∧ transaction_lines (pending (apply_line tid f w))
    = transaction_lines (pending w) ++ [line_row tid f (pending w)].
Proof.
  unfold apply_line. destruct (lf_barcode f) as [b|]; [|done]. simpl.
  by destruct (products (pending w) !! b).
Qed.

Lemma apply_lines_rows (tid : Z) (ls : list json) (w w' : work) :
  apply_lines tid ls w = (w', Ok tt) →
  transactions (pending w') = transactions (pending w)
  ∧ ∃ rows,
      transaction_lines (pending w') = transaction_lines (pending w) ++ rows
      ∧ Forall2 line_matches rows ls
      ∧ Forall (λ r, l_transaction_id r = tid) rows.
Proof.
  revert w. induction ls as [|x ls IH]; intros w; simpl.
  - intros [= <-]. split; [done|]. exists []. by rewrite app_nil_r.
  - destruct (line_step_cases tid x w)
      as [(f & Hp & _ & ->)|(w1 & e & -> & _)]; [|done].
    intros H. destruct (IH _ H) as (Ht & rows & Hl & Hm & Hi).
    destruct (apply_line_rows tid f (flushed w)) as [Ht' Hl'].
    simpl in Ht', Hl'. split; [congruence|].
    exists (line_row tid f (pending w) :: rows).
    rewrite Hl, Hl', <- app_assoc. split; [done|]. split.
    + constructor; [|done]. by apply parse_line_matches.
    + by constructor.
Qed.

Lemma sync_try_rows (now : Z) (tx : dict) (w w' : work) (tid : Z) :
  sync_try now tx w = (w', Ok tid) →
  tid = next_rowid (t_id <$> transactions (pending w))
  ∧ ∃ t rows ls,
      transactions (pending w') = transactions (pending w) ++ [t]
      ∧ t_id t = tid ∧ t_synced t = true
      ∧ transaction_lines (pending w')
        = transaction_lines (pending w) ++ rows
      ∧ py_iter (dict_get_or tx "lines" (JArr [])) = Ok ls
      ∧ Forall2 line_matches rows ls
      ∧ Forall (λ r, l_transaction_id r = tid) rows.
Proof.
  rewrite sync_try_eq.
  destruct (parse_head tx) as [h|e]; [|done]. simpl.
  destruct (py_iter _) as [ls|e]; [|done].
  destruct (commit_lines _ ls _) as [w2 [[]|e]] eqn:E; [|done].
  intros [= -> <-]. split; [done|].
  apply commit_lines_ok in E as (w1 & E & _ & ->).
  destruct (apply_lines_rows _ _ _ _ E) as (Ht & rows & Hl & Hm & Hi).
  simpl in Ht, Hl.
  by exists (head_row now tx h (pending w)), rows, ls.
Qed.

Lemma filter_none {A} (P : A → Prop) `{∀ x, Decision (P x)} (l : list A) :
  Forall (λ x, ¬ P x) l → filter P l = [].
Proof.
  induction 1 as [|x l Hx _ IH]; [done|].
  by rewrite filter_cons_False.
Qed.

Lemma filter_all {A} (P : A → Prop) `{∀ x, Decision (P x)} (l : list A) :
  Forall P l → filter P l = l.
Proof.
  induction 1 as [|x l Hx _ IH]; [done|].
  by rewrite filter_cons_True, IH.
Qed.

(** A committed transaction, in the store it leaves. *)
Lemma sync_try_recorded (now : Z) (tx : dict) (w w' : work) (tid : Z) :
  fk_ok (pending w) →
  sync_try now tx w = (w', Ok tid) →
  fk_ok (pending w') ∧ recorded tid tx (pending w').
Proof.
  intros Hfk H.
  destruct (sync_try_rows _ _ _ _ _ H)
    as (Hid & t & rows & ls & Ht & Htid & Hsy & Hl & Hit & Hm & Hr).
  pose proof (next_rowid_fresh (t_id <$> transactions (pending w))) as Hfr.
  rewrite <- Hid in Hfr.
  split.
  - unfold fk_ok. rewrite Hl, Ht, fmap_app. apply Forall_app; split.
    + eapply Forall_impl; [exact Hfk|]. simpl. intros r Hr'.
      apply elem_of_app. by left.
    + eapply Forall_impl; [exact Hr|]. simpl. intros r ->.
      apply elem_of_app. right. simpl. rewrite Htid. left.
  - exists t, ls. repeat split; try done.
    + unfold find_transaction. rewrite Ht, <- Htid.
      apply find_snoc_new. by rewrite Htid.
    + unfold lines_of. rewrite Hl, filter_app.
      rewrite (filter_none _ (transaction_lines (pending w))).
      * simpl. by rewrite filter_all.
      * eapply Forall_impl; [exact Hfk|]. simpl. intros r Hr' E.
        by rewrite E in Hr'.
Qed.

(** An earlier transaction stays in the ledger as it was recorded. *)
Lemma sync_try_keeps (now : Z) (tx tx0 : dict) (w w' : work) (tid tid0 : Z) :
  sync_try now tx w = (w', Ok tid) →
  recorded tid0 tx0 (pending w) → recorded tid0 tx0 (pending w').
Proof.
  intros H (t0 & ls0 & Hf & Hi0 & Hs0 & Hit0 & Hm0).
  destruct (sync_try_rows _ _ _ _ _ H)
    as (Hid & t & rows & ls & Ht & Htid & Hsy & Hl & Hit & Hm & Hr).
  pose proof (next_rowid_fresh (t_id <$> transactions (pending w))) as Hfr.
  rewrite <- Hid in Hfr.
  destruct (find_transaction_id _ _ _ Hf) as [_ Hin].
  assert (tid ≠ tid0) as Hne by congruence.
  exists t0, ls0. repeat split; try done.
  - unfold find_transaction in *. rewrite Ht. by apply find_snoc_old.
  - unfold lines_of in *. rewrite Hl, filter_app.
    rewrite (filter_none _ rows); [by rewrite app_nil_r|].
    eapply Forall_impl; [exact Hr|]. simpl. congruence.
Qed.

(** The same without the foreign key: the rows are in the table. *)
Lemma sync_try_persisted (now : Z) (tx : dict) (w w' : work) (tid : Z) :
  sync_try now tx w = (w', Ok tid) → persisted tid tx (pending w').
Proof.
  intros H.
  destruct (sync_try_rows _ _ _ _ _ H)
    as (_ & t & rows & ls & _ & _ & _ & Hl & Hit & Hm & Hr).
  exists ls. split; [done|]. intros j line Hj.
  destruct (Forall2_lookup_r _ _ _ _ _ Hm Hj) as (row & Hrow & Hmatch).
  exists row. split; [|split; [|done]].
  - rewrite Hl. apply elem_of_app. right. by eapply list_elem_of_lookup_2.
  - rewrite Forall_forall in Hr. apply Hr. by eapply list_elem_of_lookup_2.
Qed.

Lemma sync_try_keeps_persisted (now : Z) (tx tx0 : dict) (w w' : work)
    (tid tid0 : Z) :
  sync_try now tx w = (w', Ok tid) →
  persisted tid0 tx0 (pending w) → persisted tid0 tx0 (pending w').
Proof.
  intros H (ls0 & Hit0 & Hrows).
  destruct (sync_try_rows _ _ _ _ _ H)
    as (_ & t & rows & ls & _ & _ & _ & Hl & _).
  exists ls0. split; [done|]. intros j line Hj.
  destruct (Hrows j line Hj) as (row & Hin & Hid & Hm).
  exists row. split; [|done]. rewrite Hl. apply elem_of_app. by left.
Qed.

End Ledger.

Section LedgerLoop.
Context `{Eng : Sqlite}.
Variable now : Z.

Lemma sync_step_entry (s : loop_state) (tx : dict) :
  ack (sync_step now s tx)
  = ack s ++ [entry_of tx (snd (attempt now s tx))].
Proof.
  unfold sync_step, attempt.
  by destruct (sync_try now tx _) as [w [tid|e]].
Qed.

Lemma sync_step_ok (s : loop_state) (tx : dict) (w : work) (tid : Z) :
  sync_try now tx (session (store s) (updated_products s))
  = (w, Ok tid) →
  sync_step now s tx
  = {| store := pending w;
       ack := ack s ++ [ack_ok (dict_get tx "local_id") tid];
       updated_products := updated w |}.
Proof. unfold sync_step. by intros ->. Qed.

Lemma sync_step_fail (s : loop_state) (tx : dict) (w : work) (e : exn) :
  sync_try now tx (session (store s) (updated_products s))
  = (w, Raise e) →
  sync_step now s tx
  = {| store := store s;
       ack := ack s ++ [ack_error (dict_get tx "local_id") e];
       updated_products := updated w |}.
Proof. unfold sync_step. by intros ->. Qed.

Lemma run_batch_ack_at (st : db) (pre post : list dict) (tx : dict) :
  ack (run_batch now st (pre ++ tx :: post)) !! length pre
  = Some (entry_of tx (snd (attempt now (run_batch now st pre) tx))).
Proof.
  rewrite run_batch_app. simpl.
  destruct (foldl_step_ack_prefix now post
              (sync_step now (run_batch now st pre) tx)) as [k ->].
  rewrite sync_step_entry, <- app_assoc. simpl.
  apply list_lookup_middle. by rewrite run_batch_ack_length.
Qed.

Section AckInvariant.
Variable Inv : db → Prop.
Variable R : Z → dict → db → Prop.
Hypothesis commit_R : ∀ tx w w' tid,
  Inv (pending w) → sync_try now tx w = (w', Ok tid) →
  Inv (pending w') ∧ R tid tx (pending w').
Hypothesis keep_R : ∀ tx tx0 w w' tid tid0,
  sync_try now tx w = (w', Ok tid) →
  R tid0 tx0 (pending w) → R tid0 tx0 (pending w').

(** A property of the store that each commit establishes for its
    transaction, and that later commits keep, holds after the batch for
    every transaction acknowledged with status ok. *)
Lemma run_batch_acknowledged (st : db) (batch : list dict) :
  Inv st →
  Inv (store (run_batch now st batch))
  ∧ ∀ (i : nat) tx lid tid,
      batch !! i = Some tx →
      ack (run_batch now st batch) !! i = Some (ack_ok lid tid) →
      R tid tx (store (run_batch now st batch)).
Proof.
  intros Hinv. induction batch as [|tx' batch [IHinv IH]] using rev_ind.
  - split; [done|]. intros i tx lid tid Hi. by destruct i.
  - rewrite run_batch_snoc.
    pose proof (run_batch_ack_length now st batch) as Hlen.
    set (s := run_batch now st batch) in *.
    set (w0 := (session (store s) (updated_products s))).
    destruct (sync_try now tx' w0) as [w [tid'|e]] eqn:E.
    + rewrite (sync_step_ok s tx' w tid' E). simpl.
      destruct (commit_R tx' w0 w tid' IHinv E) as [Hinv' Hrec].
      split; [done|]. intros i tx lid tid Hi Ha.
      apply lookup_snoc_Some in Hi as [[Hlt Hi]|[-> <-]].
      * rewrite lookup_app_l in Ha by lia.
        apply (keep_R tx' tx w0 w tid' tid E). by eapply IH.
      * rewrite <- Hlen, list_lookup_middle in Ha by done.
        injection Ha as _ <-. done.
    + rewrite (sync_step_fail s tx' w e E). simpl.
      split; [done|]. intros i tx lid tid Hi Ha.
      apply lookup_snoc_Some in Hi as [[Hlt Hi]|[-> <-]].
      * rewrite lookup_app_l in Ha by lia. by eapply IH.
      * rewrite <- Hlen, list_lookup_middle in Ha by done. done.
Qed.

End AckInvariant.

Lemma run_batch_recorded (st : db) (batch : list dict) :
  fk_ok st →
  fk_ok (store (run_batch now st batch))
  ∧ ∀ (i : nat) tx lid tid,
      batch !! i = Some tx →
      ack (run_batch now st batch) !! i = Some (ack_ok lid tid) →
      recorded tid tx (store (run_batch now st batch)).
Proof.
  apply (run_batch_acknowledged fk_ok recorded).
  - apply sync_try_recorded.
  - apply sync_try_keeps.
Qed.

Lemma run_batch_persisted (st : db) (batch : list dict) (i : nat)
    (tx : dict) (lid : json) (tid : Z) :
  batch !! i = Some tx →
  ack (run_batch now st batch) !! i = Some (ack_ok lid tid) →
  persisted tid tx (store (run_batch now st batch)).
Proof.
  apply (run_batch_acknowledged (λ _, True) persisted).
  - intros tx' w w' tid' _ H. split; [done|]. by eapply sync_try_persisted.
  - apply sync_try_keeps_persisted.
  - done.
Qed.

End LedgerLoop.

(* ===================================================================== *)
(** * The entries of [ack]                                                *)
(* ===================================================================== *)

Section AckEntries.
Context `{Eng : Sqlite}.
Variable now : Z.

Lemma sync_step_found (s : loop_state) (tx : dict) (tid : Z) :
  is_Some (find_transaction tid (store s)) →
  is_Some (find_transaction tid (store (sync_step now s tx))).
Proof.
  intros [t Ht].
  set (w0 := (session (store s) (updated_products s))).
  destruct (sync_try now tx w0) as [w [tid'|e]] eqn:E.
  - rewrite (sync_step_ok now s tx w tid' E). simpl.
    destruct (sync_try_rows now tx w0 w tid' E) as (_ & t' & _ & _ & Hts & _).
    exists t. unfold find_transaction in *. rewrite Hts.
    by apply find_snoc_old.
  - rewrite (sync_step_fail now s tx w e E). by exists t.
Qed.

Lemma sync_step_entry_shape (s : loop_state) (tx : dict) :
  ack_entry (store (sync_step now s tx))
            (entry_of tx (snd (attempt now s tx))).
Proof.
  unfold attempt.
  set (w0 := (session (store s) (updated_products s))).
  destruct (sync_try now tx w0) as [w [tid|e]] eqn:E; simpl.
  - rewrite (sync_step_ok now s tx w tid E). simpl.
    destruct (sync_try_rows now tx w0 w tid E)
      as (Hid & t & _ & _ & Hts & Ht & _).
    eexists; split; [reflexivity|]. left.
    split; [done|]. split; [|done]. exists tid. split; [done|].
    exists t. unfold find_transaction. rewrite Hts, <- Ht.
    apply find_snoc_new. rewrite Ht, Hid. apply next_rowid_fresh.
  - eexists; split; [reflexivity|]. right. repeat split; eauto.
Qed.

Lemma ack_entry_kept (s : loop_state) (tx : dict) (v : json) :
  ack_entry (store s) v → ack_entry (store (sync_step now s tx)) v.
Proof.
  intros (a & -> & [(Hs & (tid & Hi & Hf) & He)|H]); exists a;
    (split; [done|]); [left|by right].
  split; [done|]. split; [|done]. exists tid. split; [done|].
  by apply sync_step_found.
Qed.

Lemma sync_step_ack_entries (s : loop_state) (tx : dict) :
  Forall (ack_entry (store s)) (ack s) →
  Forall (ack_entry (store (sync_step now s tx))) (ack (sync_step now s tx)).
Proof.
  intros H. rewrite sync_step_entry. apply Forall_app; split.
  - eapply Forall_impl; [exact H|]. apply ack_entry_kept.
  - repeat constructor. apply sync_step_entry_shape.
Qed.

Lemma sync_loop_ack_entries (txs : list json) (s : loop_state) :
  Forall (ack_entry (store s)) (ack s) →
  Forall (ack_entry (store (fst (sync_loop now txs s))))
         (ack (fst (sync_loop now txs s))).
Proof.
  revert s. induction txs as [|tx txs IH]; intros s H; simpl; [done|].
  destruct (as_dict tx) as [d|e]; [|done].
  by apply IH, sync_step_ack_entries.
Qed.

End AckEntries.

(** C10.  Whatever the request, every entry of the [ack] list that the
    handler answers is a dict whose [status] is "ok" or "error"; an "ok"
    entry has a [server_id], the id of a transaction of the ledger after
    the request, and no [error] key; an "error" entry has an [error] text
    and no [server_id] key. *)
Theorem C10_ack_entry_shape (Eng : Sqlite) (now : Z) (st : db)
    (request_json : json) :
  match sync_transactions now st request_json with
  | (final, Success body) => Forall (ack_entry final) (body_ack body)
  | _ => True
  end.
Proof.
  unfold sync_transactions.
  destruct (as_dict _) as [payload|e]; [|done].
  destruct (py_iter _) as [txs|e]; [|done].
  pose proof (sync_loop_ack_entries now txs (init_loop st)) as H.
  destruct (sync_loop now txs (init_loop st)) as [s [[]|e]]; [|done].
  simpl in *. apply H. constructor.
Qed.

(* ===================================================================== *)
(** * The foreign key holds in every store that the handlers reach        *)
(* ===================================================================== *)

Lemma sync_step_fk `{Eng : Sqlite} (now : Z) (s : loop_state) (tx : dict) :
  fk_ok (store s) → fk_ok (store (sync_step now s tx)).
Proof.
  intros H.
  set (w0 := (session (store s) (updated_products s))).
  destruct (sync_try now tx w0) as [w [tid|e]] eqn:E.
  - rewrite (sync_step_ok now s tx w tid E). simpl.
    by destruct (sync_try_recorded now tx w0 w tid H E).
  - by rewrite (sync_step_fail now s tx w e E).
Qed.

Lemma sync_loop_fk `{Eng : Sqlite} (now : Z) (txs : list json)
    (s : loop_state) :
  fk_ok (store s) → fk_ok (store (fst (sync_loop now txs s))).
Proof.
  revert s. induction txs as [|tx txs IH]; intros s H; simpl; [done|].
  destruct (as_dict tx) as [d|e]; [|done].
  by apply IH, sync_step_fk.
Qed.

Lemma apply_op_fk `{Eng : Sqlite} (st : db) (o : op) :
  fk_ok st → fk_ok (apply_op st o).
Proof.
  intros H. destruct o as [now r|now r]; simpl.
  - unfold sync_transactions.
    destruct (as_dict _) as [payload|e]; [|done].
    destruct (py_iter _) as [txs|e]; [|done].
    pose proof (sync_loop_fk now txs (init_loop st) H) as H'.
    by destruct (sync_loop now txs (init_loop st)) as [s [[]|e]].
  - unfold create_or_update_product.
    destruct (_ ≫= _) as [[data barcode]|e]; [|done].
    destruct (String.eqb barcode ""); [done|].
    by destruct (assign_fields data _).
Qed.

(** Starting from the empty database, every sequence of sync and product
    requests leaves a store in which each ledger line belongs to a
    transaction of the ledger. *)
Lemma reachable_fk_ok `{Eng : Sqlite} (ops : list op) :
  fk_ok (foldl apply_op empty_db ops).
Proof.
  induction ops as [|o ops IH] using rev_ind; [constructor|].
  rewrite foldl_snoc. by apply apply_op_fk.
Qed.

(** C8 (as the code has it).  When the handler acknowledges the
    transaction at position [i] of a batch with status ok and the id
    [tid], the ledger after the request holds a transaction with that id,
    and the rows of its lines are as many as the lines submitted, in the
    same order.  Each row holds the barcode as the driver binds it, the
    qty that [int()] returns, and the price and the cost that [float()]
    returns as the table stores them, NULL for NaN and [0.0] for a zero of
    either sign; these are the submitted values for a text barcode, an
    integer qty, and a price and a cost that are floats which the table
    keeps, or ints. *)
Theorem C8_ledger_round_trip (Eng : Sqlite) (now : Z) (st : db)
    (batch : list dict) (i : nat) (tx : dict) (body : sync_body) (lid : json)
    (tid : Z) :
  fk_ok st →
  batch !! i = Some tx →
  snd (sync_transactions now st (sync_request batch)) = Success body →
  body_ack body !! i
  = Some (JObj [("local_id", lid); ("status", JStr "ok");
                ("server_id", JInt tid)]) →
  let final := fst (sync_transactions now st (sync_request batch)) in
  ∃ t ls,
    find_transaction tid final = Some t
    ∧ t_id t = tid
    ∧ py_iter (dict_get_or tx "lines" (JArr [])) = Ok ls
    ∧ length (lines_of tid final) = length ls
    ∧ ∀ (j : nat) line, ls !! j = Some line →
        ∃ row l, lines_of tid final !! j = Some row
                 ∧ line = JObj l
                 ∧ line_stored row l
                 ∧ line_equal row l.
Proof.
  intros Hfk Hi. rewrite sync_transactions_batch. simpl.
  intros [= <-]. simpl. intros Ha.
  destruct (run_batch_recorded now st batch Hfk) as [_ Hrec].
  destruct (Hrec i tx lid tid Hi Ha) as (t & ls & Hf & Ht & _ & Hit & Hm).
  exists t, ls. repeat split; try done.
  - by eapply Forall2_length.
  - intros j line Hj.
    destruct (Forall2_lookup_r _ _ _ _ _ Hm Hj) as (row & Hrow & l & -> & ? & ?).
    by exists row, l.
Qed.

(* ===================================================================== *)
(** * Lines whose barcode has no product                                  *)
(* ===================================================================== *)

Section UnknownBarcode.
Context `{Eng : Sqlite}.
Variable now : Z.
Variable b : string.

Lemma apply_line_unknown (tid : Z) (f : line_fields) (w : work) :
  products (pending w) !! b = None →
  updated_without b (updated w) →
  products (pending (apply_line tid f w)) !! b = None
  ∧ updated_without b (updated (apply_line tid f w)).
Proof.
  intros Hp Hu. unfold apply_line.
  destruct (lf_barcode f) as [b'|]; [|done]. simpl.
  destruct (products (pending w) !! b') as [prod|] eqn:E; [|done]. simpl.
  assert (b' ≠ b) as Hne by congruence.
  split; [by rewrite lookup_insert_ne|].
  intros k d. rewrite lookup_insert. case_decide as Hk.
  - intros [= <-]. by subst k.
  - apply Hu.
Qed.

Lemma sync_try_unknown (tx : dict) (w : work) :
  products (pending w) !! b = None →
  updated_without b (updated w) →
  products (pending (fst (sync_try now tx w))) !! b = None
  ∧ updated_without b (updated (fst (sync_try now tx w))).
Proof.
  intros Hp Hu.
  apply (sync_try_invariant
           (λ w, products (pending w) !! b = None
                 ∧ updated_without b (updated w))); [done..| |done].
  intros tid f w' [? ?]. by apply apply_line_unknown.
Qed.

Lemma sync_step_unknown (s : loop_state) (tx : dict) :
  products (store s) !! b = None →
  updated_without b (updated_products s) →
  products (store (sync_step now s tx)) !! b = None
  ∧ updated_without b (updated_products (sync_step now s tx)).
Proof.
  intros Hp Hu. unfold sync_step.
  pose proof (sync_try_unknown tx
                (session (store s) (updated_products s))
                Hp Hu) as H.
  by destruct (sync_try now tx _) as [w [tid|e]]; destruct H.
Qed.

Lemma run_batch_unknown (st : db) (batch : list dict) :
  products st !! b = None →
  products (store (run_batch now st batch)) !! b = None
  ∧ updated_without b (updated_products (run_batch now st batch)).
Proof.
  intros Hp. induction batch as [|tx batch IH] using rev_ind.
  - split; [done|]. intros k d. unfold run_batch. simpl.
    by rewrite lookup_empty.
  - rewrite run_batch_snoc. destruct IH. by apply sync_step_unknown.
Qed.

(** The line itself: it is added to a session that could be flushed, and
    neither a product nor [updated_products] changes. *)
Lemma parse_line_barcode (l : dict) (f : line_fields) :
  parse_line (JObj l) = Ok f →
  bind_text (dict_get l "barcode") = Ok (lf_barcode f).
Proof.
  unfold parse_line, read_line, bind_line, mbind, mret, result_bind,
    result_ret. simpl.
  destruct (py_int _) as [qty|e]; [|done].
  destruct (py_float (dict_get_or l "price" _)) as [price|e]; [|done].
  destruct (py_float (dict_get_or l "cost" _)) as [cost|e]; [|done].
  simpl.
  destruct (bind_text (dict_get l "barcode")) as [barcode|e]; [|done].
  destruct (bind_text (dict_get l "name")) as [name|e]; [|done].
  destruct (bind_int qty) as [q|e]; [|done]. by intros [= <-].
Qed.

Lemma line_step_unknown (tid : Z) (l : dict) (w : work) :
  line_converts (JObj l) = true →
  bind_text (dict_get l "barcode") = Ok (Some b) →
  products (pending w) !! b = None →
  fits w = true →
  ∃ w', line_step tid (JObj l) w = (w', Ok tt)
        ∧ products (pending w') = products (pending w)
        ∧ transactions (pending w') = transactions (pending w)
        ∧ updated w' = updated w
        ∧ unflushed w' = None.
Proof.
  unfold line_converts. intros Hc Hb Hp Hf.
  destruct (parse_line (JObj l)) as [f|e] eqn:Ep; [|done].
  pose proof (parse_line_barcode l f Ep) as Hb'.
  rewrite Hb in Hb'. injection Hb' as Hb'.
  eexists. split; [by apply line_step_ok|].
  unfold apply_line. rewrite <- Hb'. simpl. by rewrite Hp.
Qed.

(** A session that is ahead of another stays ahead, line after line. *)
Lemma ahead_fits (wa wb : work) : ahead wa wb → fits wb = true → fits wa = true.
Proof.
  intros (_ & _ & _ & [H|[H _]]) Hf; unfold fits in *; by rewrite H.
Qed.

Lemma apply_line_ahead (tid : Z) (f : line_fields) (wa wb : work) :
  ahead wa wb →
  ahead (apply_line tid f (flushed wa)) (apply_line tid f (flushed wb)).
Proof.
  intros (Hp & Ht & Hu & _). unfold ahead, apply_line.
  destruct (lf_barcode f) as [b'|]; simpl; [|by auto]. rewrite Hp.
  destruct (products (pending wb) !! b'); simpl; rewrite ?Hp, ?Ht, ?Hu; auto.
Qed.

Lemma line_step_ahead (tid : Z) (x : json) (wa wb wb' : work) :
  ahead wa wb →
  line_step tid x wb = (wb', Ok tt) →
  ∃ wa', line_step tid x wa = (wa', Ok tt) ∧ ahead wa' wb'.
Proof.
  intros Ha H.
  destruct (line_step_cases tid x wb)
    as [(f & Hp & Hf & E)|(w2 & e & E & _)]; rewrite E in H; [|done].
  injection H as <-. eexists. split.
  - apply line_step_ok; [done|]. by eapply ahead_fits.
  - by apply apply_line_ahead.
Qed.

Lemma apply_lines_ahead (tid : Z) (ls : list json) (wa wb wb' : work) :
  ahead wa wb →
  apply_lines tid ls wb = (wb', Ok tt) →
  ∃ wa', apply_lines tid ls wa = (wa', Ok tt) ∧ ahead wa' wb'.
Proof.
  revert wa wb. induction ls as [|x ls IH]; intros wa wb Ha; simpl.
  - intros [= <-]. by exists wa.
  - destruct (line_step tid x wb) as [w1 [[]|e]] eqn:E1; [|done]. intros H.
    destruct (line_step_ahead _ _ _ _ _ Ha E1) as (wa1 & -> & Ha1).
    by eapply IH.
Qed.

Lemma commit_lines_ahead (tid : Z) (ls : list json) (wa wb wb' : work) :
  ahead wa wb →
  commit_lines tid ls wb = (wb', Ok tt) →
  ∃ wa', commit_lines tid ls wa = (wa', Ok tt) ∧ ahead wa' wb'.
Proof.
  intros Ha (w1 & H & Hf & ->)%commit_lines_ok.
  destruct (apply_lines_ahead _ _ _ _ _ Ha H) as (wa1 & E1 & Ha1).
  unfold commit_lines. rewrite E1, flush_eq, (ahead_fits _ _ Ha1 Hf).
  eexists; split; [done|]. destruct Ha1 as (? & ? & ? & _).
  unfold ahead; simpl. auto.
Qed.

Lemma apply_lines_unknown (tid : Z) (ls : list json) (w : work) :
  products (pending w) !! b = None →
  products (pending (fst (apply_lines tid ls w))) !! b = None.
Proof.
  apply (apply_lines_invariant (λ w, products (pending w) !! b = None));
    [done|].
  intros x f w' _ _ Hp. unfold apply_line.
  destruct (lf_barcode f) as [b'|]; [|done]. simpl.
  destruct (products (pending w') !! b') as [prod|] eqn:E1; [|done]. simpl.
  rewrite lookup_insert_ne; [done|congruence].
Qed.

(** The loop over the lines reaches the commit with the line when it does
    without it. *)
Lemma commit_lines_unknown (tid : Z) (ls : list json) (j : nat) (l : dict)
    (w w' : work) :
  ls !! j = Some (JObj l) →
  line_converts (JObj l) = true →
  bind_text (dict_get l "barcode") = Ok (Some b) →
  products (pending w) !! b = None →
  commit_lines tid (delete j ls) w = (w', Ok tt) →
  ∃ w'', commit_lines tid ls w = (w'', Ok tt) ∧ ahead w'' w'.
Proof.
  intros Hj Hc Hb Hp.
  destruct (list_elem_of_split_length _ _ _ Hj) as (ls1 & ls2 & -> & ->).
  rewrite delete_middle, !commit_lines_app.
  pose proof (apply_lines_unknown tid ls1 w Hp) as Hp1.
  destruct (apply_lines tid ls1 w) as [w1 [[]|e]]; [|done].
  simpl in Hp1. intros H. rewrite commit_lines_cons.
  destruct (line_step_unknown tid l w1 Hc Hb Hp1)
    as (w2 & -> & H1 & H2 & H3 & H4); [by eapply commit_lines_fits|].
  apply (commit_lines_ahead _ _ w2 w1); [|done].
  unfold ahead. do 3 (split; [done|]). right. split; [done|].
  by eapply commit_lines_fits.
Qed.

Lemma parse_head_with_lines (ls : list json) (tx : dict) :
  parse_head (with_lines ls tx) = parse_head tx.
Proof. done. Qed.

(** The [try] block commits the transaction with the line when it commits
    the transaction without it, with the same id, the same products and
    the same snapshots. *)
Lemma sync_try_unknown_line (tx : dict) (ls : list json) (j : nat) (l : dict)
    (w w' : work) (tid : Z) :
  py_iter (dict_get_or tx "lines" (JArr [])) = Ok ls →
  ls !! j = Some (JObj l) →
  line_converts (JObj l) = true →
  bind_text (dict_get l "barcode") = Ok (Some b) →
  products (pending w) !! b = None →
  sync_try now (with_lines (delete j ls) tx) w = (w', Ok tid) →
  ∃ w'', sync_try now tx w = (w'', Ok tid) ∧ ahead w'' w'.
Proof.
  intros Hls Hj Hc Hb Hp. rewrite !sync_try_eq, parse_head_with_lines, Hls.
  destruct (parse_head tx) as [h|e]; [|done].
  change (dict_get_or (with_lines (delete j ls) tx) "lines" (JArr []))
    with (JArr (delete j ls)).
  change (head_row now (with_lines (delete j ls) tx) h (pending w))
    with (head_row now tx h (pending w)).
  simpl py_iter. cbv beta iota zeta.
  set (t := head_row now tx h (pending w)).
  destruct (commit_lines (t_id t) (delete j ls) (add_head t w))
    as [w1 [[]|e]] eqn:E1; [|done].
  intros [= <- <-].
  destruct (commit_lines_unknown (t_id t) ls j l (add_head t w) w1)
    as (w2 & -> & Ha); try done.
  by exists w2.
Qed.

End UnknownBarcode.

Lemma run_batch_ack_entries `{Eng : Sqlite} (now : Z) (st : db)
    (batch : list dict) :
  Forall (ack_entry (store (run_batch now st batch)))
         (ack (run_batch now st batch)).
Proof.
  pose proof (sync_loop_ack_entries now (JObj <$> batch) (init_loop st)) as H.
  rewrite sync_loop_dicts in H. apply H. constructor.
Qed.

Lemma acknowledged_found `{Eng : Sqlite} (now : Z) (st : db)
    (batch : list dict) (i : nat) (lid : json) (tid : Z) :
  ack (run_batch now st batch) !! i = Some (ack_ok lid tid) →
  ∃ t, find_transaction tid (store (run_batch now st batch)) = Some t.
Proof.
  intros Ha. pose proof (run_batch_ack_entries now st batch) as H.
  rewrite Forall_lookup in H.
  destruct (H i _ Ha) as (a & [= <-] & [(_ & (tid' & Hs & Hf) & _)|(Hs & _)]);
    [|done].
  injection Hs as <-. exact Hf.
Qed.

(** C6.  A line whose barcode has no product does not make its transaction
    fail and adjusts no stock.  When the line itself converts and the
    transaction without the line would be committed at its place in the
    batch, the transaction is committed with the line: its entry of [ack]
    has status ok with the id of a transaction of the ledger, the ledger
    holds a row of that transaction for the line, no product appears under
    the barcode, no snapshot of [updated_products] carries it, the
    products after the transaction are those that the transaction without
    the line leaves, and the iteration for the line changes neither a
    product nor [updated_products]. *)
Theorem C6_unknown_barcode_is_skipped (Eng : Sqlite) (now : Z) (st : db)
    (batch : list dict) (i : nat) (tx : dict) (ls : list json) (j : nat)
    (l : dict) (b : string) :
  products st !! b = None →
  batch !! i = Some tx →
  py_iter (dict_get_or tx "lines" (JArr [])) = Ok ls →
  ls !! j = Some (JObj l) →
  bind_text (dict_get l "barcode") = Ok (Some b) →
  line_converts (JObj l) = true →
  let before := run_batch now st (take i batch) in
  let rest := with_lines (delete j ls) tx in
  is_ok (snd (attempt now before rest)) = true →
  let r := sync_transactions now st (sync_request batch) in
  ∃ body tid t row,
    snd r = Success body
    ∧ body_ack body !! i
      = Some (JObj [("local_id", dict_get tx "local_id");
                    ("status", JStr "ok"); ("server_id", JInt tid)])
    ∧ find_transaction tid (fst r) = Some t
    ∧ row ∈ transaction_lines (fst r)
    ∧ l_transaction_id row = tid
    ∧ l_barcode row = Some b
    ∧ line_stored row l
    ∧ products (fst r) !! b = None
    ∧ Forall (λ d, d_barcode d ≠ b) (body_updated_products body)
    ∧ products (store (sync_step now before tx))
      = products (store (sync_step now before rest))
    ∧ ∀ tid' w, products (pending w) !! b = None → fits w = true →
        ∃ w', sync_line tid' (JObj l) w = (w', Ok tt)
              ∧ products (pending w') = products (pending w)
              ∧ updated w' = updated w.
Proof.
  intros Hp Hi Hls Hj Hb Hc. simpl. intros Hok.
  rewrite sync_transactions_batch. simpl.
  destruct (list_elem_of_split_length _ _ _ Hi) as (pre & post & -> & ->).
  rewrite take_app_length in Hok |- *.
  set (s := run_batch now st pre) in *.
  destruct (run_batch_unknown now b st pre Hp) as [Hps _]. fold s in Hps.
  unfold attempt in Hok.
  destruct (sync_try now (with_lines (delete j ls) tx)
              (session (store s) (updated_products s)))
    as [w' [tid|e]] eqn:E'; [|done].
  destruct (sync_try_unknown_line now b tx ls j l
              (session (store s) (updated_products s)) w' tid
              Hls Hj Hc Hb Hps E') as (w & E1 & Ha).
  assert (ack (run_batch now st (pre ++ tx :: post)) !! length pre
          = Some (ack_ok (dict_get tx "local_id") tid)) as Hack.
  { rewrite run_batch_ack_at. unfold attempt. fold s. by rewrite E1. }
  destruct (acknowledged_found now st _ _ _ _ Hack) as [t Ht].
  destruct (run_batch_persisted now st _ _ _ _ _ Hi Hack)
    as (ls' & Hit & Hrows).
  rewrite Hls in Hit. injection Hit as <-.
  destruct (Hrows j _ Hj) as (row & Hin & Hid & l' & [= <-] & Hst & Heq).
  destruct (run_batch_unknown now b st (pre ++ tx :: post) Hp) as [Hp' Hu].
  exists (sync_body_of (run_batch now st (pre ++ tx :: post))), tid, t, row.
  do 5 (split; [done|]). split.
  { destruct Hst as [Hst _]. rewrite Hb in Hst. by injection Hst. }
  do 2 (split; [done|]). split; [|split].
  - apply Forall_forall. intros d [[k d'] [-> Hin']]%list_elem_of_fmap.
    apply elem_of_map_to_list in Hin'. simpl.
    destruct (Hu k d' Hin') as [-> ?]. done.
  - rewrite (sync_step_ok now s tx w tid E1),
      (sync_step_ok now s _ w' tid E'). simpl. by destruct Ha.
  - intros tid' w0 Hw Hf. rewrite sync_line_eq.
    destruct (line_step_unknown b tid' l w0 Hc Hb Hw Hf)
      as (w1 & -> & H1 & _ & H3 & _).
    by exists w1.
Qed.

(* ===================================================================== *)
(** * The snapshots of [updated_products]                                 *)
(* ===================================================================== *)

Section Snapshots.
Context `{Eng : Sqlite}.
Variable now : Z.

Lemma apply_line_snapshots (tid : Z) (f : line_fields) (w : work) :
  (snapshots_keyed (updated w) →
   snapshots_keyed (updated (apply_line tid f w)))
  ∧ (snapshots_current (pending w) (updated w) →
     snapshots_current (pending (apply_line tid f w))
                       (updated (apply_line tid f w))).
Proof.
  unfold apply_line. destruct (lf_barcode f) as [b|]; [|done]. simpl.
  destruct (products (pending w) !! b) as [prod|] eqn:E; [|done]. simpl.
  split; intros H k s; rewrite lookup_insert; case_decide as Hk.
  - intros [= <-]. by subst k.
  - apply H.
  - intros [= <-]. subst k. eexists. simpl. by rewrite lookup_insert_eq.
  - intros Hs. simpl. rewrite lookup_insert_ne by done. by apply H.
Qed.

Lemma sync_try_keyed (tx : dict) (w : work) :
  snapshots_keyed (updated w) →
  snapshots_keyed (updated (fst (sync_try now tx w))).
Proof.
  apply (sync_try_invariant (λ w, snapshots_keyed (updated w))); [done..|].
  intros tid f w'. apply apply_line_snapshots.
Qed.

Lemma sync_try_current (tx : dict) (w : work) :
  snapshots_current (pending w) (updated w) →
  snapshots_current (pending (fst (sync_try now tx w)))
                    (updated (fst (sync_try now tx w))).
Proof.
  apply (sync_try_invariant
           (λ w, snapshots_current (pending w) (updated w))); [done..|].
  intros tid f w'. apply apply_line_snapshots.
Qed.

Lemma sync_step_keyed (s : loop_state) (tx : dict) :
  snapshots_keyed (updated_products s) →
  snapshots_keyed (updated_products (sync_step now s tx)).
Proof.
  intros H. unfold sync_step.
  pose proof (sync_try_keyed tx (session (store s) (updated_products s)) H)
    as H1.
  by destruct (sync_try now tx _) as [w [tid|e]].
Qed.

Lemma sync_step_current (s : loop_state) (tx : dict) :
  is_ok (snd (attempt now s tx)) = true →
  snapshots_current (store s) (updated_products s) →
  snapshots_current (store (sync_step now s tx))
                    (updated_products (sync_step now s tx)).
Proof.
  unfold attempt, sync_step. intros Hok H.
  pose proof (sync_try_current tx (session (store s) (updated_products s)) H)
    as H2.
  by destruct (sync_try now tx _) as [w [tid|e]].
Qed.

(** An entry with status ok is the entry of a transaction that was
    committed. *)
Lemma entry_acknowledged (tx : dict) (r : result Z) :
  acknowledged (entry_of tx r) → is_ok r = true.
Proof. by destruct r. Qed.

Lemma run_batch_keyed (st : db) (batch : list dict) :
  snapshots_keyed (updated_products (run_batch now st batch)).
Proof.
  induction batch as [|tx batch IH] using rev_ind.
  - intros k s. unfold run_batch. simpl. by rewrite lookup_empty.
  - rewrite run_batch_snoc. by apply sync_step_keyed.
Qed.

Lemma run_batch_current (st : db) (batch : list dict) :
  Forall acknowledged (ack (run_batch now st batch)) →
  snapshots_current (store (run_batch now st batch))
                    (updated_products (run_batch now st batch)).
Proof.
  induction batch as [|tx batch IH] using rev_ind.
  - intros _ k s. unfold run_batch. simpl. by rewrite lookup_empty.
  - rewrite run_batch_snoc, sync_step_entry.
    intros [H1 H2]%Forall_app. inversion_clear H2 as [|? ? H3 _].
    apply sync_step_current; [|by apply IH]. by eapply entry_acknowledged.
Qed.

End Snapshots.

(** In every answer, [updated_products] holds at most one snapshot per
    barcode. *)
Theorem updated_products_once_per_barcode (Eng : Sqlite) (now : Z) (st : db)
    (batch : list dict) :
  NoDup (d_barcode <$> body_updated_products
                         (sync_body_of (run_batch now st batch))).
Proof.
  unfold sync_body_of. simpl.
  pose proof (run_batch_keyed now st batch) as Hk.
  set (m := updated_products (run_batch now st batch)) in *.
  assert (d_barcode <$> (snd <$> map_to_list m) = fst <$> map_to_list m) as ->.
  { rewrite <- list_fmap_compose. apply list_fmap_ext.
    intros i [k s] Hin%list_elem_of_lookup_2%elem_of_map_to_list. simpl.
    by apply Hk. }
  apply NoDup_fst_map_to_list.
Qed.

(** When every transaction of the batch is committed, each snapshot of
    [updated_products] is the row of its product in the store after the
    batch. *)
Theorem updated_products_of_committed_batch (Eng : Sqlite) (now : Z)
    (st : db) (batch : list dict) :
  Forall acknowledged (ack (run_batch now st batch)) →
  Forall (λ s, ∃ p, products (store (run_batch now st batch)) !! d_barcode s
                    = Some p
                    ∧ s = to_dict (d_barcode s) p)
         (body_updated_products (sync_body_of (run_batch now st batch))).
Proof.
  intros H. apply Forall_forall.
  intros s [[k s'] [-> Hin]]%list_elem_of_fmap.
  apply elem_of_map_to_list in Hin. simpl.
  rewrite (run_batch_keyed now st batch k s' Hin).
  by apply (run_batch_current now st batch H).
Qed.

(* ===================================================================== *)
(** * Sales of one product                                                *)
(* ===================================================================== *)

Section OneLine.
Context `{Eng : Sqlite}.
Variable now : Z.



End OneLine.


(* ===================================================================== *)
(** * The reorder heuristic                                               *)
(* ===================================================================== *)

Section Rounding.

Lemma digits2_pos_size (p : positive) : digits2_pos p = Pos.size p.
Proof. induction p as [p IH|p IH|]; simpl; by rewrite ?IH. Qed.

Lemma Zdigits2_log2 (p : positive) :
  Zdigits2 (Zpos p) = Z.log2 (Zpos p) + 1.
Proof.
  simpl. rewrite digits2_pos_size.
  destruct p as [p|p|]; simpl; try lia.
Qed.

Lemma Zdigits2_nonneg (m : Z) : 0 ≤ Zdigits2 m.
Proof. destruct m; simpl; lia. Qed.

Lemma Zdigits2_lt (m : Z) : 0 ≤ m → m < 2 ^ Zdigits2 m.
Proof.
  intros H. destruct m as [|p|p]; [simpl; lia| |lia].
  rewrite Zdigits2_log2. pose proof (Z.log2_spec (Zpos p) ltac:(lia)) as Hs.
  replace (Z.log2 (Zpos p) + 1) with (Z.succ (Z.log2 (Zpos p))) by lia. lia.
Qed.

Lemma Zdigits2_le (m k : Z) : 0 ≤ m → 0 ≤ k → m < 2 ^ k → Zdigits2 m ≤ k.
Proof.
  intros Hm Hk H. destruct m as [|p|p]; [simpl; lia| |lia].
  rewrite Zdigits2_log2.
  pose proof (Z.log2_spec (Zpos p) ltac:(lia)) as [Hs _].
  assert (Z.log2 (Zpos p) < k); [|lia].
  apply (Z.pow_lt_mono_r_iff 2); lia.
Qed.

Lemma shr_1_div2 (mrs : shr_record) :
  0 ≤ shr_m mrs → shr_m (shr_1 mrs) = shr_m mrs / 2.
Proof.
  destruct mrs as [m r s]. simpl. intros H.
  destruct m as [|[p|p|]|p]; simpl; try lia.
  all: first [ apply (Z.div_unique _ 2 _ 0); lia
             | apply (Z.div_unique _ 2 _ 1); lia ].
Qed.

Lemma shr_1_nonneg (mrs : shr_record) :
  0 ≤ shr_m mrs → 0 ≤ shr_m (shr_1 mrs).
Proof.
  destruct mrs as [m r s]. simpl.
  destruct m as [|[p|p|]|[p|p|]]; simpl; lia.
Qed.

Lemma iter_pos_shr_1_nonneg (n : positive) (mrs : shr_record) :
  0 ≤ shr_m mrs → 0 ≤ shr_m (SpecFloat.iter_pos shr_1 n mrs).
Proof.
  revert mrs. induction n as [n IH|n IH|]; intros mrs H; simpl.
  - by apply IH, IH, shr_1_nonneg.
  - by apply IH, IH.
  - by apply shr_1_nonneg.
Qed.

Lemma shr_fexp_nonneg (m e : Z) (l : location) :
  0 ≤ m → 0 ≤ shr_m (fst (shr_fexp prec emax m e l)).
Proof.
  intros H. unfold shr_fexp, shr.
  assert (0 ≤ shr_m (shr_record_of_loc m l)) as H'.
  { by destruct l as [|[]]. }
  destruct (_ - e); simpl; [done| |done].
  by apply iter_pos_shr_1_nonneg.
Qed.

Lemma iter_pos_shr_1_div (n : positive) (mrs : shr_record) :
  0 ≤ shr_m mrs →
  shr_m (SpecFloat.iter_pos shr_1 n mrs) = shr_m mrs / 2 ^ Zpos n.
Proof.
  revert mrs. induction n as [n IH|n IH|]; intros mrs H;
    simpl SpecFloat.iter_pos.
  - rewrite IH by by apply iter_pos_shr_1_nonneg, shr_1_nonneg.
    rewrite IH by by apply shr_1_nonneg.
    rewrite shr_1_div2 by done.
    rewrite !Z.div_div by lia. f_equal.
    replace (Zpos n~1) with (1 + Zpos n + Zpos n) by lia.
    rewrite !Z.pow_add_r by lia. lia.
  - rewrite IH by by apply iter_pos_shr_1_nonneg.
    rewrite IH by done.
    rewrite !Z.div_div by lia. f_equal.
    replace (Zpos n~0) with (Zpos n + Zpos n) by lia.
    rewrite !Z.pow_add_r by lia. lia.
  - by rewrite shr_1_div2.
Qed.

(** [shr_fexp] keeps the mantissa non-negative and keeps a bound [K] on
    the binary order of magnitude [Zdigits2 m + e]. *)
Lemma shr_fexp_bounded (m e K : Z) (l : location) :
  0 ≤ m → Zdigits2 m + e ≤ K → -1074 ≤ K →
  0 ≤ shr_m (fst (shr_fexp prec emax m e l))
  ∧ Zdigits2 (shr_m (fst (shr_fexp prec emax m e l)))
    + snd (shr_fexp prec emax m e l) ≤ K
  ∧ snd (shr_fexp prec emax m e l) ≤ Z.max e (Z.max (K - 53) (-1074)).
Proof.
  intros Hm HK HK'. unfold shr_fexp, shr.
  assert (shr_m (shr_record_of_loc m l) = m) as Hrec by by destruct l as [|[]].
  assert (fexp prec emax (Zdigits2 m + e) - e
          = Z.max (Zdigits2 m + e - 53) (-1074) - e) as Hn by reflexivity.
  destruct (fexp prec emax (Zdigits2 m + e) - e) as [|p|p]; simpl;
    [rewrite Hrec; lia| |rewrite Hrec; lia].
  rewrite iter_pos_shr_1_div, Hrec by lia.
  pose proof (Zdigits2_lt m Hm) as Hlt.
  pose proof (Zdigits2_nonneg m) as Hd.
  assert (0 < 2 ^ Zpos p) as Hp by (apply Z.pow_pos_nonneg; lia).
  split; [apply Z.div_pos; lia|]. split; [|lia].
  destruct (Z.lt_ge_cases (Zdigits2 m) (Zpos p)) as [Hc|Hc].
  - rewrite Z.div_small; [simpl; lia|]. split; [done|].
    eapply Z.lt_le_trans; [exact Hlt|]. apply Z.pow_le_mono_r; lia.
  - assert (Zdigits2 (m / 2 ^ Zpos p) ≤ Zdigits2 m - Zpos p); [|lia].
    apply Zdigits2_le; [apply Z.div_pos; lia|lia|].
    apply Z.div_lt_upper_bound; [done|].
    rewrite <- Z.pow_add_r by lia.
    by replace (Zpos p + (Zdigits2 m - Zpos p)) with (Zdigits2 m) by lia.
Qed.

Lemma Zdigits2_succ (m : Z) : 0 ≤ m → Zdigits2 (m + 1) ≤ Zdigits2 m + 1.
Proof.
  intros H. pose proof (Zdigits2_lt m H). pose proof (Zdigits2_nonneg m).
  apply Zdigits2_le; [lia..|]. rewrite Z.pow_add_r by lia. lia.
Qed.

(** Rounding a mantissa of bounded magnitude gives a zero or a finite
    number, of magnitude at most one binary order more. *)
Lemma binary_round_aux_bounded (s : bool) (m e K : Z) (l : location) :
  0 ≤ m → Zdigits2 m + e ≤ K → -1074 ≤ K → K ≤ 1023 → e ≤ 971 →
  float_within (K + 1) (binary_round_aux prec emax s m e l).
Proof.
  intros Hm HK HK1 HK2 He. unfold float_within, binary_round_aux.
  destruct (shr_fexp_bounded m e K l Hm HK HK1) as (H1 & H2 & H3).
  destruct (shr_fexp prec emax m e l) as [mrs' e']. simpl in H1, H2, H3.
  set (m' := round_nearest_even (shr_m mrs') (loc_of_shr_record mrs')).
  assert (0 ≤ m' ∧ Zdigits2 m' + e' ≤ K + 1) as [H4 H5].
  { subst m'. unfold round_nearest_even.
    pose proof (Zdigits2_succ (shr_m mrs') H1).
    destruct (loc_of_shr_record mrs') as [|[]]; try (split; lia).
    destruct (Z.even _); split; lia. }
  destruct (shr_fexp_bounded m' e' (K + 1) loc_Exact H4 H5 ltac:(lia))
    as (H6 & H7 & H8).
  destruct (shr_fexp prec emax m' e' loc_Exact) as [mrs'' e''].
  simpl in H6, H7, H8.
  destruct (shr_m mrs'') as [|q|q]; [done| |lia].
  destruct (e'' <=? emax - prec) eqn:E.
  - apply Z.leb_le in E. unfold emax, prec in E. split; lia.
  - apply Z.leb_gt in E. unfold emax, prec in E. lia.
Qed.

(** Rounding a non-negative mantissa never gives a NaN. *)
Lemma binary_round_aux_not_nan (s : bool) (m e : Z) (l : location) :
  0 ≤ m → binary_round_aux prec emax s m e l ≠ S754_nan.
Proof.
  intros H. unfold binary_round_aux.
  pose proof (shr_fexp_nonneg m e l H) as H1.
  destruct (shr_fexp prec emax m e l) as [mrs' e']. simpl in H1.
  set (m' := round_nearest_even (shr_m mrs') (loc_of_shr_record mrs')).
  assert (0 ≤ m') as H2.
  { subst m'. unfold round_nearest_even.
    destruct (loc_of_shr_record mrs') as [|[]]; try done;
      [destruct (Z.even _)|]; lia. }
  pose proof (shr_fexp_nonneg m' e' loc_Exact H2) as H3.
  destruct (shr_fexp prec emax m' e' loc_Exact) as [mrs'' e'']. simpl in H3.
  destruct (shr_m mrs'') as [|q|q]; [done| |lia].
  by destruct (e'' <=? _).
Qed.

Lemma SFmul_finite_not_nan (s1 s2 : bool) (m1 m2 : positive) (e1 e2 : Z) :
  SFmul prec emax (S754_finite s1 m1 e1) (S754_finite s2 m2 e2) ≠ S754_nan.
Proof. simpl. by apply binary_round_aux_not_nan. Qed.

Lemma float_quot_not_nan (a b : Z) : b ≠ 0 → float_quot a b ≠ S754_nan.
Proof.
  intros Hb. unfold float_quot.
  destruct a as [|a|a]; [done| |]; (destruct b as [|b|b]; [done| |]);
    unfold SFdiv, SFdiv_core_binary;
    match goal with
    | |- context [Z.div_eucl ?x ?y] =>
        pose proof (Z_div_mod x y ltac:(done)) as Hd;
        assert (0 ≤ x) as Hx by
          (match goal with
           | |- context [match ?s with Z0 => _ | Zpos _ => _ | Zneg _ => _ end] =>
               destruct s; [done| |done]; apply Z.shiftl_nonneg; done
           end);
        destruct (Z.div_eucl x y) as [q r]
    end;
    apply binary_round_aux_not_nan; nia.
Qed.

Lemma digits2_iter_xO (m d : positive) :
  Zdigits2 (Zpos (Pos.iter xO m d)) = Zdigits2 (Zpos m) + Zpos d.
Proof.
  induction d as [|d IH] using Pos.peano_ind; simpl in *; [lia|].
  rewrite Pos.iter_succ. simpl. lia.
Qed.

Lemma binary_round_within (s : bool) (m : positive) (e K : Z) :
  Zdigits2 (Zpos m) + e ≤ K → -1074 ≤ K → K ≤ 1023 → e ≤ 971 →
  float_within (K + 1) (binary_round prec emax s m e).
Proof.
  intros HK HK1 HK2 He. unfold binary_round, shl_align.
  change (Zpos (digits2_pos m)) with (Zdigits2 (Zpos m)).
  destruct (fexp prec emax (Zdigits2 (Zpos m) + e) - e) as [|d|d] eqn:E;
    try (apply binary_round_aux_bounded; lia).
  apply binary_round_aux_bounded; try lia.
  rewrite digits2_iter_xO. lia.
Qed.

Lemma float_of_Z_within (z : Z) :
  Z.abs z < 2 ^ 1000 → ∃ f, float_of_Z z = Some f ∧ float_within 1001 f.
Proof.
  intros H. unfold float_of_Z, binary_normalize.
  destruct z as [|m|m]; [by eexists| |].
  - assert (float_within 1001 (binary_round prec emax false m 0)) as Hb.
    { apply (binary_round_within false m 0 1000); try lia.
      pose proof (Zdigits2_le (Zpos m) 1000). lia. }
    destruct (binary_round prec emax false m 0); try done; by eexists.
  - assert (float_within 1001 (binary_round prec emax true m 0)) as Hb.
    { apply (binary_round_within true m 0 1000); try lia.
      pose proof (Zdigits2_le (Zpos m) 1000). lia. }
    destruct (binary_round prec emax true m 0); try done; by eexists.
Qed.

Lemma SFdiv_ints_within (sa sb : bool) (a b : positive) :
  Zpos a < 2 ^ 1000 →
  float_within 1001
    (SFdiv prec emax (S754_finite sa a 0) (S754_finite sb b 0)).
Proof.
  intros Ha. unfold SFdiv, SFdiv_core_binary.
  set (e' := Z.min _ _).
  assert (e' ≤ 0) as He by (subst e'; lia).
  set (m' := match 0 - 0 - e' with
             | Z0 => Zpos a
             | Zpos _ => Z.shiftl (Zpos a) (0 - 0 - e')
             | Zneg _ => 0
             end).
  assert (m' = Zpos a * 2 ^ (- e')) as Hm'.
  { subst m'. replace (0 - 0 - e') with (- e') by lia.
    destruct (- e') as [|p|p] eqn:E; [lia| |lia].
    by rewrite Z.shiftl_mul_pow2. }
  assert (0 < 2 ^ (- e')) as Hp by (apply Z.pow_pos_nonneg; lia).
  pose proof (Z_div_mod m' (Zpos b) ltac:(done)) as Hd.
  destruct (Z.div_eucl m' (Zpos b)) as [q r]. destruct Hd as [Hq Hr].
  assert (0 ≤ q) as Hq0 by nia.
  assert (q ≤ m') as Hq1 by nia.
  apply (binary_round_aux_bounded _ _ _ 1000); try lia.
  assert (Zdigits2 q ≤ 1000 - e'); [|lia].
  apply Zdigits2_le; [lia..|].
  replace (1000 - e') with (1000 + - e') by lia.
  rewrite Z.pow_add_r by lia. nia.
Qed.

Lemma float_quot_within (a b : Z) :
  b ≠ 0 → Z.abs a < 2 ^ 1000 → float_within 1001 (float_quot a b).
Proof.
  intros Hb Ha. unfold float_quot.
  destruct a as [|a|a]; [done| |]; (destruct b as [|b|b]; [done| |]);
    apply SFdiv_ints_within; lia.
Qed.

Lemma SFmul_14_within (f : float) :
  float_within 1001 f → float_within 1006 (SFmul prec emax f float_14).
Proof.
  destruct f as [s|s| |s m e]; try done. intros [Hm He].
  unfold float_14, SFmul.
  apply (binary_round_aux_bounded _ _ _ 1005); try lia.
  assert (Zdigits2 (Zpos (m * 7881299347898368)) ≤ Zdigits2 (Zpos m) + 53);
    [|lia].
  pose proof (Zdigits2_lt (Zpos m) ltac:(lia)) as Hlt.
  pose proof (Zdigits2_nonneg (Zpos m)) as Hd.
  apply Zdigits2_le; [lia..|].
  rewrite Z.pow_add_r, Pos2Z.inj_mul by lia.
  assert (7881299347898368 < 2 ^ 53) by (vm_compute; reflexivity). nia.
Qed.

End Rounding.

Section Suggest.

Lemma suggest_request_parsed (st : db) (b : string) (days : Z) :
  ai_suggest st (suggest_request b days)
  = if String.eqb (str_strip b) "" then Failure 400 "barcode required"
    else match products st !! str_strip b with
         | None => Failure 404 "product not found"
         | Some prod =>
             match suggest_for st (str_strip b) prod days with
             | Raise e => Unhandled e
             | Ok body => Success body
             end
         end.
Proof.
  unfold ai_suggest, suggest_request. simpl.
  unfold dict_get, dict_get_or, py_or. simpl.
  by destruct b.
Qed.

Lemma py_truediv_outcome (a b : Z) :
  b ≠ 0 →
  match py_truediv a b with
  | Ok f => f = float_quot a b ∧ f ≠ S754_nan
            ∧ ∀ s, f ≠ S754_infinity s
  | Raise e => ∃ msg, e = OverflowError msg
  end.
Proof.
  intros Hb. unfold py_truediv.
  destruct (b =? 0) eqn:E; [apply Z.eqb_eq in E; done|].
  pose proof (float_quot_not_nan a b Hb) as Hn.
  destruct (float_quot a b); eauto.
Qed.

Lemma days_of_cover_outcome (qty : Z) (avg : float) :
  match days_of_cover qty avg with
  | Ok _ => True
  | Raise e => ∃ msg, e = OverflowError msg
  end.
Proof.
  unfold days_of_cover. destruct (float_is_zero avg); [done|].
  unfold mbind, result_bind. simpl.
  destruct (float_of_Z qty); [|eauto].
  by destruct (SFdiv _ _ _ _) as [| [] | |].
Qed.

Lemma suggested_reorder_outcome (qty : Z) (avg : float) :
  avg ≠ S754_nan → (∀ s, avg ≠ S754_infinity s) →
  match suggested_reorder qty avg with
  | Ok n =>
      0 ≤ n
      ∧ if float_is_pos avg
        then ∃ t, float_trunc (SFmul prec emax avg float_14) = Some t
                  ∧ n = Z.max 0 (Z.max t 5 - qty)
        else n = 0
  | Raise e => ∃ msg, e = OverflowError msg
  end.
Proof.
  intros Hn Hi. unfold suggested_reorder.
  destruct (float_is_pos avg) eqn:Hpos; [|done].
  destruct avg as [s|s| |s m e]; try done; [by destruct (Hi s)|].
  pose proof (SFmul_finite_not_nan s false m 7881299347898368 e (-49)) as Hm.
  unfold float_14. unfold fmap, result_fmap, mbind, mret, result_bind,
    result_ret, py_int.
  destruct (SFmul _ _ _ _) as [s'|s'| |s' m' e']; try done; eauto.
  - split; [lia|]. exists 0. split; [done|]. simpl. lia.
  - split; [simpl; lia|]. eexists. split; [reflexivity|]. done.
Qed.

(** Below [2^1000] no conversion overflows. *)
Lemma py_truediv_within (a b : Z) :
  b ≠ 0 → Z.abs a < 2 ^ 1000 →
  ∃ f, py_truediv a b = Ok f ∧ float_within 1001 f.
Proof.
  intros Hb Ha. unfold py_truediv.
  destruct (b =? 0) eqn:E; [apply Z.eqb_eq in E; done|].
  pose proof (float_quot_within a b Hb Ha) as H.
  destruct (float_quot a b); try done; by eexists.
Qed.

Lemma days_of_cover_answers (qty : Z) (avg : float) :
  Z.abs qty < 2 ^ 1000 → ∃ c, days_of_cover qty avg = Ok c.
Proof.
  intros H. unfold days_of_cover. destruct (float_is_zero avg); [by eexists|].
  unfold mbind, result_bind. simpl.
  destruct (float_of_Z_within qty H) as (f & -> & _).
  destruct (SFdiv _ _ _ _) as [| [] | |]; by eexists.
Qed.

Lemma suggested_reorder_answers (qty : Z) (avg : float) :
  float_within 1001 avg → ∃ n, suggested_reorder qty avg = Ok n.
Proof.
  intros H. unfold suggested_reorder.
  destruct (float_is_pos avg); [|by eexists].
  pose proof (SFmul_14_within avg H) as Hm.
  unfold fmap, result_fmap, mbind, mret, result_bind, result_ret, py_int.
  destruct (SFmul _ _ _ _); try done; by eexists.
Qed.

(** The outcomes of the handler for a product of the catalog. *)
Lemma ai_suggest_outcome (st : db) (b : string) (days : Z) (prod : Product) :
  str_strip b ≠ "" →
  products st !! str_strip b = Some prod →
  let sold := total_sold (lines_with_barcode (str_strip b) st) in
  match ai_suggest st (suggest_request b days) with
  | Success body =>
      sb_total_sold_in_history body = sold
      ∧ py_truediv sold (Z.max 1 days) = Ok (sb_avg_daily_estimate body)
      ∧ (if float_is_pos (sb_avg_daily_estimate body)
         then ∃ t, float_trunc (SFmul prec emax (sb_avg_daily_estimate body)
                                  float_14) = Some t
                   ∧ sb_suggested_reorder_qty body
                     = Z.max 0 (Z.max t 5 - p_qty prod)
         else sb_suggested_reorder_qty body = 0)
      ∧ 0 ≤ sb_suggested_reorder_qty body
  | Unhandled e => ∃ msg, e = OverflowError msg
  | Failure _ _ => False
  end.
Proof.
  intros Hb Hp sold. rewrite suggest_request_parsed.
  destruct (String.eqb_spec (str_strip b) "") as [E|E]; [done|]. rewrite Hp.
  unfold suggest_for. fold sold. unfold mbind, mret, result_bind, result_ret.
  pose proof (py_truediv_outcome sold (Z.max 1 days) ltac:(lia)) as Hq.
  destruct (py_truediv sold (Z.max 1 days)) as [avg|e]; [|done].
  destruct Hq as (_ & Hn & Hi).
  pose proof (days_of_cover_outcome (p_qty prod) avg) as Hc.
  destruct (days_of_cover (p_qty prod) avg) as [cover|e]; [|done].
  pose proof (suggested_reorder_outcome (p_qty prod) avg Hn Hi) as Hr.
  destruct (suggested_reorder (p_qty prod) avg) as [n|e]; [|done].
  simpl. destruct Hr as [Hr1 Hr2]. done.
Qed.

Lemma ai_suggest_answers (st : db) (b : string) (days : Z) (prod : Product) :
  str_strip b ≠ "" →
  products st !! str_strip b = Some prod →
  Z.abs (p_qty prod) < 2 ^ 1000 →
  Z.abs (total_sold (lines_with_barcode (str_strip b) st)) < 2 ^ 1000 →
  ∃ body, ai_suggest st (suggest_request b days) = Success body.
Proof.
  intros Hb Hp Hq Hs. rewrite suggest_request_parsed.
  destruct (String.eqb_spec (str_strip b) "") as [E|E]; [done|]. rewrite Hp.
  unfold suggest_for. unfold mbind, mret, result_bind, result_ret.
  destruct (py_truediv_within _ (Z.max 1 days) ltac:(lia) Hs)
    as (avg & -> & Ha).
  destruct (days_of_cover_answers (p_qty prod) avg Hq) as [c ->].
  destruct (suggested_reorder_answers (p_qty prod) avg Ha) as [n ->].
  by eexists.
Qed.

End Suggest.

(** C9 (as the code has it).  For a product of the catalog and a lookback
    window, with a stock count and a total of sold quantities below
    [2^1000] in absolute value, the handler answers with status 200.  Its
    answer has [total_sold_in_history] the sum of the quantities of all
    ledger lines with that barcode, [avg_daily_estimate] that sum divided
    by [max(1, lookback_days)], and a suggested reorder quantity of
    [max(0, max(int(avg_daily * 14), 5) - qty)] when [avg_daily > 0], and
    of 0 otherwise. *)
Theorem C9_reorder_heuristic (st : db) (b : string) (days : Z)
    (prod : Product) :
  str_strip b ≠ "" →
  products st !! str_strip b = Some prod →
  Z.abs (p_qty prod) < 2 ^ 1000 →
  Z.abs (total_sold (lines_with_barcode (str_strip b) st)) < 2 ^ 1000 →
  let sold := total_sold (lines_with_barcode (str_strip b) st) in
  ∃ body,
    ai_suggest st (suggest_request b days) = Success body
    ∧ sb_total_sold_in_history body = sold
    ∧ py_truediv sold (Z.max 1 days) = Ok (sb_avg_daily_estimate body)
    ∧ (if float_is_pos (sb_avg_daily_estimate body)
       then ∃ t, float_trunc (SFmul prec emax (sb_avg_daily_estimate body)
                                float_14) = Some t
                 ∧ sb_suggested_reorder_qty body
                   = Z.max 0 (Z.max t 5 - p_qty prod)
       else sb_suggested_reorder_qty body = 0)
    ∧ 0 ≤ sb_suggested_reorder_qty body.
Proof.
  intros Hb Hp Hq Hs sold.
  destruct (ai_suggest_answers st b days prod Hb Hp Hq Hs) as [body E].
  pose proof (ai_suggest_outcome st b days prod Hb Hp) as H.
  rewrite E in H. by exists body.
Qed.

(* ===================================================================== *)
(** * The scenarios, evaluated                                            *)
(* ===================================================================== *)

Ltac by_evaluation := first [compute_done | vm_compute; reflexivity].

(** C1 on the product handler.  The store holds "111" with ten units and
    no negative count; the request with [qty = -5] is stored as it is, and
    the stock count of "111" is negative afterwards.  The reconciler, on
    the same column, floors at zero (line 250). *)
Theorem C1_upsert_stores_negative_qty (Eng : Sqlite) :
  qty_nonneg shop
  ∧ (p_qty <$> products (fst (create_or_update_product 0 shop negative_stock))
               !! "111") = Some (-5)
  ∧ ¬ qty_nonneg (fst (create_or_update_product 0 shop negative_stock)).
Proof. unfold qty_nonneg. repeat split; by_evaluation. Qed.

(** C2 on a batch with an item that is no object.  [tx.get('local_id')],
    line 223, raises outside the [try]: the exception leaves the handler,
    no failure result is recorded, and the loop does not go on to the
    next transaction.  The store is the one after the first sale, with six
    units of "111", where the two sales leave none. *)
Theorem C2_stray_item_stops_the_batch (Eng : Sqlite) :
  snd (sync_transactions 0 shop stray_batch)
  = Unhandled (AttributeError "'NoneType' object has no attribute 'get'")
  ∧ fst (sync_transactions 0 shop stray_batch)
    = fst (sync_transactions 0 shop (sync_request [scenario_b1]))
  ∧ (p_qty <$> products (fst (sync_transactions 0 shop stray_batch)) !! "111")
    = Some 6
  ∧ (p_qty <$> products (fst (sync_transactions 0 shop
                                (sync_request [scenario_b1; scenario_b2])))
               !! "111")
    = Some 0.
Proof. repeat split; by_evaluation. Qed.

(** C3 on the same batch of three items.  The answer has no body: no
    [ack] list at all, where the claim has a list of three entries; the
    batch of the two sales alone is answered with two. *)
Theorem C3_stray_item_leaves_no_ack (Eng : Sqlite) :
  (∃ txs, stray_batch = JObj [("transactions", JArr txs)]
          ∧ length txs = 3%nat)
  ∧ body_of (snd (sync_transactions 0 shop stray_batch)) = None
  ∧ (length ∘ body_ack
       <$> body_of (snd (sync_transactions 0 shop
                           (sync_request [scenario_b1; scenario_b2]))))
    = Some 2%nat.
Proof.
  split; [by eexists|]. split; by_evaluation.
Qed.

(** C4 on a transaction that is rolled back.  The second line of the only
    transaction is rejected, the transaction is rolled back and the stock
    of "111" stays at 10; the answer nevertheless carries a snapshot of
    "111" with [qty = 7], the uncommitted count after the first line. *)
Lemma C4_snapshot_of_rolled_back_sale (Eng : Sqlite) :
  fst (sync_transactions 0 shop (sync_request [half_valid])) = shop
  ∧ (p_qty <$> products shop !! "111") = Some 10
  ∧ (body_ack <$> body_of (snd (sync_transactions 0 shop
                                  (sync_request [half_valid]))))
    = Some [JObj [("local_id", JStr "h"); ("status", JStr "error");
                  ("error",
                   JStr "invalid literal for int() with base 10: 'three'")]]
  ∧ (body_updated_products
       <$> body_of (snd (sync_transactions 0 shop (sync_request [half_valid]))))
    = Some [to_dict "111" (set_qty 7 milk)].
Proof. repeat split; by_evaluation. Qed.

Section Scenarios.
#[local] Existing Instance engine.

(** C5, as stated, fails for an absent total: a transaction without a
    [total] key is committed with the total 0.0 and acknowledged with
    status ok. *)
Lemma C5_absent_total_defaults_to_zero :
  assoc "total" no_total = None
  ∧ (body_ack <$> body_of (snd (sync_transactions 0 shop
                                  (sync_request [no_total]))))
    = Some [JObj [("local_id", JStr "n"); ("status", JStr "ok");
                  ("server_id", JInt 1)]]
  ∧ (t_total <$> transactions (fst (sync_transactions 0 shop
                                      (sync_request [no_total]))))
    = [Some (S754_zero false)].
Proof. repeat split; by_evaluation. Qed.

Lemma C5_witness :
  assoc "total" scenario_c = Some (JStr "abc")
  ∧ py_float (JStr "abc")
    = Raise (ValueError "could not convert string to float: 'abc'")
  ∧ ∃ body,
      snd (sync_transactions 0 shop
             (sync_request ([scenario_b1] ++ scenario_c :: [scenario_b2])))
      = Success body
      ∧ body_ack body !! 1%nat
        = Some (JObj [("local_id", JStr "c"); ("status", JStr "error");
                      ("error",
                       JStr "could not convert string to float: 'abc'")]).
Proof.
  assert (assoc "total" scenario_c = Some (JStr "abc")) as H1
    by (vm_compute; reflexivity).
  assert (py_float (JStr "abc")
          = Raise (ValueError "could not convert string to float: 'abc'"))
    as H2 by (vm_compute; reflexivity).
  split; [exact H1|]. split; [exact H2|].
  destruct (C5_rejected_total_is_reported engine 0 shop [scenario_b1]
              [scenario_b2] scenario_c _ _ H1 H2) as (body & Hb & Ha & _).
  exists body. split; [exact Hb|exact Ha].
Defined.

Lemma C6_witness :
  products shop !! "999" = None
  ∧ is_ok (snd (attempt 0 (run_batch 0 shop [])
                  (with_lines [JObj (line "111" (JInt 3))] scenario_a)))
    = true
  ∧ ∃ body tid t row,
      snd (sync_transactions 0 shop (sync_request [scenario_a])) = Success body
      ∧ body_ack body !! 0%nat
        = Some (JObj [("local_id", JStr "a"); ("status", JStr "ok");
                      ("server_id", JInt tid)])
      ∧ find_transaction tid
          (fst (sync_transactions 0 shop (sync_request [scenario_a])))
        = Some t
      ∧ row ∈ transaction_lines
                (fst (sync_transactions 0 shop (sync_request [scenario_a])))
      ∧ l_transaction_id row = tid
      ∧ l_barcode row = Some "999"
      ∧ Forall (λ d, d_barcode d ≠ "999") (body_updated_products body).
Proof.
  assert (products shop !! "999" = None) as H2 by (vm_compute; reflexivity).
  assert (is_ok (snd (attempt 0 (run_batch 0 shop [])
                        (with_lines [JObj (line "111" (JInt 3))] scenario_a)))
          = true) as H3 by (vm_compute; reflexivity).
  split; [exact H2|]. split; [exact H3|].
  destruct (C6_unknown_barcode_is_skipped engine 0 shop [scenario_a] 0
              scenario_a
              [JObj (line "111" (JInt 3)); JObj (line "999" (JInt 5))] 1
              (line "999" (JInt 5)) "999" H2 eq_refl eq_refl eq_refl eq_refl
              eq_refl H3)
    as (body & tid & t & row & Hb & Ha & Ht & Hr & Hid & Hbar & _ & _ & Hu
        & _).
  exists body, tid, t, row. repeat split; assumption.
Defined.


(** C8, as stated, fails for a price that the table does not hold.  The
    sale of one unit at the price NaN is committed and acknowledged with
    status ok; [float()] returns NaN for the price, and the row of the
    line holds NULL. *)
Lemma C8_nan_price_is_stored_as_null :
  (body_ack <$> body_of (snd (sync_transactions 0 shop
                                (sync_request [nan_sale]))))
  = Some [JObj [("local_id", JStr "x"); ("status", JStr "ok");
                ("server_id", JInt 1)]]
  ∧ py_iter (dict_get_or nan_sale "lines" (JArr []))
    = Ok [JObj [("barcode", JStr "111"); ("name", JStr "item");
                ("qty", JInt 1); ("price", JFloat S754_nan);
                ("cost", JInt 2)]]
  ∧ py_float (JFloat S754_nan) = Ok S754_nan
  ∧ (l_price <$> lines_of 1 (fst (sync_transactions 0 shop
                                    (sync_request [nan_sale]))))
    = [None].
Proof. repeat split; by_evaluation. Qed.

Lemma C8_witness :
  fk_ok shop
  ∧ snd (sync_transactions 0 shop (sync_request [scenario_a]))
    = Success scenario_a_body
  ∧ body_ack scenario_a_body !! 0%nat
    = Some (JObj [("local_id", JStr "a"); ("status", JStr "ok");
                  ("server_id", JInt 1)])
  ∧ length (lines_of 1 (fst (sync_transactions 0 shop
                               (sync_request [scenario_a])))) = 2%nat.
Proof.
  assert (fk_ok shop) as H1 by (unfold fk_ok; by_evaluation).
  assert (snd (sync_transactions 0 shop (sync_request [scenario_a]))
          = Success scenario_a_body) as H2 by (vm_compute; reflexivity).
  assert (body_ack scenario_a_body !! 0%nat
          = Some (JObj [("local_id", JStr "a"); ("status", JStr "ok");
                        ("server_id", JInt 1)])) as H3
    by (vm_compute; reflexivity).
  split; [exact H1|]. split; [exact H2|]. split; [exact H3|].
  destruct (C8_ledger_round_trip engine 0 shop [scenario_a] 0 scenario_a
              scenario_a_body (JStr "a") 1 H1 eq_refl H2 H3)
    as (t & ls & _ & _ & Hls & Hlen & _).
  vm_compute in Hls. injection Hls as <-. exact Hlen.
Defined.

(** C9, as stated, fails on the guard of line 289 and on the truncation of
    line 290.  Without sales the handler suggests 0 where the stated
    formula gives [max(0, max(0, 5) - 0) = 5]; with 5 units sold, a window
    of 9 days and 3 units in stock it suggests [max(7, 5) - 3 = 4] where
    the stated formula gives [70/9 - 3 = 43/9]. *)
Lemma C9_guard_and_truncation :
  (sb_total_sold_in_history
     <$> body_of (ai_suggest sold_none (suggest_request "111" 14))) = Some 0
  ∧ (sb_suggested_reorder_qty
       <$> body_of (ai_suggest sold_none (suggest_request "111" 14))) = Some 0
  ∧ Qeq_bool (spec_reorder_qty 0 14 0) (inject_Z 5) = true
  ∧ (sb_total_sold_in_history
       <$> body_of (ai_suggest sold_five (suggest_request "111" 9))) = Some 5
  ∧ (sb_suggested_reorder_qty
       <$> body_of (ai_suggest sold_five (suggest_request "111" 9))) = Some 4
  ∧ Qeq_bool (spec_reorder_qty 5 9 3) (43 # 9) = true.
Proof. repeat split; by_evaluation. Qed.

Lemma C9_witness :
  str_strip "111" ≠ ""
  ∧ products sold_five !! str_strip "111" = Some (set_qty 3 milk)
  ∧ ∃ body,
      ai_suggest sold_five (suggest_request "111" 9) = Success body
      ∧ sb_total_sold_in_history body = 5
      ∧ 0 ≤ sb_suggested_reorder_qty body.
Proof.
  assert (str_strip "111" ≠ "") as H1 by by_evaluation.
  assert (products sold_five !! str_strip "111" = Some (set_qty 3 milk))
    as H2 by (vm_compute; reflexivity).
  assert (Z.abs (p_qty (set_qty 3 milk)) < 2 ^ 1000) as H3
    by (vm_compute; reflexivity).
  assert (Z.abs (total_sold (lines_with_barcode (str_strip "111") sold_five))
          < 2 ^ 1000) as H4 by (vm_compute; reflexivity).
  split; [exact H1|]. split; [exact H2|].
  destruct (C9_reorder_heuristic sold_five "111" 9 _ H1 H2 H3 H4)
    as (body & E & Hs & _ & _ & Hn).
  exists body. split; [exact E|]. split; [|exact Hn].
  rewrite Hs. vm_compute. reflexivity.
Defined.

End Scenarios.

(* ===================================================================== *)
(** * Further properties of the handlers                                  *)
(* ===================================================================== *)

Import Auth Terms.

(* ===================================================================== *)
(** * What a sync request does to the store                               *)
(* ===================================================================== *)

Section StoreRelation.
Context `{Eng : Sqlite}.
Variable R : db → db → Prop.
Hypothesis R_refl : ∀ d, R d d.
Hypothesis R_trans : ∀ a b c, R a b → R b c → R a c.
Hypothesis R_head : ∀ now tx h w,
  R (pending w) (pending (add_head (head_row now tx h (pending w)) w)).
Hypothesis R_line : ∀ tid f w, R (pending w) (pending (apply_line tid f w)).

Lemma sync_try_related (now : Z) (tx : dict) (w : work) :
  R (pending w) (pending (fst (sync_try now tx w))).
Proof.
  apply (sync_try_invariant (λ w', R (pending w) (pending w'))); [done|..].
  - intros h _. apply R_head.
  - intros tid f w' H. eapply R_trans; [exact H|apply R_line].
  - apply R_refl.
Qed.

(** A relation between stores that holds across each change of the
    session holds between the store before a request and the store
    after it. *)
Lemma sync_step_related (now : Z) (s : loop_state) (tx : dict) :
  R (store s) (store (sync_step now s tx)).
Proof.
  unfold sync_step.
  pose proof (sync_try_related now tx
                (session (store s) (updated_products s))) as H.
  by destruct (sync_try now tx _) as [w [tid|e]].
Qed.

Lemma sync_loop_related (now : Z) (txs : list json) (s : loop_state) :
  R (store s) (store (fst (sync_loop now txs s))).
Proof.
  revert s. induction txs as [|tx txs IH]; intros s; simpl; [done|].
  destruct (as_dict tx) as [d|e]; [|done].
  eapply R_trans; [apply (sync_step_related now s d)|apply IH].
Qed.

Lemma sync_transactions_related (now : Z) (st : db) (request_json : json) :
  R st (fst (sync_transactions now st request_json)).
Proof.
  unfold sync_transactions.
  destruct (as_dict _) as [payload|e]; [|done].
  destruct (py_iter _) as [txs|e]; [|done].
  pose proof (sync_loop_related now txs (init_loop st)) as H.
  by destruct (sync_loop now txs (init_loop st)) as [s [[]|e]].
Qed.

End StoreRelation.

Section StockFollows.
Context `{Eng : Sqlite}.

Lemma or0_id (n : Z) : or0 n = n.
Proof. unfold or0. destruct (Z.eqb_spec n 0); lia. Qed.

Lemma set_qty_id (p : Product) : set_qty (p_qty p) p = p.
Proof. by destruct p. Qed.

Lemma sold_down_app (q : Z) (ns ms : list Z) :
  sold_down q (ns ++ ms) = sold_down (sold_down q ns) ms.
Proof. unfold sold_down. by rewrite foldl_app. Qed.

Lemma quantities_app (b : string) (r1 r2 : list TransactionLine) :
  quantities b (r1 ++ r2) = quantities b r1 ++ quantities b r2.
Proof. unfold quantities. by rewrite filter_app, fmap_app. Qed.

Lemma stock_follows_refl (d : db) : stock_follows [] d d.
Proof.
  split; [by rewrite app_nil_r|]. intros b.
  destruct (products d !! b) as [p|]; [|done]. simpl.
  by rewrite set_qty_id.
Qed.

Lemma stock_follows_trans (r1 r2 : list TransactionLine) (a b c : db) :
  stock_follows r1 a b → stock_follows r2 b c → stock_follows (r1 ++ r2) a c.
Proof.
  intros [Hl1 Hp1] [Hl2 Hp2]. split; [by rewrite Hl2, Hl1, app_assoc|].
  intros k. rewrite Hp2, Hp1.
  destruct (products a !! k) as [p|]; [|done]. simpl.
  by rewrite quantities_app, sold_down_app.
Qed.

Lemma stock_follows_head (t : Transaction) (w : work) :
  stock_follows [] (pending w) (pending (add_head t w)).
Proof.
  split; [by rewrite app_nil_r|]. intros b. simpl.
  destruct (products (pending w) !! b) as [p|]; [|done]. simpl.
  by rewrite set_qty_id.
Qed.

Lemma stock_follows_line (tid : Z) (f : line_fields) (w : work) :
  stock_follows [line_row tid f (pending w)]
    (pending w) (pending (apply_line tid f w)).
Proof.
  split; [by destruct (apply_line_rows tid f w)|].
  intros b. unfold apply_line, quantities.
  destruct (lf_barcode f) as [b'|] eqn:Eb; simpl.
  - destruct (products (pending w) !! b') as [prod|] eqn:Ep; simpl.
    + destruct (decide (b' = b)) as [->|Hne].
      * rewrite lookup_insert_eq, Ep. simpl.
        rewrite filter_cons_True by (simpl; by rewrite Eb).
        simpl. unfold decrement. by rewrite or0_id.
      * rewrite lookup_insert_ne by done.
        rewrite filter_cons_False by (simpl; rewrite Eb; congruence).
        simpl. destruct (products (pending w) !! b) as [p|]; [|done].
        simpl. by rewrite set_qty_id.
    + destruct (decide (b' = b)) as [->|Hne].
      * by rewrite Ep.
      * rewrite filter_cons_False by (simpl; rewrite Eb; congruence).
        simpl. destruct (products (pending w) !! b) as [p|]; [|done].
        simpl. by rewrite set_qty_id.
  - rewrite filter_cons_False by (simpl; by rewrite Eb).
    simpl. destruct (products (pending w) !! b) as [p|]; [|done].
    simpl. by rewrite set_qty_id.
Qed.

(** Whatever the request, the stock counts after it are those before it,
    sold down by the ledger lines that the request added. *)
Lemma sync_transactions_stock (now : Z) (st : db) (request_json : json) :
  ∃ rows, stock_follows rows st (fst (sync_transactions now st request_json)).
Proof.
  apply (sync_transactions_related (λ d d', ∃ rows, stock_follows rows d d')).
  - intros d. exists []. apply stock_follows_refl.
  - intros a b c [r1 H1] [r2 H2]. exists (r1 ++ r2).
    by eapply stock_follows_trans.
  - intros now' tx h w. exists []. apply stock_follows_head.
  - intros tid f w. eexists. apply stock_follows_line.
Qed.

End StockFollows.


Section LedgerGrows.
Context `{Eng : Sqlite}.
Variable now : Z.

Lemma ledger_grows_refl (d : db) : ledger_grows [] d d.
Proof. exists [], []. by rewrite !app_nil_r. Qed.

Lemma ledger_grows_trans (i1 i2 : list Z) (a b c : db) :
  ledger_grows i1 a b → ledger_grows i2 b c → ledger_grows (i1 ++ i2) a c.
Proof.
  intros (ts1 & ls1 & Ht1 & Hl1 & Hi1 & Hs1 & Hf1)
         (ts2 & ls2 & Ht2 & Hl2 & Hi2 & Hs2 & Hf2).
  exists (ts1 ++ ts2), (ls1 ++ ls2).
  rewrite Ht2, Ht1, Hl2, Hl1, !app_assoc, fmap_app, Hi1, Hi2.
  do 3 (split; [done|]). split; [by apply Forall_app|].
  apply Forall_app; split.
  - eapply Forall_impl; [exact Hf1|]. simpl. intros l Hl.
    apply elem_of_app. by left.
  - eapply Forall_impl; [exact Hf2|]. simpl. intros l Hl.
    apply elem_of_app. by right.
Qed.

Lemma server_ids_snoc_ok (acks : list json) (lid : json) (tid : Z) :
  server_ids (acks ++ [ack_ok lid tid]) = server_ids acks ++ [tid].
Proof. unfold server_ids. by rewrite omap_app. Qed.

Lemma server_ids_snoc_error (acks : list json) (lid : json) (e : exn) :
  server_ids (acks ++ [ack_error lid e]) = server_ids acks.
Proof. unfold server_ids. rewrite omap_app. simpl. by rewrite app_nil_r. Qed.

Lemma sync_step_ledger (s : loop_state) (tx : dict) :
  ∃ ids, ledger_grows ids (store s) (store (sync_step now s tx))
         ∧ server_ids (ack (sync_step now s tx)) = server_ids (ack s) ++ ids.
Proof.
  set (w0 := (session (store s) (updated_products s))).
  destruct (sync_try now tx w0) as [w [tid|e]] eqn:E.
  - rewrite (sync_step_ok now s tx w tid E). simpl.
    destruct (sync_try_rows now tx w0 w tid E)
      as (_ & t & rows & ls & Ht & Hid & Hsy & Hl & _ & _ & Hr).
    exists [tid]. split; [|apply server_ids_snoc_ok].
    exists [t], rows. simpl in *. rewrite Hid.
    do 3 (split; [done|]). split; [by repeat constructor|].
    eapply Forall_impl; [exact Hr|]. simpl. intros l ->. left.
  - rewrite (sync_step_fail now s tx w e E). simpl.
    exists []. split; [apply ledger_grows_refl|].
    by rewrite server_ids_snoc_error, app_nil_r.
Qed.

Lemma sync_loop_ledger (txs : list json) (s : loop_state) :
  ∃ ids, ledger_grows ids (store s) (store (fst (sync_loop now txs s)))
         ∧ server_ids (ack (fst (sync_loop now txs s)))
           = server_ids (ack s) ++ ids.
Proof.
  revert s. induction txs as [|tx txs IH]; intros s; simpl.
  - exists []. split; [apply ledger_grows_refl|by rewrite app_nil_r].
  - destruct (as_dict tx) as [d|e].
    + destruct (sync_step_ledger s d) as (i1 & H1 & Ha1).
      destruct (IH (sync_step now s d)) as (i2 & H2 & Ha2).
      exists (i1 ++ i2). split; [by eapply ledger_grows_trans|].
      by rewrite Ha2, Ha1, app_assoc.
    + exists []. split; [apply ledger_grows_refl|by rewrite app_nil_r].
Qed.

(** The ledger after a request, against the ledger before it and the
    acknowledgements that the loop has collected. *)
Lemma sync_transactions_ledger (st : db) (request_json : json) :
  ∃ ids, ledger_grows ids st (fst (sync_transactions now st request_json))
         ∧ ∀ body,
             snd (sync_transactions now st request_json) = Success body →
             server_ids (body_ack body) = ids.
Proof.
  unfold sync_transactions.
  destruct (as_dict _) as [payload|e];
    [|exists []; split; [apply ledger_grows_refl|done]].
  destruct (py_iter _) as [txs|e];
    [|exists []; split; [apply ledger_grows_refl|done]].
  destruct (sync_loop_ledger txs (init_loop st)) as (ids & H & Ha).
  exists ids.
  destruct (sync_loop now txs (init_loop st)) as [s [[]|e]]; simpl in *.
  - split; [done|]. by intros body [= <-].
  - by split.
Qed.

End LedgerGrows.

(** X2.  The ledger is append-only.  Whatever the body of the request, the
    transactions and lines of the ledger before it are still there, in
    place and unchanged, followed by the new ones; every new transaction
    is marked as synced, every new line belongs to a new transaction, and
    when the handler answers, the new transactions are, in order, those
    whose ids the [ack] list gives as [server_id]: one per entry with
    status ok and none for an entry with status error. *)
Theorem ledger_is_append_only (Eng : Sqlite) (now : Z) (st : db)
    (request_json : json) :
  let r := sync_transactions now st request_json in
  ∃ ts ls,
    transactions (fst r) = transactions st ++ ts
    ∧ transaction_lines (fst r) = transaction_lines st ++ ls
    ∧ Forall (λ t, t_synced t = true) ts
    ∧ Forall (λ l, l_transaction_id l ∈ t_id <$> ts) ls
    ∧ ∀ body, snd r = Success body →
        server_ids (body_ack body) = t_id <$> ts.
Proof.
  simpl. destruct (sync_transactions_ledger now st request_json)
    as (ids & (ts & ls & Ht & Hl & Hi & Hs & Hf) & Ha).
  exists ts, ls. rewrite Hi. do 4 (split; [done|]). done.
Qed.

Section Keys.
Context `{Eng : Sqlite}.

Lemma NoDup_snoc_fresh (ids : list Z) :
  NoDup ids → NoDup (ids ++ [next_rowid ids]).
Proof.
  intros H. apply NoDup_app. split; [done|]. split; [|apply NoDup_singleton].
  intros x Hx ->%list_elem_of_singleton. by apply (next_rowid_fresh ids).
Qed.

Lemma product_ids_new (b : string) (p : Product) (d d' : db) :
  products d !! b = None →
  products d' = <[b := p]> (products d) →
  product_ids d' ≡ₚ p_id p :: product_ids d.
Proof.
  intros H E. unfold product_ids. rewrite E.
  by rewrite map_to_list_insert.
Qed.

Lemma product_ids_same (b : string) (p p' : Product) (d d' : db) :
  products d !! b = Some p → p_id p' = p_id p →
  products d' = <[b := p']> (products d) →
  product_ids d' ≡ₚ product_ids d.
Proof.
  intros H Hid E. unfold product_ids. rewrite E.
  rewrite <- insert_delete_eq.
  rewrite map_to_list_insert by apply lookup_delete_eq.
  rewrite <- (map_to_list_delete (products d) b p H). simpl. by rewrite Hid.
Qed.

Lemma keys_unique_head (now : Z) (tx : dict) (h : option float * option string)
    (w : work) :
  keys_unique (pending w) →
  keys_unique (pending (add_head (head_row now tx h (pending w)) w)).
Proof.
  intros (Hp & Ht & Hl). split; [done|]. split; [|done]. simpl.
  rewrite fmap_app. simpl. by apply NoDup_snoc_fresh.
Qed.

Lemma keys_unique_line (tid : Z) (f : line_fields) (w : work) :
  keys_unique (pending w) → keys_unique (pending (apply_line tid f w)).
Proof.
  intros (Hp & Ht & Hl).
  assert (NoDup (l_id <$> transaction_lines (pending w)
                 ++ [line_row tid f (pending w)])) as Hl'.
  { rewrite fmap_app. simpl. by apply NoDup_snoc_fresh. }
  unfold apply_line.
  destruct (lf_barcode f) as [b|]; [|done]. simpl.
  destruct (products (pending w) !! b) as [prod|] eqn:E; [|done].
  split; [|done].
  by rewrite (product_ids_same b prod (decrement (lf_qty f) prod)
               (pending w)).
Qed.

Lemma sync_transactions_keys (now : Z) (st : db) (request_json : json) :
  keys_unique st → keys_unique (fst (sync_transactions now st request_json)).
Proof.
  apply (sync_transactions_related (λ d d', keys_unique d → keys_unique d'));
    [done|auto|apply keys_unique_head|apply keys_unique_line].
Qed.

Lemma assign_fields_keeps (data : dict) (p p' : Product) :
  assign_fields data p = Ok p' →
  p_id p' = p_id p ∧ p_created_at p' = p_created_at p.
Proof.
  unfold assign_fields, mbind, mret, result_bind, result_ret.
  destruct (if dict_has data "price" then _ else _) as [price|e]; [|done].
  destruct (if dict_has data "cost" then _ else _) as [cost|e]; [|done].
  destruct (if dict_has data "qty" then _ else _) as [qty|e]; [|done].
  destruct (if dict_has data "name" then _ else _) as [name|e]; [|done].
  destruct (if dict_has data "qty" then _ else _) as [q|e]; [|done].
  by intros [= <-].
Qed.

Lemma create_or_update_product_keys (now : Z) (st : db)
    (request_json : json) :
  keys_unique st →
  keys_unique (fst (create_or_update_product now st request_json)).
Proof.
  intros (Hp & Ht & Hl). unfold create_or_update_product.
  destruct (_ ≫= _) as [[data barcode]|e]; [|done].
  destruct (String.eqb barcode ""); [done|].
  destruct (products st !! barcode) as [p|] eqn:E.
  - destruct (assign_fields data p) as [p'|e] eqn:Ea; [|done].
    split; [|done]. simpl.
    destruct (assign_fields_keeps _ _ _ Ea) as [Hid _].
    by rewrite (product_ids_same barcode p p' st).
  - destruct (assign_fields data _) as [p'|e] eqn:Ea; [|done].
    split; [|done]. simpl.
    destruct (assign_fields_keeps _ _ _ Ea) as [Hid _].
    rewrite (product_ids_new barcode p' st) by done.
    apply NoDup_cons. split; [|done].
    rewrite Hid. simpl. apply next_rowid_fresh.
Qed.

End Keys.

(** X3.  Primary keys stay unique.  After any sequence of sync and product
    requests on a store whose product, transaction and line ids are
    pairwise distinct, they still are: a new row never takes the id of a
    row of its table. *)
Theorem primary_keys_stay_unique (Eng : Sqlite) (ops : list op) (st : db) :
  keys_unique st → keys_unique (foldl apply_op st ops).
Proof.
  revert st. induction ops as [|o ops IH]; intros st H; simpl; [done|].
  apply IH. destruct o as [now r|now r]; simpl.
  - by apply sync_transactions_keys.
  - by apply create_or_update_product_keys.
Qed.

(** X4.  Server ids are fresh.  When the handler answers a request on a
    ledger with pairwise distinct transaction ids, the [server_id]s of
    its [ack] list are pairwise distinct, and none is the id of a
    transaction that the ledger held before the request. *)
Theorem server_ids_are_fresh (Eng : Sqlite) (now : Z) (st : db)
    (request_json : json) (body : sync_body) :
  NoDup (t_id <$> transactions st) →
  snd (sync_transactions now st request_json) = Success body →
  NoDup (server_ids (body_ack body))
  ∧ ∀ tid, tid ∈ server_ids (body_ack body) →
      tid ∉ t_id <$> transactions st.
Proof.
  intros Hnd Hb.
  destruct (sync_transactions_ledger now st request_json)
    as (ids & (ts & ls & Ht & _ & Hi & _) & Ha).
  rewrite (Ha body Hb).
  assert (NoDup (t_id <$> transactions
                   (fst (sync_transactions now st request_json)))) as H.
  { apply (sync_transactions_related
             (λ d d', NoDup (t_id <$> transactions d)
                      → NoDup (t_id <$> transactions d'))); try done.
    - auto.
    - intros now' tx h w Hw. simpl. rewrite fmap_app. simpl.
      by apply NoDup_snoc_fresh.
    - intros tid f w Hw. by destruct (apply_line_rows tid f w) as [-> _]. }
  rewrite Ht, fmap_app, Hi in H. apply NoDup_app in H as (_ & Hd & Hn).
  split; [done|]. intros tid Hin Hold. by apply (Hd tid).
Qed.

(* ===================================================================== *)
(** * Acknowledgements and the head of a transaction                      *)
(* ===================================================================== *)

Section Heads.
Context `{Eng : Sqlite}.
Variable now : Z.

Lemma apply_lines_converts (tid : Z) (ls : list json) (w w' : work) :
  apply_lines tid ls w = (w', Ok tt) → forallb line_converts ls = true.
Proof.
  revert w. induction ls as [|x ls IH]; intros w; simpl; [done|].
  destruct (line_step_cases tid x w)
    as [(f & Hp & _ & ->)|(w1 & e & -> & _)]; [|done].
  intros H. unfold line_converts at 1. rewrite Hp. simpl. by eapply IH.
Qed.

(** A transaction that is committed is one whose conversions and bindings
    all succeed. *)
Lemma sync_try_converts (tx : dict) (w : work) :
  is_ok (snd (sync_try now tx w)) = true → tx_converts tx = true.
Proof.
  rewrite sync_try_eq. unfold tx_converts.
  destruct (parse_head tx) as [h|e]; [|done]. simpl.
  destruct (py_iter _) as [ls|e]; [|done].
  destruct (commit_lines _ ls _) as [w' [[]|e]] eqn:E1; [|done].
  intros _. apply commit_lines_ok in E1 as (w1 & E1 & _).
  by eapply apply_lines_converts.
Qed.

(** Sales of quantities that are not negative keep the stock counts within
    64 bits, and nothing stops them but a conversion or a binding. *)
Lemma decrement_fits (q : Z) (p : Product) :
  0 ≤ q → in_int64 (p_qty p) = true →
  in_int64 (p_qty (decrement q p)) = true.
Proof.
  unfold in_int64, decrement. simpl. rewrite or0_id.
  intros Hq [H1 H2]%andb_prop. apply andb_true_intro.
  apply Z.leb_le in H1. apply Z.ltb_lt in H2.
  split; [apply Z.leb_le|apply Z.ltb_lt]; lia.
Qed.

Lemma apply_line_fits (tid : Z) (f : line_fields) (w : work) :
  0 ≤ lf_qty f →
  stock_fits (products (pending w)) →
  stock_fits (products (pending (apply_line tid f (flushed w))))
  ∧ fits (apply_line tid f (flushed w)) = true.
Proof.
  intros Hq Hs. unfold apply_line, fits.
  destruct (lf_barcode f) as [b|]; [|done]. simpl.
  destruct (products (pending w) !! b) as [prod|] eqn:E1; [|done]. simpl.
  pose proof (decrement_fits (lf_qty f) prod Hq (Hs b prod E1)) as Hd.
  split; [|done]. by apply map_Forall_insert_2.
Qed.

Lemma apply_lines_fit (tid : Z) (ls : list json) (w : work) :
  forallb line_converts ls = true →
  forallb (λ x, match parse_line x with
                | Ok f => 0 <=? lf_qty f
                | Raise _ => true
                end) ls = true →
  stock_fits (products (pending w)) → fits w = true →
  ∃ w', apply_lines tid ls w = (w', Ok tt)
        ∧ stock_fits (products (pending w')) ∧ fits w' = true.
Proof.
  revert w. induction ls as [|x ls IH]; intros w; simpl.
  - intros _ _ Hs Hf. by exists w.
  - intros [Hc Hcs]%andb_prop [Hn Hns]%andb_prop Hs Hf.
    unfold line_converts in Hc.
    destruct (parse_line x) as [f|e] eqn:Ep; [|done].
    rewrite (line_step_ok tid x f w Ep Hf).
    destruct (apply_line_fits tid f w) as [Hs' Hf']; [lia|done|].
    by apply IH.
Qed.

Lemma sync_try_fit (tx : dict) (w : work) :
  tx_converts tx = true → sells_nonneg tx = true →
  stock_fits (products (pending w)) → fits w = true →
  is_ok (snd (sync_try now tx w)) = true
  ∧ stock_fits (products (pending (fst (sync_try now tx w)))).
Proof.
  unfold tx_converts, sells_nonneg. rewrite sync_try_eq.
  destruct (parse_head tx) as [h|e]; [|done]. simpl.
  destruct (py_iter _) as [ls|e]; [|done]. intros Hc Hn Hs Hf.
  destruct (apply_lines_fit
              (t_id (head_row now tx h (pending w))) ls
              (add_head (head_row now tx h (pending w)) w) Hc Hn Hs Hf)
    as (w' & E1 & Hs' & Hf').
  unfold commit_lines. simpl in E1. rewrite E1, flush_eq, Hf'. done.
Qed.

Lemma sync_step_fit (s : loop_state) (tx : dict) :
  sells_nonneg tx = true →
  stock_fits (products (store s)) →
  stock_fits (products (store (sync_step now s tx)))
  ∧ status_of (entry_of tx (snd (attempt now s tx)))
    = Some (if tx_converts tx then "ok" else "error").
Proof.
  intros Hn Hs. unfold sync_step, attempt.
  pose proof (sync_try_converts tx (session (store s) (updated_products s)))
    as Hc.
  pose proof (sync_try_fit tx (session (store s) (updated_products s)))
    as Hf.
  destruct (tx_converts tx).
  - destruct Hf as [Hok Hs']; try done.
    by destruct (sync_try now tx _) as [w [tid|e]].
  - destruct (sync_try now tx _) as [w [tid|e]]; [|done].
    by specialize (Hc eq_refl).
Qed.

Lemma run_batch_fit (st : db) (batch : list dict) :
  Forall (λ tx, sells_nonneg tx = true) batch →
  stock_fits (products st) →
  stock_fits (products (store (run_batch now st batch))).
Proof.
  intros Hn Hs. induction batch as [|tx batch IH] using rev_ind; [done|].
  apply Forall_app in Hn as [Hn1 Hn2]. inversion_clear Hn2 as [|? ? Hn3 _].
  rewrite run_batch_snoc. apply sync_step_fit; [done|]. by apply IH.
Qed.

Lemma entry_status (tx : dict) (r : result Z) :
  status_of (entry_of tx r) = Some (if is_ok r then "ok" else "error").
Proof. by destruct r. Qed.

Lemma parse_created_at_cases (tx : dict) :
  parse_created_at now tx
  = match dict_get tx "createdAt" with
    | JStr s => if String.eqb s "" then UtcNow now else FromIso s now
    | _ => UtcNow now
    end.
Proof.
  unfold parse_created_at.
  destruct (dict_get tx "createdAt") as [|[]|z|f|s|[]|[]]; simpl; try done.
  - by destruct (z =? 0).
  - by destruct (float_is_zero f).
  - by destruct (String.eqb s "").
Qed.

Lemma sync_try_head (tx : dict) (w w' : work) (tid : Z) :
  sync_try now tx w = (w', Ok tid) →
  ∃ t, find_transaction tid (pending w') = Some t ∧ header_stored now t tx.
Proof.
  intros H.
  destruct (sync_try_rows now tx w w' tid H)
    as (Hid & t & _ & _ & Ht & Htid & _).
  revert H. rewrite sync_try_eq. unfold parse_head.
  unfold mbind, mret, result_bind, result_ret.
  destruct (py_float _) as [total|e] eqn:Etot; [|done].
  destruct (bind_text _) as [pt|e] eqn:Ept; [|done]. simpl.
  destruct (py_iter _) as [ls|e]; [|done].
  destruct (commit_lines _ ls _) as [w2 [[]|e]] eqn:E2; [|done].
  intros [= -> _]. apply commit_lines_ok in E2 as (w1 & E1 & _ & ->).
  destruct (apply_lines_rows _ _ _ _ E1) as (Ht' & _). simpl in Ht'.
  set (t0 := head_row now tx (store_real total, pt) (pending w)) in *.
  exists t0. split.
  - unfold find_transaction. simpl. rewrite Ht'.
    replace tid with (t_id t0) by (by rewrite Hid).
    apply find_snoc_new. simpl. apply next_rowid_fresh.
  - unfold header_stored. rewrite Etot.
    repeat split; try done. simpl. apply parse_created_at_cases.
Qed.

Lemma sync_try_keeps_head (tx tx0 : dict) (w w' : work) (tid tid0 : Z) :
  sync_try now tx w = (w', Ok tid) →
  (∃ t, find_transaction tid0 (pending w) = Some t ∧ header_stored now t tx0) →
  ∃ t, find_transaction tid0 (pending w') = Some t ∧ header_stored now t tx0.
Proof.
  intros H (t0 & Hf & Hh).
  destruct (sync_try_rows now tx w w' tid H) as (_ & t & _ & _ & Ht & _).
  exists t0. split; [|done]. unfold find_transaction in *. rewrite Ht.
  by apply find_snoc_old.
Qed.

Lemma run_batch_heads (st : db) (batch : list dict) (i : nat) (tx : dict)
    (lid : json) (tid : Z) :
  batch !! i = Some tx →
  ack (run_batch now st batch) !! i = Some (ack_ok lid tid) →
  ∃ t, find_transaction tid (store (run_batch now st batch)) = Some t
       ∧ header_stored now t tx.
Proof.
  apply (run_batch_acknowledged now (λ _, True)
           (λ tid tx d, ∃ t, find_transaction tid d = Some t
                             ∧ header_stored now t tx)).
  - intros tx' w w' tid' _ H. split; [done|]. by eapply sync_try_head.
  - apply sync_try_keeps_head.
  - done.
Qed.

End Heads.

(** X5.  The status of an entry.  In the answer to a batch, the entry of
    the transaction at position [i] has status ok or status error; it has
    status error when a conversion or a binding of the transaction fails,
    whatever the store holds and whatever the rest of the batch is; and
    when no line of the batch has a negative quantity and the stock counts
    of the store are 64-bit integers, it has status ok exactly when all
    of them succeed. *)
Theorem status_of_a_transaction (Eng : Sqlite) (now : Z) (st : db)
    (batch : list dict) (i : nat) (tx : dict) :
  batch !! i = Some tx →
  ∃ body v,
    snd (sync_transactions now st (sync_request batch)) = Success body
    ∧ body_ack body !! i = Some v
    ∧ (status_of v = Some "ok" ∨ status_of v = Some "error")
    ∧ (tx_converts tx = false → status_of v = Some "error")
    ∧ (Forall (λ tx, sells_nonneg tx = true) batch →
       stock_fits (products st) →
       status_of v = Some (if tx_converts tx then "ok" else "error")).
Proof.
  intros Hi. rewrite sync_transactions_batch. simpl.
  destruct (list_elem_of_split_length _ _ _ Hi) as (pre & post & -> & ->).
  eexists _, _. split; [reflexivity|]. simpl.
  split; [apply run_batch_ack_at|]. rewrite entry_status.
  pose proof (sync_try_converts now tx
                (session (store (run_batch now st pre))
                   (updated_products (run_batch now st pre)))) as Hc.
  fold (attempt now (run_batch now st pre) tx) in Hc.
  split; [|split].
  - destruct (is_ok _); auto.
  - intros Hn. destruct (is_ok _); [|done]. by rewrite Hc in Hn.
  - intros [Hn1 Hn2]%Forall_app Hs. inversion_clear Hn2 as [|? ? Hn3 _].
    rewrite <- (entry_status tx).
    by apply sync_step_fit, run_batch_fit.
Qed.

(** X6.  The head of an acknowledged transaction.  When the handler
    acknowledges the transaction at position [i] of a batch with status
    ok and the id [tid], the ledger after the request holds under [tid] a
    transaction with the submitted total as the table stores it (NULL for
    NaN) and the payment type as the driver binds it, marked as synced,
    whose timestamp is the submitted [createdAt] when that is a text that
    is not empty, and the server clock otherwise. *)
Theorem ledger_holds_the_head (Eng : Sqlite) (now : Z) (st : db)
    (batch : list dict) (i : nat) (tx : dict) (body : sync_body) (lid : json)
    (tid : Z) :
  batch !! i = Some tx →
  snd (sync_transactions now st (sync_request batch)) = Success body →
  body_ack body !! i
  = Some (JObj [("local_id", lid); ("status", JStr "ok");
                ("server_id", JInt tid)]) →
  ∃ t,
    find_transaction tid (fst (sync_transactions now st (sync_request batch)))
    = Some t
    ∧ header_stored now t tx.
Proof.
  intros Hi. rewrite sync_transactions_batch. simpl.
  intros [= <-]. simpl. intros Ha.
  by apply (run_batch_heads now st batch i tx lid tid).
Qed.

(* ===================================================================== *)
(** * Requests at the edges: nothing to do, a stray item, a split batch   *)
(* ===================================================================== *)

Lemma sync_loop_app_dicts `{Eng : Sqlite} (now : Z) (pre : list dict)
    (rest : list json) (s : loop_state) :
  sync_loop now ((JObj <$> pre) ++ rest) s
  = sync_loop now rest (foldl (sync_step now) s pre).
Proof.
  revert s. induction pre as [|tx pre IH]; intros s; simpl; [done|].
  apply IH.
Qed.

(** X7.  A request with nothing to do.  A body that is null or empty, an
    object without the key [transactions], and an empty list of
    transactions all get the answer with an empty [ack] and an empty
    [updated_products], and leave the store as it is. *)
Theorem sync_without_transactions (Eng : Sqlite) (now : Z) (st : db)
    (request_json : json) :
  truthy request_json = false
  ∨ (∃ d, request_json = JObj d
          ∧ (assoc "transactions" d = None
             ∨ assoc "transactions" d = Some (JArr []))) →
  sync_transactions now st request_json
  = (st, Success {| body_ack := []; body_updated_products := [] |}).
Proof.
  unfold sync_transactions, py_or.
  intros [->|(d & -> & [H|H])]; [done| |].
  - replace (if truthy (JObj d) then JObj d else JObj []) with (JObj d)
      by (by destruct d).
    simpl. unfold dict_get_or. by rewrite H.
  - replace (if truthy (JObj d) then JObj d else JObj []) with (JObj d)
      by (by destruct d).
    simpl. unfold dict_get_or. by rewrite H.
Qed.

(** X8.  An item that is not an object ends the request.  When the list of
    transactions holds, after the objects [pre], an item that is no
    object, the exception of [tx.get] leaves the handler: there is no
    answer body, the transactions of [pre] are committed as by a request
    of their own, and no item after it is looked at. *)
Theorem stray_item_ends_the_request (Eng : Sqlite) (now : Z) (st : db)
    (pre : list dict)
    (v : json) (rest : list json) (e : exn) :
  as_dict v = Raise e →
  sync_transactions now st
    (JObj [("transactions", JArr ((JObj <$> pre) ++ v :: rest))])
  = (fst (sync_transactions now st (sync_request pre)), Unhandled e).
Proof.
  intros H. rewrite sync_transactions_batch.
  unfold sync_transactions. simpl.
  rewrite sync_loop_app_dicts. simpl. by rewrite H.
Qed.

(** X9.  A batch can be split.  Sending a batch as two requests, its first
    part and then the rest, at the same clock reading, leaves the store
    that the whole batch leaves, and the two [ack] lists together are the
    [ack] list of the whole batch. *)
Theorem batch_can_be_split (Eng : Sqlite) (now : Z) (st : db)
    (pre post : list dict) :
  let whole := sync_transactions now st (sync_request (pre ++ post)) in
  let first := sync_transactions now st (sync_request pre) in
  let second := sync_transactions now (fst first) (sync_request post) in
  fst whole = fst second
  ∧ ∃ body body1 body2,
      snd whole = Success body ∧ snd first = Success body1
      ∧ snd second = Success body2
      ∧ body_ack body = body_ack body1 ++ body_ack body2.
Proof.
  simpl. rewrite !sync_transactions_batch. simpl.
  rewrite run_batch_app.
  destruct (foldl_step_store now post (run_batch now st pre)
              (init_loop (store (run_batch now st pre))) eq_refl)
    as (Hs & k & Hk & Hk').
  split; [done|]. eexists _, _, _. do 3 (split; [reflexivity|]).
  simpl. unfold run_batch at 3. by rewrite Hk, Hk'.
Qed.

(* ===================================================================== *)
(** * Which products [updated_products] lists                             *)
(* ===================================================================== *)

Section Listed.
Context `{Eng : Sqlite}.
Variable now : Z.

(** The barcodes of the catalog do not change. *)
Lemma sync_try_catalog (tx : dict) (w : work) (k : string) :
  is_Some (products (pending (fst (sync_try now tx w))) !! k)
  ↔ is_Some (products (pending w) !! k).
Proof.
  apply (sync_try_related
           (λ d d', is_Some (products d' !! k) ↔ is_Some (products d !! k))).
  - done.
  - intros a b c H1 H2. by rewrite H2.
  - done.
  - intros tid f w0. destruct (stock_follows_line tid f w0) as [_ H].
    rewrite H. by rewrite fmap_is_Some.
Qed.

Lemma sync_step_catalog (s : loop_state) (tx : dict) (k : string) :
  is_Some (products (store (sync_step now s tx)) !! k)
  ↔ is_Some (products (store s) !! k).
Proof.
  apply (sync_step_related
           (λ d d', is_Some (products d' !! k) ↔ is_Some (products d !! k))).
  - done.
  - intros a b c H1 H2. by rewrite H2.
  - done.
  - intros tid f w0. destruct (stock_follows_line tid f w0) as [_ H].
    rewrite H. by rewrite fmap_is_Some.
Qed.

Lemma run_batch_catalog (st : db) (batch : list dict) (k : string) :
  is_Some (products (store (run_batch now st batch)) !! k)
  ↔ is_Some (products st !! k).
Proof.
  induction batch as [|tx batch IH] using rev_ind; [done|].
  by rewrite run_batch_snoc, sync_step_catalog.
Qed.

Lemma parse_line_names (x : json) (f : line_fields) (b : string) :
  parse_line x = Ok f → lf_barcode f = Some b →
  ∃ l, x = JObj l ∧ bind_text (dict_get l "barcode") = Ok (Some b).
Proof.
  intros Hp Hb. destruct x as [| | | | | |l]; try done.
  exists l. split; [done|]. by rewrite (parse_line_barcode l f Hp), Hb.
Qed.

Lemma apply_line_listed (P : string → Prop) (tid : Z) (f : line_fields)
    (w : work) :
  (∀ b, lf_barcode f = Some b → P b) →
  listed P (products (pending w)) (updated w) →
  listed P (products (pending (apply_line tid f w)))
           (updated (apply_line tid f w)).
Proof.
  intros HP H. unfold apply_line.
  destruct (lf_barcode f) as [b|]; [|done]. simpl.
  destruct (products (pending w) !! b) as [prod|] eqn:E; [|done]. simpl.
  intros k d. rewrite lookup_insert. case_decide as Hk.
  - intros _. subst k. rewrite lookup_insert_eq. split; [done|]. by apply HP.
  - intros Hd. rewrite lookup_insert_ne by done. by apply (H k d).
Qed.

Lemma sync_try_listed (P : string → Prop) (tx : dict) (w : work) :
  (∀ b, names_barcode b tx → P b) →
  listed P (products (pending w)) (updated w) →
  listed P (products (pending (fst (sync_try now tx w))))
           (updated (fst (sync_try now tx w))).
Proof.
  intros HP H. rewrite sync_try_eq.
  destruct (parse_head tx) as [h|e]; [|done]. simpl.
  destruct (py_iter _) as [ls|e] eqn:El; [|done].
  pose proof (commit_lines_invariant
                (λ w, listed P (products (pending w)) (updated w))
                (next_rowid (t_id <$> transactions (pending w))) ls
                (add_head (head_row now tx h (pending w)) w)) as H'.
  destruct (commit_lines _ ls _) as [w' [[]|e]]; apply H'; try done.
  all: intros x f w0 Hx Hf; apply apply_line_listed; intros b Hb; apply HP;
    destruct (parse_line_names x f b Hf Hb) as (l & -> & Hl);
    by exists ls, l.
Qed.

Lemma sync_step_listed (P : string → Prop) (s : loop_state) (tx : dict) :
  (∀ b, names_barcode b tx → P b) →
  listed P (products (store s)) (updated_products s) →
  listed P (products (store (sync_step now s tx)))
           (updated_products (sync_step now s tx)).
Proof.
  intros HP H. unfold sync_step.
  set (w0 := (session (store s) (updated_products s))).
  pose proof (sync_try_listed P tx w0 HP H) as H'.
  pose proof (sync_try_catalog tx w0) as Hc.
  destruct (sync_try now tx w0) as [w [tid|e]]; [done|]. simpl in *.
  intros k d Hd. destruct (H' k d Hd) as [Hk ?]. split; [|done].
  by apply Hc.
Qed.

Lemma run_batch_listed (st : db) (batch : list dict) :
  listed (λ k, ∃ tx, tx ∈ batch ∧ names_barcode k tx)
         (products (store (run_batch now st batch)))
         (updated_products (run_batch now st batch)).
Proof.
  induction batch as [|tx batch IH] using rev_ind.
  - intros k d. unfold run_batch. simpl. by rewrite lookup_empty.
  - rewrite run_batch_snoc. apply sync_step_listed.
    + intros b Hb. exists tx. split; [|done]. apply elem_of_app. right. left.
    + intros k d Hd. destruct (IH k d Hd) as [Hk (tx' & Hin & Hn)].
      split; [done|]. exists tx'. split; [|done]. apply elem_of_app. by left.
Qed.

(** A snapshot stays under its key, and a line on a product of the
    catalog files one. *)
Lemma apply_line_keeps_key (tid : Z) (f : line_fields) (w : work)
    (k : string) :
  is_Some (updated w !! k) → is_Some (updated (apply_line tid f w) !! k).
Proof.
  intros H. unfold apply_line.
  destruct (lf_barcode f) as [b|]; [|done]. simpl.
  destruct (products (pending w) !! b) as [prod|]; [|done]. simpl.
  rewrite lookup_insert. by case_decide.
Qed.

Lemma sync_try_keeps_key (tx : dict) (w : work) (k : string) :
  is_Some (updated w !! k) →
  is_Some (updated (fst (sync_try now tx w)) !! k).
Proof.
  apply (sync_try_invariant (λ w, is_Some (updated w !! k))); [done..|].
  intros tid f w'. apply apply_line_keeps_key.
Qed.

Lemma sync_step_keeps_key (s : loop_state) (tx : dict) (k : string) :
  is_Some (updated_products s !! k) →
  is_Some (updated_products (sync_step now s tx) !! k).
Proof.
  intros H. unfold sync_step.
  pose proof (sync_try_keeps_key tx
                (session (store s) (updated_products s)) k H)
    as H'.
  by destruct (sync_try now tx _) as [w [tid|e]].
Qed.

Lemma foldl_step_keeps_key (batch : list dict) (s : loop_state) (k : string) :
  is_Some (updated_products s !! k) →
  is_Some (updated_products (foldl (sync_step now) s batch) !! k).
Proof.
  revert s. induction batch as [|tx batch IH]; intros s H; simpl; [done|].
  by apply IH, sync_step_keeps_key.
Qed.

Lemma apply_line_catalog (tid : Z) (f : line_fields) (w : work) (k : string) :
  is_Some (products (pending (apply_line tid f w)) !! k)
  ↔ is_Some (products (pending w) !! k).
Proof.
  destruct (stock_follows_line tid f w) as [_ H].
  rewrite H. by rewrite fmap_is_Some.
Qed.

Lemma apply_lines_keeps_key (tid : Z) (ls : list json) (w : work)
    (k : string) :
  is_Some (updated w !! k) →
  is_Some (updated (fst (apply_lines tid ls w)) !! k).
Proof.
  apply (apply_lines_invariant (λ w, is_Some (updated w !! k))); [done|].
  intros x f w' _ _. apply apply_line_keeps_key.
Qed.

Lemma apply_lines_files (tid : Z) (ls : list json) (w w' : work) (l : dict)
    (b : string) :
  apply_lines tid ls w = (w', Ok tt) →
  JObj l ∈ ls → bind_text (dict_get l "barcode") = Ok (Some b) →
  is_Some (products (pending w) !! b) →
  is_Some (updated w' !! b).
Proof.
  revert w. induction ls as [|x ls IH]; intros w H Hin Hb Hp;
    [by apply elem_of_nil in Hin|].
  simpl in H.
  destruct (line_step_cases tid x w)
    as [(f & Hf & _ & E1)|(w1 & e & E1 & _)]; rewrite E1 in H; [|done].
  apply elem_of_cons in Hin as [<-|Hin].
  - pose proof (apply_lines_keeps_key tid ls
                  (apply_line tid f (flushed w)) b) as Hk.
    rewrite H in Hk. apply Hk.
    pose proof (parse_line_barcode l f Hf) as Hfb. rewrite Hb in Hfb.
    injection Hfb as Hfb.
    unfold apply_line. rewrite <- Hfb. simpl.
    destruct Hp as [prod Hp]. rewrite Hp. simpl.
    by rewrite lookup_insert_eq.
  - eapply IH; try done. by apply apply_line_catalog.
Qed.

Lemma sync_step_files (s : loop_state) (tx : dict) (b : string) :
  is_ok (snd (attempt now s tx)) = true → names_barcode b tx →
  is_Some (products (store s) !! b) →
  is_Some (updated_products (sync_step now s tx) !! b).
Proof.
  intros Hok (ls & l & Hls & Hin & Hb) Hp. revert Hok.
  unfold attempt, sync_step. rewrite sync_try_eq, Hls.
  destruct (parse_head tx) as [h|e]; [|done]. simpl.
  set (w1 := add_head _ _).
  destruct (commit_lines _ ls w1) as [w' [[]|e]] eqn:E1; [|done].
  intros _. simpl.
  apply commit_lines_ok in E1 as (w2 & E1 & _ & ->). simpl.
  by eapply (apply_lines_files _ ls w1 w2 l b).
Qed.

Lemma run_batch_files (st : db) (pre post : list dict) (tx : dict)
    (b : string) :
  is_ok (snd (attempt now (run_batch now st pre) tx)) = true →
  names_barcode b tx →
  is_Some (products st !! b) →
  is_Some (updated_products (run_batch now st (pre ++ tx :: post)) !! b).
Proof.
  intros Hc Hn Hp.
  rewrite run_batch_app. simpl. apply foldl_step_keeps_key.
  apply sync_step_files; try done. by apply run_batch_catalog.
Qed.

End Listed.

(** X10.  What [updated_products] lists.  In the answer to a batch, the
    snapshots carry pairwise distinct barcodes; each is the snapshot of a
    product of the catalog whose barcode a line of the batch names; and
    every product of the catalog that a line of a transaction names has
    its snapshot there when the entry of that transaction has status
    ok. *)
Theorem updated_products_lists_sold_products (Eng : Sqlite) (now : Z) (st : db)
    (batch : list dict) :
  let r := sync_transactions now st (sync_request batch) in
  ∃ body,
    snd r = Success body
    ∧ NoDup (d_barcode <$> body_updated_products body)
    ∧ (∀ d, d ∈ body_updated_products body →
         is_Some (products (fst r) !! d_barcode d)
         ∧ ∃ tx, tx ∈ batch ∧ names_barcode (d_barcode d) tx)
    ∧ (∀ (i : nat) tx v b,
         batch !! i = Some tx → body_ack body !! i = Some v →
         acknowledged v → names_barcode b tx →
         is_Some (products st !! b) →
         ∃ d, d ∈ body_updated_products body ∧ d_barcode d = b).
Proof.
  simpl. rewrite sync_transactions_batch. simpl.
  eexists; split; [reflexivity|].
  split; [apply updated_products_once_per_barcode|]. simpl. split.
  - intros d [[k d'] [-> Hin]]%list_elem_of_fmap.
    apply elem_of_map_to_list in Hin. simpl.
    rewrite (run_batch_keyed now st batch k d' Hin).
    by apply (run_batch_listed now st batch k d').
  - intros i tx v b Hi Hv Ha Hn Hp.
    destruct (list_elem_of_split_length _ _ _ Hi) as (pre & post & -> & ->).
    rewrite run_batch_ack_at in Hv. injection Hv as <-.
    apply entry_acknowledged in Ha.
    destruct (run_batch_files now st pre post tx b Ha Hn Hp) as [d Hd].
    exists d. split.
    + apply list_elem_of_fmap. exists (b, d). split; [done|].
      by apply elem_of_map_to_list.
    + by apply (run_batch_keyed now st (pre ++ tx :: post) b d).
Qed.

(** X11.  Snapshots of a batch without failures.  When every entry of the
    answer has status ok, each snapshot of [updated_products] is the row
    that the store holds for its barcode after the request. *)
Theorem snapshots_of_a_committed_batch (Eng : Sqlite) (now : Z) (st : db)
    (batch : list dict) (body : sync_body) :
  snd (sync_transactions now st (sync_request batch)) = Success body →
  Forall acknowledged (body_ack body) →
  ∀ d, d ∈ body_updated_products body →
    ∃ p, products (fst (sync_transactions now st (sync_request batch)))
           !! d_barcode d = Some p
         ∧ d = to_dict (d_barcode d) p.
Proof.
  rewrite sync_transactions_batch. simpl. intros [= <-] H.
  intros d [[k d'] [-> Hin]]%list_elem_of_fmap.
  apply elem_of_map_to_list in Hin. simpl.
  rewrite (run_batch_keyed now st batch k d' Hin).
  by apply (run_batch_current now st batch H).
Qed.

(* ===================================================================== *)
(** * Sales never add stock                                               *)
(* ===================================================================== *)

Section NoRestock.
Context `{Eng : Sqlite}.
Variable now : Z.

Lemma not_above_refl (m : gmap string Product) : not_above m m.
Proof. intros b p H. exists p. split; [done|lia]. Qed.

Lemma not_above_trans (a b c : gmap string Product) :
  not_above a b → not_above b c → not_above a c.
Proof.
  intros H1 H2 k p'' H. destruct (H2 k p'' H) as (p' & Hp' & Hq').
  destruct (H1 k p' Hp') as (p & Hp & Hq). exists p. split; [done|lia].
Qed.

Lemma apply_line_not_above (tid : Z) (f : line_fields) (w : work) :
  0 ≤ lf_qty f → not_above (products (pending w))
            (products (pending (apply_line tid f w))).
Proof.
  intros Hq. unfold apply_line.
  destruct (lf_barcode f) as [b|]; [|apply not_above_refl]. simpl.
  destruct (products (pending w) !! b) as [prod|] eqn:E;
    [|apply not_above_refl].
  intros k p'. simpl. rewrite lookup_insert. case_decide as Hk.
  - intros [= <-]. subst k. exists prod. split; [done|]. simpl.
    rewrite or0_id. lia.
  - intros H. exists p'. split; [done|lia].
Qed.

Lemma commit_lines_not_above (tid : Z) (ls : list json) (w : work) :
  forallb (λ x, match parse_line x with
                | Ok f => 0 <=? lf_qty f
                | Raise _ => true
                end) ls = true →
  not_above (products (pending w))
            (products (pending (fst (commit_lines tid ls w)))).
Proof.
  intros H.
  apply (commit_lines_invariant
           (λ w', not_above (products (pending w)) (products (pending w'))));
    [done| |apply not_above_refl].
  intros x f w' Hx Hf H'. eapply not_above_trans; [exact H'|].
  apply apply_line_not_above. rewrite forallb_forall in H.
  specialize (H x). rewrite Hf in H. apply Z.leb_le, H.
  by apply list_elem_of_In.
Qed.

Lemma sync_step_not_above (s : loop_state) (tx : dict) :
  sells_nonneg tx = true →
  not_above (products (store s)) (products (store (sync_step now s tx))).
Proof.
  intros H. unfold sync_step. rewrite sync_try_eq.
  destruct (parse_head tx) as [h|e]; [|apply not_above_refl]. simpl.
  unfold sells_nonneg in H.
  destruct (py_iter _) as [ls|e]; [|apply not_above_refl].
  set (w1 := add_head _ _).
  pose proof (commit_lines_not_above
                (next_rowid (t_id <$> transactions (store s))) ls w1 H) as H'.
  by destruct (commit_lines _ ls w1) as [w' [[]|e]];
    [|apply not_above_refl].
Qed.

Lemma run_batch_not_above (st : db) (batch : list dict) :
  Forall (λ tx, sells_nonneg tx = true) batch →
  not_above (products st) (products (store (run_batch now st batch))).
Proof.
  induction batch as [|tx batch IH] using rev_ind; intros H;
    [apply not_above_refl|].
  apply Forall_app in H as [H1 H2]. inversion_clear H2 as [|? ? H3 _].
  rewrite run_batch_snoc.
  eapply not_above_trans; [by apply IH|by apply sync_step_not_above].
Qed.

End NoRestock.

(** X12.  Sales never add stock.  When no line of a batch has a negative
    quantity, no product has, after the request, a stock count above the
    one it had before, or above zero when that one was negative. *)
Theorem sales_never_add_stock (Eng : Sqlite) (now : Z) (st : db)
    (batch : list dict) (b : string) (p p' : Product) :
  Forall (λ tx, sells_nonneg tx = true) batch →
  products st !! b = Some p →
  products (fst (sync_transactions now st (sync_request batch))) !! b
  = Some p' →
  p_qty p' ≤ Z.max 0 (p_qty p).
Proof.
  intros H Hp. rewrite sync_transactions_batch. simpl. intros Hp'.
  destruct (run_batch_not_above now st batch H b p' Hp') as (p0 & Hp0 & Hq).
  congruence.
Qed.

(* ===================================================================== *)
(** * The product request                                                 *)
(* ===================================================================== *)

Section Upsert.
Context `{Eng : Sqlite}.

Lemma request_dict (data : dict) : py_or (JObj data) (JObj []) = JObj data.
Proof. by destruct data. Qed.

(** The fields after the assignments of lines 199 to 203 and the
    commit. *)
Lemma assign_fields_result (data : dict) (p p' : Product) :
  assign_fields data p = Ok p' →
  (if dict_has data "name"
   then bind_text (dict_get data "name") = Ok (p_name p')
   else p_name p' = p_name p)
  ∧ (if dict_has data "price"
     then store_real <$> py_float (py_or (dict_get data "price") (JInt 0))
          = Ok (p_price p')
     else p_price p' = p_price p)
  ∧ (if dict_has data "cost"
     then store_real <$> py_float (py_or (dict_get data "cost") (JInt 0))
          = Ok (p_cost p')
     else p_cost p' = p_cost p)
  ∧ (if dict_has data "qty"
     then py_int (py_or (dict_get data "qty") (JInt 0)) = Ok (p_qty p')
          ∧ bind_int (p_qty p') = Ok (p_qty p')
     else p_qty p' = p_qty p)
  ∧ p_is_new p' = (if dict_has data "is_new"
                   then truthy (dict_get data "is_new") else p_is_new p).
Proof.
  unfold assign_fields, mbind, mret, result_bind, result_ret.
  destruct (dict_has data "price");
    [destruct (py_float (py_or (dict_get data "price") _)) as [price|e];
       [|done]|];
    (destruct (dict_has data "cost");
     [destruct (py_float (py_or (dict_get data "cost") _)) as [cost|e];
        [|done]|]);
    (destruct (dict_has data "qty");
     [destruct (py_int _) as [qty|e]; [|done]|]);
    simpl;
    (destruct (dict_has data "name");
     [destruct (bind_text _) as [name|e]; [|done]|]);
    try (destruct (bind_int qty) as [q|e] eqn:Ei; [|done];
         apply bind_int_ok in Ei as [-> Ei]);
    intros [= <-]; simpl; unfold bind_int; rewrite ?Ei; eauto 10.
Qed.

Lemma assign_fields_again (data : dict) (p p' : Product) :
  assign_fields data p = Ok p' → assign_fields data p' = Ok p'.
Proof.
  intros H. destruct (assign_fields_keeps data p p' H) as [Hid Hcr].
  destruct (assign_fields_result data p p' H) as (Hn & Hp & Hc & Hq & Hi).
  unfold assign_fields.
  assert ((if dict_has data "price"
           then store_real
                  <$> py_float (py_or (dict_get data "price") (JInt 0))
           else Ok (p_price p')) = Ok (p_price p')) as ->.
  { by destruct (dict_has data "price"). }
  assert ((if dict_has data "cost"
           then store_real
                  <$> py_float (py_or (dict_get data "cost") (JInt 0))
           else Ok (p_cost p')) = Ok (p_cost p')) as ->.
  { by destruct (dict_has data "cost"). }
  assert ((if dict_has data "qty"
           then py_int (py_or (dict_get data "qty") (JInt 0))
           else Ok (p_qty p')) = Ok (p_qty p')) as ->.
  { destruct (dict_has data "qty"); [by destruct Hq|done]. }
  assert ((if dict_has data "name"
           then bind_text (dict_get data "name")
           else Ok (p_name p')) = Ok (p_name p')) as ->.
  { by destruct (dict_has data "name"). }
  assert ((if dict_has data "is_new"
           then truthy (dict_get data "is_new") else p_is_new p')
          = p_is_new p') as ->.
  { rewrite Hi. by destruct (dict_has data "is_new"). }
  unfold mbind, mret, result_bind, result_ret.
  assert ((if dict_has data "qty"
           then bind_int (p_qty p') else Ok (p_qty p')) = Ok (p_qty p')) as ->.
  { destruct (dict_has data "qty"); [by destruct Hq|done]. }
  by destruct p'.
Qed.

(** The handler, for a request that it answers with status 200. *)
Lemma create_or_update_product_success (now : Z) (st st' : db)
    (request_json : json) (d : ProductDict) :
  create_or_update_product now st request_json = (st', Success d) →
  ∃ data p,
    as_dict (py_or request_json (JObj [])) = Ok data
    ∧ get_stripped data "barcode" = Ok (d_barcode d)
    ∧ d_barcode d ≠ ""
    ∧ assign_fields data
        (default (new_product now st) (products st !! d_barcode d)) = Ok p
    ∧ st' = set_product (d_barcode d) p st
    ∧ d = to_dict (d_barcode d) p.
Proof.
  unfold create_or_update_product, get_stripped.
  unfold mbind, mret, result_bind, result_ret.
  destruct (as_dict _) as [data|e] eqn:Ed; [|done].
  destruct (py_strip _) as [barcode|e] eqn:Eb; [|done].
  destruct (String.eqb_spec barcode "") as [E|E]; [done|].
  destruct (assign_fields data _) as [p|e] eqn:Ea; [|done].
  intros [= <- <-]. exists data, p. simpl.
  do 3 (split; [done|]). split; [|done].
  by destruct (products st !! barcode).
Qed.

End Upsert.

(** X13.  A product request is all or nothing, and what it answers is what
    it stored.  A request that is not answered with status 200 leaves the
    store as it is, also when only one of its fields is rejected.  After a
    request answered with status 200, the catalog holds under the
    barcode of the answer, which is the submitted one without its
    surrounding blanks and is not empty, the very row that the answer
    shows; every other product and the ledger are as before. *)
Theorem upsert_stores_what_it_answers (Eng : Sqlite) (now : Z) (st : db)
    (request_json : json) :
  match create_or_update_product now st request_json with
  | (st', Success d) =>
      (∃ p, products st' !! d_barcode d = Some p ∧ d = to_dict (d_barcode d) p)
      ∧ (∃ data, as_dict (py_or request_json (JObj [])) = Ok data
                 ∧ get_stripped data "barcode" = Ok (d_barcode d))
      ∧ d_barcode d ≠ ""
      ∧ (∀ b, b ≠ d_barcode d → products st' !! b = products st !! b)
      ∧ transactions st' = transactions st
      ∧ transaction_lines st' = transaction_lines st
  | (st', _) => st' = st
  end.
Proof.
  destruct (create_or_update_product now st request_json) as [st' r] eqn:E.
  destruct r as [d|status error|e].
  - destruct (create_or_update_product_success now st st' _ d E)
      as (data & p & Hdata & Hb & Hne & _ & -> & Hd).
    simpl. split; [|split; [by exists data|]; split; [done|];
                    split; [|done]].
    + exists p. by rewrite lookup_insert_eq.
    + intros b Hb'. by rewrite lookup_insert_ne.
  - revert E. unfold create_or_update_product.
    destruct (_ ≫= _) as [[data barcode]|e]; [|done].
    destruct (String.eqb barcode ""); [by intros [= <-]|].
    by destruct (assign_fields data _).
  - revert E. unfold create_or_update_product.
    destruct (_ ≫= _) as [[data barcode]|e']; [|by intros [= <-]].
    destruct (String.eqb barcode ""); [done|].
    destruct (assign_fields data _); [done|by intros [= <-]].
Qed.

(** X14.  A product request changes the submitted fields only.  In the
    answer to a request with the fields [data], the id and the creation
    time are those of the product found under the barcode, or of a new
    row when there is none; a field whose key is absent keeps the value
    of that row, for a new row the column default; a [price], [cost] or
    [qty] whose key is present with a null, zero or empty value is stored
    as zero. *)
Theorem upsert_changes_submitted_fields (Eng : Sqlite) (now : Z) (st : db)
    (request_json : json) (data : dict) (d : ProductDict) :
  as_dict (py_or request_json (JObj [])) = Ok data →
  snd (create_or_update_product now st request_json) = Success d →
  let old := default (new_product now st) (products st !! d_barcode d) in
  d_id d = p_id old
  ∧ d_created_at d = p_created_at old
  ∧ (dict_has data "name" = false → d_name d = p_name old)
  ∧ (dict_has data "price" = false → d_price d = p_price old)
  ∧ (dict_has data "cost" = false → d_cost d = p_cost old)
  ∧ (dict_has data "qty" = false → d_qty d = p_qty old)
  ∧ (dict_has data "is_new" = false → d_is_new d = p_is_new old)
  ∧ (dict_has data "price" = true → truthy (dict_get data "price") = false →
     d_price d = Some float_zero)
  ∧ (dict_has data "cost" = true → truthy (dict_get data "cost") = false →
     d_cost d = Some float_zero)
  ∧ (dict_has data "qty" = true → truthy (dict_get data "qty") = false →
     d_qty d = 0).
Proof.
  intros Hdata Hs.
  destruct (create_or_update_product now st request_json) as [st' r] eqn:E.
  simpl in Hs. subst r.
  destruct (create_or_update_product_success now st st' _ d E)
    as (data' & p & Hd' & _ & _ & Ha & _ & Hd).
  rewrite Hdata in Hd'. injection Hd' as <-.
  destruct (assign_fields_keeps _ _ _ Ha) as [Hid Hcr].
  destruct (assign_fields_result _ _ _ Ha) as (Hn & Hp & Hc & Hq & Hi).
  simpl. rewrite Hd. simpl.
  do 2 (split; [done|]).
  split; [intros H; by rewrite H in Hn|].
  split; [intros H; by rewrite H in Hp|].
  split; [intros H; by rewrite H in Hc|].
  split; [intros H; by rewrite H in Hq|].
  split; [intros H; by rewrite H in Hi|].
  split; [|split].
  - intros H Hf. rewrite H in Hp.
    unfold py_or in Hp. rewrite Hf in Hp. by injection Hp as <-.
  - intros H Hf. rewrite H in Hc.
    unfold py_or in Hc. rewrite Hf in Hc. by injection Hc as <-.
  - intros H Hf. rewrite H in Hq. destruct Hq as [Hq _].
    unfold py_or in Hq. rewrite Hf in Hq. simpl in Hq. by injection Hq.
Qed.

(** X15.  A product request can be repeated.  Sending again, at any later
    clock reading, a request that was answered with status 200 leaves the
    store as the first request left it, and gets the same answer: no
    second product appears under the barcode. *)
Theorem upsert_is_idempotent (Eng : Sqlite) (now now' : Z) (st : db)
    (request_json : json) (d : ProductDict) :
  snd (create_or_update_product now st request_json) = Success d →
  create_or_update_product now'
    (fst (create_or_update_product now st request_json)) request_json
  = (fst (create_or_update_product now st request_json), Success d).
Proof.
  intros Hs.
  destruct (create_or_update_product now st request_json) as [st' r] eqn:E.
  simpl in *. subst r.
  destruct (create_or_update_product_success now st st' _ d E)
    as (data & p & Hdata & Hb & Hne & Ha & -> & Hd).
  unfold create_or_update_product. rewrite Hdata.
  unfold get_stripped in Hb.
  unfold mbind, mret, result_bind, result_ret. rewrite Hb.
  destruct (String.eqb_spec (d_barcode d) "") as [E'|_]; [done|].
  simpl. rewrite lookup_insert_eq.
  rewrite (assign_fields_again _ _ _ Ha). rewrite <- Hd.
  unfold set_product. simpl. by rewrite insert_insert_eq.
Qed.

(* ===================================================================== *)
(** * The suggestion request at its edges                                 *)
(* ===================================================================== *)

(** X16.  The order of the checks of the suggestion request.  The lookback
    window is converted before the barcode is looked at: a window that
    [int()] rejects ends the request with that exception, also when the
    barcode is missing or unknown.  With a window that converts, a
    missing or blank barcode is answered with status 400, and a barcode
    without a product with status 404. *)
Theorem suggest_checks_in_order (st : db) (data : dict) (b : string) :
  get_stripped data "barcode" = Ok b →
  match py_int (dict_get_or data "lookback_days" (JInt 14)) with
  | Raise e => ai_suggest st (JObj data) = Unhandled e
  | Ok _ =>
      (b = "" → ai_suggest st (JObj data) = Failure 400 "barcode required")
      ∧ (b ≠ "" → products st !! b = None →
         ai_suggest st (JObj data) = Failure 404 "product not found")
  end.
Proof.
  unfold get_stripped, ai_suggest. intros Hb. rewrite request_dict. simpl.
  unfold mbind, mret, result_bind, result_ret. rewrite Hb.
  destruct (py_int _) as [days|e]; [|done]. split.
  - by intros ->.
  - intros Hne Hp. destruct (String.eqb_spec b "") as [E|_]; [done|].
    by rewrite Hp.
Qed.

(** X17.  The lookback window at its bounds.  A window of one day or less,
    zero and negative numbers included, is answered as a window of one
    day, and a request without [lookback_days] as a window of 14 days. *)
Theorem suggest_window_bounds (st : db) (b : string) (days : Z) :
  (days ≤ 1 →
   ai_suggest st (suggest_request b days) = ai_suggest st (suggest_request b 1))
  ∧ ai_suggest st (JObj [("barcode", JStr b)])
    = ai_suggest st (suggest_request b 14).
Proof.
  split.
  - intros H. rewrite !suggest_request_parsed. unfold suggest_for.
    by replace (Z.max 1 days) with (Z.max 1 1) by lia.
  - rewrite suggest_request_parsed. unfold ai_suggest. simpl.
    unfold dict_get, dict_get_or, py_or. simpl. by destruct b.
Qed.

(** X18.  A product without sales.  For a product of the catalog that no
    ledger line names, or whose lines sum to zero, the handler answers
    with status 200, whatever the window and the stock count: the average
    is 0.0, there is no [days_of_cover], and nothing is to be
    reordered. *)
Theorem suggest_without_sales (st : db) (b : string) (days : Z)
    (prod : Product) :
  str_strip b ≠ "" →
  products st !! str_strip b = Some prod →
  total_sold (lines_with_barcode (str_strip b) st) = 0 →
  ai_suggest st (suggest_request b days)
  = Success {| sb_product := to_dict (str_strip b) prod;
               sb_total_sold_in_history := 0;
               sb_avg_daily_estimate := float_zero;
               sb_days_of_cover := None;
               sb_suggested_reorder_qty := 0;
               sb_margin_kes := fst (margins prod);
               sb_margin_pct := snd (margins prod) |}.
Proof.
  intros Hb Hp Hs. rewrite suggest_request_parsed.
  destruct (String.eqb_spec (str_strip b) "") as [E|_]; [done|].
  rewrite Hp. unfold suggest_for. rewrite Hs.
  unfold py_truediv, float_quot.
  destruct (Z.eqb_spec (Z.max 1 days) 0) as [E|_]; [lia|].
  destruct (Z.ltb_spec (Z.max 1 days) 0) as [E|_]; [lia|].
  done.
Qed.

(** X19.  The safety floor of five units.  In an answer with status 200 for
    a product of the catalog, the suggested quantity is never negative;
    when the average daily estimate is positive, the stock count and the
    suggestion together are at least five units, and when it is not, the
    suggestion is zero. *)
Theorem suggest_keeps_five_units (st : db) (b : string) (days : Z)
    (prod : Product) (body : suggest_body) :
  str_strip b ≠ "" →
  products st !! str_strip b = Some prod →
  ai_suggest st (suggest_request b days) = Success body →
  0 ≤ sb_suggested_reorder_qty body
  ∧ if float_is_pos (sb_avg_daily_estimate body)
    then 5 ≤ p_qty prod + sb_suggested_reorder_qty body
    else sb_suggested_reorder_qty body = 0.
Proof.
  intros Hb Hp E.
  pose proof (ai_suggest_outcome st b days prod Hb Hp) as H.
  rewrite E in H. simpl in H. destruct H as (_ & _ & H & H0).
  split; [done|].
  destruct (float_is_pos (sb_avg_daily_estimate body)); [|done].
  destruct H as (t & _ & ->). lia.
Qed.

Lemma ai_suggest_total (st : db) (b : string) (days : Z)
    (body : suggest_body) :
  ai_suggest st (suggest_request b days) = Success body →
  sb_total_sold_in_history body
  = total_sold (lines_with_barcode (str_strip b) st).
Proof.
  rewrite suggest_request_parsed.
  destruct (String.eqb (str_strip b) ""); [done|].
  destruct (products st !! str_strip b) as [prod|]; [|done].
  unfold suggest_for, mbind, mret, result_bind, result_ret.
  destruct (py_truediv _ _) as [avg|e]; [|done].
  destruct (days_of_cover _ _) as [cover|e]; [|done].
  destruct (suggested_reorder _ _) as [n|e]; [|done].
  by intros [= <-].
Qed.

Lemma total_sold_app (r1 r2 : list TransactionLine) :
  total_sold (r1 ++ r2) = total_sold r1 + total_sold r2.
Proof.
  unfold total_sold. rewrite fmap_app, foldr_app.
  induction (l_qty <$> r1) as [|q qs IH]; simpl; lia.
Qed.

(** X20.  Sales add to the history.  The total that the suggestion request
    reports for a barcode after a sync request is the total it reported
    before, plus the quantities of the ledger lines that the sync
    request added for that barcode. *)
Theorem sales_add_to_the_history (Eng : Sqlite) (now : Z) (st : db)
    (request_json : json) (b : string) (days : Z)
    (body body' : suggest_body) :
  let final := fst (sync_transactions now st request_json) in
  ai_suggest st (suggest_request b days) = Success body →
  ai_suggest final (suggest_request b days) = Success body' →
  ∃ rows,
    transaction_lines final = transaction_lines st ++ rows
    ∧ sb_total_sold_in_history body'
      = sb_total_sold_in_history body
        + foldr Z.add 0 (quantities (str_strip b) rows).
Proof.
  intros final H H'. subst final.
  destruct (sync_transactions_stock now st request_json) as (rows & Hl & _).
  exists rows. split; [done|].
  rewrite (ai_suggest_total _ _ _ _ H), (ai_suggest_total _ _ _ _ H').
  unfold lines_with_barcode. rewrite Hl, filter_app.
  by rewrite total_sold_app.
Qed.

(* ===================================================================== *)
(** * The user table and the auth requests                                *)
(* ===================================================================== *)

Section Users.
Context `{Eng : Sqlite}.
Context `{W : Werkzeug}.

Lemma find_user_some (s : string) (users : list User) (u : User) :
  find_user (Some s) users = Some u → u ∈ users ∧ u_name u = s.
Proof.
  simpl. intros [Hin Hn]%find_some. split; [by apply list_elem_of_In|].
  by apply String.eqb_eq.
Qed.

Lemma find_user_none (s : string) (users : list User) :
  find_user (Some s) users = None → s ∉ u_name <$> users.
Proof.
  simpl. intros H (u & -> & Hin)%list_elem_of_fmap.
  apply list_elem_of_In in Hin.
  pose proof (find_none _ _ H u Hin) as Hf. simpl in Hf.
  by rewrite String.eqb_refl in Hf.
Qed.

Lemma find_user_snoc (s : string) (users : list User) (u : User) :
  find_user (Some s) users = None → u_name u = s →
  find_user (Some s) (users ++ [u]) = Some u.
Proof.
  simpl. intros H <-. induction users as [|x users IH]; simpl in *.
  - by rewrite String.eqb_refl.
  - destruct (String.eqb (u_name x) (u_name u)); [done|]. by apply IH.
Qed.

(** The only way through [require_admin]. *)
Lemma require_admin_some (users : list User) (name pin : json) (a : User) :
  require_admin users name pin = Ok (Some a) →
  admin_credentials users name pin.
Proof.
  unfold require_admin.
  destruct (negb (truthy name) || negb (truthy pin)); [done|].
  unfold mbind, mret, result_bind, result_ret.
  destruct (bind_text name) as [[s|]|e] eqn:Eb; try done.
  destruct (find_user (Some s) users) as [u|] eqn:E1; [|done].
  destruct (find_user_some s users u E1) as [Hin Hn].
  destruct (check_password_hash (u_pin_hash u) pin) as [[]|e] eqn:Ec;
    simpl; try done.
  destruct (u_is_admin u) eqn:Ea; [|done]. intros [= <-].
  exists u. do 2 (split; [done|]). split; [|done].
  intros s' ->. simpl in Eb. congruence.
Qed.

Lemma require_admin_no_admin (users : list User) (name pin : json) :
  Forall (λ u, u_is_admin u = false) users →
  match require_admin users name pin with
  | Ok (Some _) => False
  | _ => True
  end.
Proof.
  intros H. destruct (require_admin users name pin) as [[a|]|e] eqn:E;
    try done.
  destruct (require_admin_some _ _ _ _ E) as (u & Hin & Ha & _).
  rewrite Forall_forall in H. specialize (H u Hin). congruence.
Qed.

(** The two handlers that write, for a request that changes the table. *)
Lemma create_user_success (now : Z) (salt : string) (users users' : list User)
    (request_json : json) (d : UserDict) :
  create_user now salt users request_json = (users', Success d) →
  ∃ data pin,
    as_dict (py_or request_json (JObj [])) = Ok data
    ∧ get_stripped data "name" = Ok (ud_name d)
    ∧ get_stripped data "pin" = Ok pin
    ∧ ud_name d ≠ "" ∧ pin ≠ ""
    ∧ admin_credentials users (dict_get data "admin_name")
        (dict_get data "admin_pin")
    ∧ find_user (Some (ud_name d)) users = None
    ∧ users' = users ++
        [{| u_id := next_rowid (u_id <$> users); u_name := ud_name d;
            u_pin_hash := generate_password_hash pin salt;
            u_is_admin := truthy (dict_get_or data "is_admin" (JBool false));
            u_created_at := UtcNow now |}]
    ∧ ud_id d = next_rowid (u_id <$> users)
    ∧ ud_is_admin d = truthy (dict_get_or data "is_admin" (JBool false))
    ∧ ud_created_at d = UtcNow now.
Proof.
  unfold create_user. unfold mbind, mret, result_bind, result_ret.
  destruct (as_dict _) as [data|e] eqn:Ed; [|done].
  destruct (get_stripped data "name") as [name|e] eqn:En; [|done].
  destruct (get_stripped data "pin") as [pin|e] eqn:Ep; [|done].
  destruct (negb (truthy (dict_get data "admin_name")) || _); [done|].
  destruct (require_admin users _ _) as [[a|]|e] eqn:Er; try done.
  destruct (String.eqb_spec name "") as [?|Hn]; [done|].
  destruct (String.eqb_spec pin "") as [?|Hp]; [done|]. simpl.
  destruct (List.find _ users) as [u|] eqn:Ef; [done|].
  intros [= <- <-]. exists data, pin. simpl.
  do 5 (split; [done|]). split; [by eapply require_admin_some|]. done.
Qed.

Lemma create_user_failure (now : Z) (salt : string) (users : list User)
    (request_json : json) :
  match snd (create_user now salt users request_json) with
  | Success _ => True
  | _ => fst (create_user now salt users request_json) = users
  end.
Proof.
  unfold create_user.
  destruct (_ ≫= _) as [[[data name] pin]|e]; [|done].
  destruct (negb (truthy (dict_get data "admin_name")) || _); [done|].
  destruct (require_admin users _ _) as [[a|]|e]; try done.
  destruct (String.eqb name "" || String.eqb pin ""); [done|].
  by destruct (find_user (Some name) users).
Qed.

Lemma change_pin_success (salt : string) (users users' : list User)
    (request_json : json) (d : UserDict) :
  change_pin salt users request_json = (users', Success d) →
  ∃ data new_pin user,
    as_dict (py_or request_json (JObj [])) = Ok data
    ∧ get_stripped data "target_name" = Ok (ud_name d)
    ∧ get_stripped data "new_pin" = Ok new_pin
    ∧ ud_name d ≠ "" ∧ new_pin ≠ ""
    ∧ admin_credentials users (dict_get data "admin_name")
        (dict_get data "admin_pin")
    ∧ find_user (Some (ud_name d)) users = Some user
    ∧ d = user_to_dict user
    ∧ users' = set_pin_hash (ud_name d)
                 (generate_password_hash new_pin salt) users.
Proof.
  unfold change_pin. unfold mbind, mret, result_bind, result_ret.
  destruct (as_dict _) as [data|e] eqn:Ed; [|done].
  destruct (get_stripped data "target_name") as [name|e] eqn:En; [|done].
  destruct (get_stripped data "new_pin") as [pin|e] eqn:Ep; [|done].
  destruct (String.eqb_spec name "") as [?|Hn]; [done|].
  destruct (String.eqb_spec pin "") as [?|Hp]; [done|]. simpl.
  destruct (negb (truthy (dict_get data "admin_name")) || _); [done|].
  destruct (require_admin users _ _) as [[a|]|e] eqn:Er; try done.
  destruct (List.find _ users) as [u|] eqn:Ef; [|done].
  intros [= <- <-]. exists data, pin, u.
  destruct (find_user_some name users u Ef) as [_ Hu]. simpl. rewrite Hu.
  do 5 (split; [done|]). split; [by eapply require_admin_some|]. done.
Qed.

Lemma change_pin_failure (salt : string) (users : list User)
    (request_json : json) :
  match snd (change_pin salt users request_json) with
  | Success _ => True
  | _ => fst (change_pin salt users request_json) = users
  end.
Proof.
  unfold change_pin.
  destruct (_ ≫= _) as [[[data name] pin]|e]; [|done].
  destruct (_ || _); [done|].
  destruct (require_admin users _ _) as [[a|]|e]; try done.
  by destruct (find_user (Some name) users).
Qed.

Lemma set_pin_hash_same (n h : string) (users : list User) :
  Forall2 same_user users (set_pin_hash n h users)
  ∧ ∀ u, u ∈ users → u_name u ≠ n → u ∈ set_pin_hash n h users.
Proof.
  induction users as [|x users [IH1 IH2]]; simpl.
  - split; [constructor|]. by intros u ?%elem_of_nil.
  - destruct (String.eqb_spec (u_name x) n) as [E|E].
    + split.
      * constructor; [done|]. apply Forall2_same_length_lookup.
        split; [done|]. intros i u u' H1 H2. by simplify_eq.
      * intros u [->|Hin]%elem_of_cons Hne; [done|]. by right.
    + split; [by constructor|].
      intros u [->|Hin]%elem_of_cons Hne; [left|right]. by apply IH2.
Qed.

Lemma set_pin_hash_find (n h : string) (users : list User) (u : User) :
  find_user (Some n) users = Some u →
  find_user (Some n) (set_pin_hash n h users)
  = Some {| u_id := u_id u; u_name := u_name u; u_pin_hash := h;
            u_is_admin := u_is_admin u; u_created_at := u_created_at u |}.
Proof.
  simpl. induction users as [|x users IH]; simpl; [done|].
  destruct (String.eqb (u_name x) n) eqn:E; simpl.
  - rewrite E. by intros [= <-].
  - rewrite E. apply IH.
Qed.

Lemma same_user_names (users users' : list User) :
  Forall2 same_user users users' →
  u_name <$> users' = u_name <$> users ∧ u_id <$> users' = u_id <$> users.
Proof.
  induction 1 as [|u u' l l' (Hi & Hn & _) _ [IH1 IH2]]; [done|].
  by rewrite !fmap_cons, Hi, Hn, IH1, IH2.
Qed.

Lemma login_reads (users : list User) (request_json : json) (data : dict)
    (name pin : string) (u : User) :
  as_dict (py_or request_json (JObj [])) = Ok data →
  get_stripped data "name" = Ok name →
  get_stripped data "pin" = Ok pin →
  name ≠ "" → pin ≠ "" →
  find_user (Some name) users = Some u →
  check_password_hash (u_pin_hash u) (JStr pin) = Ok true →
  login users request_json = Success (user_to_dict u).
Proof.
  intros Hd Hn Hp Hne Hpe Hf Hc. unfold login. rewrite Hd.
  unfold mbind, mret, result_bind, result_ret. rewrite Hn, Hp.
  destruct (String.eqb_spec name "") as [?|_]; [done|].
  destruct (String.eqb_spec pin "") as [?|_]; [done|]. simpl.
  simpl in Hf. rewrite Hf. by rewrite Hc.
Qed.

Lemma apply_auth_op_head (users : list User) (o : auth_op) (u : User)
    (rest : list User) :
  users = u :: rest →
  ∃ u' rest', apply_auth_op users o = u' :: rest' ∧ same_user u u'.
Proof.
  intros ->. destruct o as [now salt r|salt r]; simpl.
  - pose proof (create_user_failure now salt (u :: rest) r) as Hf.
    destruct (create_user now salt (u :: rest) r) as [users' [d|st er|e]]
      eqn:E; simpl in *; try (subst users'; by exists u, rest).
    destruct (create_user_success now salt _ users' r d E)
      as (data & pin & _ & _ & _ & _ & _ & _ & _ & -> & _).
    by eexists u, _.
  - pose proof (change_pin_failure salt (u :: rest) r) as Hf.
    destruct (change_pin salt (u :: rest) r) as [users' [d|st er|e]]
      eqn:E; simpl in *; try (subst users'; by exists u, rest).
    destruct (change_pin_success salt _ users' r d E)
      as (data & pin & u0 & _ & _ & _ & _ & _ & _ & _ & _ & ->).
    destruct (set_pin_hash_same (ud_name d)
                (generate_password_hash pin salt) (u :: rest)) as [Hs _].
    inversion Hs as [|? u' ? rest' Hu _]. by exists u', rest'.
Qed.

Lemma apply_auth_op_unique (users : list User) (o : auth_op) :
  users_unique users → users_unique (apply_auth_op users o).
Proof.
  intros [Hn Hi]. destruct o as [now salt r|salt r]; simpl.
  - pose proof (create_user_failure now salt users r) as Hf.
    destruct (create_user now salt users r) as [users' [d|st er|e]] eqn:E;
      simpl in *; try (by subst users').
    destruct (create_user_success now salt users users' r d E)
      as (data & pin & _ & _ & _ & _ & _ & _ & Hnone & -> & _).
    split; rewrite fmap_app; simpl.
    + apply NoDup_app. split; [done|]. split; [|apply NoDup_singleton].
      intros x Hx ->%list_elem_of_singleton.
      by apply (find_user_none _ _ Hnone).
    + by apply NoDup_snoc_fresh.
  - pose proof (change_pin_failure salt users r) as Hf.
    destruct (change_pin salt users r) as [users' [d|st er|e]] eqn:E;
      simpl in *; try (by subst users').
    destruct (change_pin_success salt users users' r d E)
      as (data & pin & u & _ & _ & _ & _ & _ & _ & _ & _ & ->).
    destruct (set_pin_hash_same (ud_name d)
                (generate_password_hash pin salt) users) as [Hs _].
    unfold users_unique.
    destruct (same_user_names _ _ Hs) as [-> ->]. by split.
Qed.

Lemma apply_auth_op_no_admin (users : list User) (o : auth_op) :
  Forall (λ u, u_is_admin u = false) users → apply_auth_op users o = users.
Proof.
  intros H. destruct o as [now salt r|salt r]; simpl.
  - pose proof (create_user_failure now salt users r) as Hf.
    destruct (create_user now salt users r) as [users' [d|st er|e]] eqn:E;
      simpl in *; try done.
    destruct (create_user_success now salt users users' r d E)
      as (data & pin & _ & _ & _ & _ & _ & (u & Hin & Ha & _) & _).
    rewrite Forall_forall in H. specialize (H u Hin). congruence.
  - pose proof (change_pin_failure salt users r) as Hf.
    destruct (change_pin salt users r) as [users' [d|st er|e]] eqn:E;
      simpl in *; try done.
    destruct (change_pin_success salt users users' r d E)
      as (data & pin & u0 & _ & _ & _ & _ & _ & (u & Hin & Ha & _) & _).
    rewrite Forall_forall in H. specialize (H u Hin). congruence.
Qed.

End Users.

(** X21.  Only an admin changes the user table.  A [create_user] or
    [change_pin] request that leaves the table other than it found it
    carries, as [admin_pin], a pin that [check_password_hash] accepts for
    the hash of a user of the table who is an admin, and its
    [admin_name], when it is a text, is the name of that user. *)
Theorem only_an_admin_changes_users (W : Werkzeug) (Eng : Sqlite)
    (users : list User)
    (o : auth_op) :
  apply_auth_op users o ≠ users → by_admin users (auth_body o).
Proof.
  destruct o as [now salt r|salt r]; simpl; intros H.
  - pose proof (create_user_failure now salt users r) as Hf.
    destruct (create_user now salt users r) as [users' [d|st er|e]] eqn:E;
      simpl in *; try done.
    destruct (create_user_success now salt users users' r d E)
      as (data & pin & Hd & _ & _ & _ & _ & Ha & _).
    by exists data.
  - pose proof (change_pin_failure salt users r) as Hf.
    destruct (change_pin salt users r) as [users' [d|st er|e]] eqn:E;
      simpl in *; try done.
    destruct (change_pin_success salt users users' r d E)
      as (data & pin & u & Hd & _ & _ & _ & _ & Ha & _).
    by exists data.
Qed.

(** X22.  Without an admin the user table is frozen.  In a table that holds
    no admin, no sequence of [create_user] and [change_pin] requests
    changes anything, whatever credentials they carry, and [list_users]
    never answers with the list. *)
Theorem without_an_admin_nothing_changes (W : Werkzeug) (Eng : Sqlite)
    (users : list User)
    (ops : list auth_op) (admin_name admin_pin : option string) :
  Forall (λ u, u_is_admin u = false) users →
  foldl apply_auth_op users ops = users
  ∧ body_of (list_users users admin_name admin_pin) = None.
Proof.
  intros H. split.
  - induction ops as [|o ops IH] using rev_ind; [done|].
    rewrite foldl_snoc, IH. by apply apply_auth_op_no_admin.
  - unfold list_users. destruct (_ || _); [done|].
    pose proof (require_admin_no_admin users (arg admin_name) (arg admin_pin) H)
      as Hr.
    by destruct (require_admin users _ _) as [[a|]|e].
Qed.

(** X23.  User names and ids stay unique.  After any sequence of
    [create_user] and [change_pin] requests on a table whose names and
    ids are pairwise distinct, they still are: the handlers never run
    into the unique constraint of [name]. *)
Theorem user_names_stay_unique (W : Werkzeug) (Eng : Sqlite)
    (ops : list auth_op)
    (users : list User) :
  users_unique users → users_unique (foldl apply_auth_op users ops).
Proof.
  revert users. induction ops as [|o ops IH]; intros users H; simpl; [done|].
  by apply IH, apply_auth_op_unique.
Qed.

(** X24.  [create_user] adds one row or none.  A request that is not
    answered with status 200 leaves the table as it is.  A request
    answered with status 200 leaves every row in place and appends the
    row that the answer shows: its name is not empty and is the name of
    no other row, its id is the id of no other row, and its hash is the
    one generated for the submitted pin without its surrounding blanks. *)
Theorem create_user_adds_one_row (W : Werkzeug) (Eng : Sqlite) (now : Z)
    (salt : string)
    (users : list User) (request_json : json) :
  match create_user now salt users request_json with
  | (users', Success d) =>
      ∃ u, users' = users ++ [u]
           ∧ d = user_to_dict u
           ∧ u_name u ≠ ""
           ∧ (u_name u ∉ u_name <$> users)
           ∧ (u_id u ∉ u_id <$> users)
           ∧ ∃ data pin,
               as_dict (py_or request_json (JObj [])) = Ok data
               ∧ get_stripped data "pin" = Ok pin
               ∧ u_pin_hash u = generate_password_hash pin salt
  | (users', _) => users' = users
  end.
Proof.
  pose proof (create_user_failure now salt users request_json) as Hf.
  destruct (create_user now salt users request_json)
    as [users' [d|st er|e]] eqn:E; simpl in *; try done.
  destruct (create_user_success now salt users users' _ d E)
    as (data & pin & Hd & Hn & Hp & Hne & _ & _ & Hnone & -> & Hi & Ha & Hc).
  eexists. split; [reflexivity|]. simpl.
  split; [destruct d; simpl in *; by subst|].
  split; [done|]. split; [by apply find_user_none|].
  split; [apply next_rowid_fresh|]. by exists data, pin.
Qed.

(** X25.  A created user can log in.  When the library accepts the hashes
    it generates, the body of a [create_user] request answered with
    status 200, sent to [login] afterwards, is answered with status 200
    and the same user. *)
Theorem created_user_can_log_in (W : Werkzeug) (Eng : Sqlite) (now : Z)
    (salt : string)
    (users users' : list User) (request_json : json) (d : UserDict) :
  hash_sound →
  create_user now salt users request_json = (users', Success d) →
  login users' request_json = Success d.
Proof.
  intros Hs E.
  destruct (create_user_success now salt users users' _ d E)
    as (data & pin & Hd & Hn & Hp & Hne & Hpe & _ & Hnone & -> & Hi & Ha & Hc).
  set (u := {| u_id := _ |}).
  replace d with (user_to_dict u)
    by (destruct d; simpl in *; by subst).
  apply (login_reads _ _ data (ud_name d) pin); try done.
  - by apply find_user_snoc.
  - apply Hs.
Qed.

(** X26.  [change_pin] changes one hash, and the new pin opens it.  A
    request answered with status 200 leaves as many rows, each with the
    id, name, admin flag and creation time it had, and leaves every row
    but the one named by [target_name] as it was.  When the library
    accepts the hashes it generates, a login with the target name and
    the new pin is answered with status 200 and that user. *)
Theorem change_pin_changes_one_hash (W : Werkzeug) (Eng : Sqlite)
    (salt : string)
    (users users' : list User) (request_json : json) (data : dict)
    (d : UserDict) :
  change_pin salt users request_json = (users', Success d) →
  as_dict (py_or request_json (JObj [])) = Ok data →
  Forall2 same_user users users'
  ∧ (∀ u, u ∈ users → u_name u ≠ ud_name d → u ∈ users')
  ∧ (hash_sound →
     login users' (login_request (dict_get data "target_name")
                                 (dict_get data "new_pin"))
     = Success d).
Proof.
  intros E Hd.
  destruct (change_pin_success salt users users' _ d E)
    as (data' & pin & u & Hd' & Hn & Hp & Hne & Hpe & _ & Hf & Hu & ->).
  rewrite Hd in Hd'. injection Hd' as <-.
  destruct (set_pin_hash_same (ud_name d)
              (generate_password_hash pin salt) users) as [H1 H2].
  do 2 (split; [done|]). intros Hs.
  pose proof (set_pin_hash_find (ud_name d)
                (generate_password_hash pin salt) users u Hf) as Hf'.
  subst d. simpl in *.
  apply (login_reads _ _
           [("name", dict_get data "target_name");
            ("pin", dict_get data "new_pin")] (u_name u) pin
           {| u_id := u_id u; u_name := u_name u;
              u_pin_hash := generate_password_hash pin salt;
              u_is_admin := u_is_admin u; u_created_at := u_created_at u |});
    try done.
  apply Hs.
Qed.

(** X27.  [login] needs the pin.  A login answered with status 200 shows a
    user of the table, found under the submitted name without its
    surrounding blanks, and [check_password_hash] has accepted the
    submitted pin, without its surrounding blanks, for the hash of that
    user. *)
Theorem login_needs_the_pin (W : Werkzeug) (users : list User)
    (request_json : json) (d : UserDict) :
  login users request_json = Success d →
  ∃ data u pin,
    as_dict (py_or request_json (JObj [])) = Ok data
    ∧ u ∈ users ∧ d = user_to_dict u
    ∧ get_stripped data "name" = Ok (u_name u)
    ∧ get_stripped data "pin" = Ok pin
    ∧ check_password_hash (u_pin_hash u) (JStr pin) = Ok true.
Proof.
  unfold login. unfold mbind, mret, result_bind, result_ret.
  destruct (as_dict _) as [data|e] eqn:Ed; [|done].
  destruct (get_stripped data "name") as [name|e] eqn:En; [|done].
  destruct (get_stripped data "pin") as [pin|e] eqn:Ep; [|done].
  destruct (_ || _); [done|].
  destruct (find_user (Some name) users) as [u|] eqn:Ef; [|done].
  destruct (find_user_some name users u Ef) as [Hin <-].
  destruct (check_password_hash _ _) as [[]|e] eqn:Ec; try done.
  intros [= <-]. by exists data, u, pin.
Qed.

(** X28.  [list_users] answers an admin only.  An answer with status 200
    lists every user of the table, in the order of the table, and the
    query parameters are the name of an admin of the table and a pin
    that [check_password_hash] accepts for that admin's hash. *)
Theorem list_users_needs_an_admin (W : Werkzeug) (Eng : Sqlite)
    (users : list User)
    (admin_name admin_pin : option string) (l : list UserDict) :
  list_users users admin_name admin_pin = Success l →
  l = user_to_dict <$> users
  ∧ admin_credentials users (arg admin_name) (arg admin_pin).
Proof.
  unfold list_users. destruct (_ || _); [done|].
  destruct (require_admin users _ _) as [[a|]|e] eqn:E; try done.
  intros [= <-]. split; [done|]. by eapply require_admin_some.
Qed.

(** X29.  The default admin is created once.  [bootstrap] leaves a table
    that holds a user as it is, so running it again changes nothing.  On
    an empty table it creates the admin "admin", and when the library
    accepts the hashes it generates and the configured pin is not empty,
    [require_admin] accepts that name with that pin. *)
Theorem bootstrap_creates_the_admin_once (W : Werkzeug) (Eng : Sqlite)
    (now now' : Z)
    (salt salt' : string) (env env' : option string) (users : list User) :
  (users ≠ [] → bootstrap now salt env users = users)
  ∧ bootstrap now' salt' env' (bootstrap now salt env users)
    = bootstrap now salt env users
  ∧ (hash_sound → default "1234" env ≠ "" →
     ∃ admin,
       bootstrap now salt env [] = [admin]
       ∧ require_admin [admin] (JStr "admin") (JStr (default "1234" env))
         = Ok (Some admin)).
Proof.
  split; [by destruct users|]. split; [by destruct users|].
  intros Hs Hne. eexists. split; [reflexivity|].
  unfold require_admin. simpl.
  destruct (String.eqb_spec (default "1234" env) "") as [?|_]; [done|].
  simpl. unfold mbind, mret, result_bind, result_ret. by rewrite Hs.
Qed.

(** X30.  The default admin stays.  After [bootstrap] on an empty table
    and any sequence of [create_user] and [change_pin] requests, the
    first row of the table is still the user "admin" with the id 1 and
    the admin flag: no request removes, renames or demotes it. *)
Theorem default_admin_stays (W : Werkzeug) (Eng : Sqlite) (now : Z)
    (salt : string) (env : option string) (ops : list auth_op) :
  ∃ admin rest,
    foldl apply_auth_op (bootstrap now salt env []) ops = admin :: rest
    ∧ u_id admin = 1 ∧ u_name admin = "admin" ∧ u_is_admin admin = true.
Proof.
  induction ops as [|o ops (admin & rest & E & Hi & Hn & Ha)] using rev_ind.
  - by eexists _, _.
  - rewrite foldl_snoc.
    destruct (apply_auth_op_head _ o admin rest E)
      as (u' & rest' & -> & Hi' & Hn' & Ha' & _).
    exists u', rest'. split; [done|]. by rewrite Hi', Hn', Ha'.
Qed.

(* ===================================================================== *)
(** * The further properties on the examples                              *)
(* ===================================================================== *)

Import Staff.

Section FurtherExamples.
#[local] Existing Instance engine.

Lemma primary_keys_stay_unique_witness :
  keys_unique empty_db
  ∧ keys_unique
      (foldl apply_op empty_db
         [Upsert 0 restock; Sync 1 (sync_request [scenario_b1; half_valid]);
          Upsert 2 rename]).
Proof.
  assert (keys_unique empty_db) as H0
    by (repeat split; vm_compute; constructor).
  exact (conj H0 (primary_keys_stay_unique engine _ _ H0)).
Defined.

Lemma server_ids_are_fresh_witness :
  NoDup (t_id <$> transactions sold_five)
  ∧ ∃ body,
      snd (sync_transactions 0 sold_five
             (sync_request [scenario_b1; scenario_c; scenario_b2]))
      = Success body
      ∧ server_ids (body_ack body) = [2; 3]
      ∧ NoDup (server_ids (body_ack body)).
Proof.
  assert (NoDup (t_id <$> transactions sold_five)) as H0
    by (vm_compute; repeat constructor; set_solver).
  assert (snd (sync_transactions 0 sold_five
                 (sync_request [scenario_b1; scenario_c; scenario_b2]))
          = Success (sync_body_of
                       (run_batch 0 sold_five
                          [scenario_b1; scenario_c; scenario_b2]))) as H1
    by (vm_compute; reflexivity).
  split; [exact H0|]. eexists. split; [exact H1|].
  split; [vm_compute; reflexivity|].
  exact (proj1 (server_ids_are_fresh engine 0 sold_five _ _ H0 H1)).
Defined.

Lemma status_of_a_transaction_witness :
  tx_converts scenario_c = false
  ∧ ∃ body v,
      snd (sync_transactions 0 shop (sync_request [scenario_b1; scenario_c]))
      = Success body
      ∧ body_ack body !! 1%nat = Some v
      ∧ status_of v = Some "error".
Proof.
  assert (tx_converts scenario_c = false) as H0 by (vm_compute; reflexivity).
  split; [exact H0|].
  destruct (status_of_a_transaction engine 0 shop
              [scenario_b1; scenario_c] 1 scenario_c eq_refl)
    as (body & v & Hb & Ha & _ & Hs & _).
  exists body, v. split; [exact Hb|]. split; [exact Ha|exact (Hs H0)].
Defined.

Lemma ledger_holds_the_head_witness :
  ∃ t,
    find_transaction 1 (fst (sync_transactions 7 shop (sync_request [stamped])))
    = Some t
    ∧ t_created_at t = FromIso "2024-05-01T10:00:00" 7
    ∧ t_payment_type t = Some "cash".
Proof.
  destruct (ledger_holds_the_head engine 7 shop [stamped] 0 stamped
              (sync_body_of (run_batch 7 shop [stamped])) (JStr "b1") 1
              eq_refl ltac:(vm_compute; reflexivity)
              ltac:(vm_compute; reflexivity))
    as (t & Hf & _ & Hp & _ & Hc).
  exists t. split; [exact Hf|]. split; [exact Hc|].
  vm_compute in Hp. by injection Hp.
Defined.

Lemma sync_without_transactions_witness :
  truthy JNull = false
  ∧ sync_transactions 0 shop JNull
    = (shop, Success {| body_ack := []; body_updated_products := [] |}).
Proof.
  split; [reflexivity|].
  exact (sync_without_transactions engine 0 shop JNull (or_introl eq_refl)).
Defined.

Lemma stray_item_ends_the_request_witness :
  as_dict JNull
  = Raise (AttributeError "'NoneType' object has no attribute 'get'")
  ∧ sync_transactions 0 shop
      (JObj [("transactions",
              JArr [JObj scenario_b1; JNull; JObj scenario_b2])])
    = (fst (sync_transactions 0 shop (sync_request [scenario_b1])),
       Unhandled (AttributeError "'NoneType' object has no attribute 'get'")).
Proof.
  split; [reflexivity|].
  exact (stray_item_ends_the_request engine 0 shop [scenario_b1] JNull
           [JObj scenario_b2] _ eq_refl).
Defined.

Lemma snapshots_of_a_committed_batch_witness :
  Forall acknowledged
    (body_ack (sync_body_of (run_batch 0 shop [scenario_b1; scenario_b2])))
  ∧ ∃ p, products (fst (sync_transactions 0 shop
                          (sync_request [scenario_b1; scenario_b2]))) !! "111"
         = Some p
         ∧ to_dict "111" (set_qty 0 milk) = to_dict "111" p.
Proof.
  assert (Forall acknowledged
            (body_ack (sync_body_of
                         (run_batch 0 shop [scenario_b1; scenario_b2]))))
    as H0 by (vm_compute; repeat constructor).
  split; [exact H0|].
  exact (snapshots_of_a_committed_batch engine 0 shop
           [scenario_b1; scenario_b2]
           (sync_body_of (run_batch 0 shop [scenario_b1; scenario_b2]))
           ltac:(vm_compute; reflexivity) H0
           (to_dict "111" (set_qty 0 milk)) ltac:(vm_compute; left)).
Defined.

Lemma sales_never_add_stock_witness :
  Forall (λ tx, sells_nonneg tx = true) [scenario_a; half_valid]
  ∧ p_qty (set_qty 7 milk) ≤ Z.max 0 (p_qty milk).
Proof.
  assert (Forall (λ tx, sells_nonneg tx = true) [scenario_a; half_valid])
    as H0 by (repeat constructor).
  split; [exact H0|].
  exact (sales_never_add_stock engine 0 shop [scenario_a; half_valid] "111" milk
           (set_qty 7 milk) H0 ltac:(vm_compute; reflexivity)
           ltac:(vm_compute; reflexivity)).
Defined.

Lemma upsert_changes_submitted_fields_witness :
  ∃ d,
    snd (create_or_update_product 5 shop rename) = Success d
    ∧ d_barcode d = "111"
    ∧ d_name d = Some "Whole milk"
    ∧ d_qty d = 10
    ∧ d_price d = Some float_zero.
Proof.
  eexists. split; [vm_compute; reflexivity|].
  split; [reflexivity|]. split; [reflexivity|].
  destruct (upsert_changes_submitted_fields engine 5 shop rename _ _ eq_refl
              ltac:(vm_compute; reflexivity))
    as (_ & _ & _ & _ & _ & Hq & _ & Hp & _).
  split; [exact (Hq eq_refl)|exact (Hp eq_refl eq_refl)].
Defined.

Lemma upsert_is_idempotent_witness :
  ∃ d,
    snd (create_or_update_product 0 empty_db restock) = Success d
    ∧ create_or_update_product 9
        (fst (create_or_update_product 0 empty_db restock)) restock
      = (fst (create_or_update_product 0 empty_db restock), Success d).
Proof.
  eexists. split; [vm_compute; reflexivity|].
  exact (upsert_is_idempotent engine 0 9 empty_db restock _
           ltac:(vm_compute; reflexivity)).
Defined.

Lemma suggest_checks_in_order_witness :
  get_stripped [("lookback_days", JStr "soon")] "barcode" = Ok ""
  ∧ ai_suggest shop (JObj [("lookback_days", JStr "soon")])
    = Unhandled
        (ValueError "invalid literal for int() with base 10: 'soon'").
Proof.
  split; [reflexivity|].
  exact (suggest_checks_in_order shop [("lookback_days", JStr "soon")] ""
           eq_refl).
Defined.

Lemma suggest_without_sales_witness :
  str_strip "111" ≠ ""
  ∧ total_sold (lines_with_barcode (str_strip "111") sold_none) = 0
  ∧ (sb_suggested_reorder_qty
       <$> body_of (ai_suggest sold_none (suggest_request "111" (-3))))
    = Some 0.
Proof.
  assert (str_strip "111" ≠ "") as H1 by by_evaluation.
  split; [exact H1|]. split; [reflexivity|].
  by rewrite (suggest_without_sales sold_none "111" (-3) (set_qty 0 milk)
                H1 ltac:(vm_compute; reflexivity) eq_refl).
Defined.

Lemma suggest_keeps_five_units_witness :
  ∃ body,
    ai_suggest sold_five (suggest_request "111" 9) = Success body
    ∧ float_is_pos (sb_avg_daily_estimate body) = true
    ∧ 5 ≤ 3 + sb_suggested_reorder_qty body.
Proof.
  assert (str_strip "111" ≠ "") as H1 by by_evaluation.
  eexists. split; [vm_compute; reflexivity|]. split; [reflexivity|].
  exact (proj2 (suggest_keeps_five_units sold_five "111" 9 (set_qty 3 milk) _
                  H1 ltac:(vm_compute; reflexivity)
                  ltac:(vm_compute; reflexivity))).
Defined.

Lemma plain_is_sound : hash_sound.
Proof. intros pw salt. simpl. by rewrite String.eqb_refl. Qed.

Lemma only_an_admin_changes_users_witness :
  apply_auth_op office (CreateUser 1 "s1" hire) ≠ office
  ∧ by_admin office hire.
Proof.
  assert (apply_auth_op office (CreateUser 1 "s1" hire) ≠ office) as H0
    by (vm_compute; discriminate).
  exact (conj H0 (only_an_admin_changes_users plain engine office
                    (CreateUser 1 "s1" hire) H0)).
Defined.

Lemma without_an_admin_nothing_changes_witness :
  Forall (λ u, u_is_admin u = false) clerks
  ∧ foldl apply_auth_op clerks [CreateUser 1 "s1" promote; ChangePin "s2" repin]
    = clerks.
Proof.
  assert (Forall (λ u, u_is_admin u = false) clerks) as H0
    by (repeat constructor).
  exact (conj H0 (proj1 (without_an_admin_nothing_changes plain engine clerks
                           [CreateUser 1 "s1" promote; ChangePin "s2" repin]
                           None None H0))).
Defined.

Lemma user_names_stay_unique_witness :
  users_unique office
  ∧ users_unique
      (foldl apply_auth_op office
         [CreateUser 1 "s1" hire; CreateUser 2 "s2" hire;
          ChangePin "s3" repin]).
Proof.
  assert (users_unique office) as H0
    by (split; vm_compute; repeat constructor; set_solver).
  exact (conj H0 (user_names_stay_unique plain engine _ office H0)).
Defined.

Lemma created_user_can_log_in_witness :
  snd (create_user 1 "s1" office hire) = Success ann
  ∧ login (fst (create_user 1 "s1" office hire)) hire = Success ann.
Proof.
  split; [vm_compute; reflexivity|].
  assert (create_user 1 "s1" office hire
          = (fst (create_user 1 "s1" office hire), Success ann)) as E
    by (vm_compute; reflexivity).
  exact (created_user_can_log_in plain engine 1 "s1" office _ hire ann
           plain_is_sound E).
Defined.

Lemma change_pin_changes_one_hash_witness :
  let staff := fst (create_user 1 "s1" office hire) in
  snd (change_pin "s2" staff repin) = Success ann
  ∧ login (fst (change_pin "s2" staff repin))
      (login_request (JStr "ann") (JStr "9999"))
    = Success ann
  ∧ (u_name <$> fst (change_pin "s2" staff repin)) = ["admin"; "ann"].
Proof.
  intros staff.
  assert (change_pin "s2" staff repin
          = (fst (change_pin "s2" staff repin), Success ann)) as E
    by (vm_compute; reflexivity).
  split; [vm_compute; reflexivity|]. split; [|vm_compute; reflexivity].
  destruct (change_pin_changes_one_hash plain engine "s2" staff _ repin _ ann
              E eq_refl) as (_ & _ & H).
  exact (H plain_is_sound).
Defined.

Lemma login_needs_the_pin_witness :
  ∃ d,
    login office (login_request (JStr "admin") (JStr " 1234 ")) = Success d
    ∧ ∃ u pin,
        u ∈ office ∧ d = user_to_dict u
        ∧ pin = "1234"
        ∧ check_password_hash (u_pin_hash u) (JStr pin) = Ok true.
Proof.
  eexists. split; [vm_compute; reflexivity|].
  destruct (login_needs_the_pin plain office
              (login_request (JStr "admin") (JStr " 1234 ")) _
              ltac:(vm_compute; reflexivity))
    as (data & u & pin & Hd & Hin & Hu & _ & Hp & Hc).
  exists u, pin. split; [exact Hin|]. split; [exact Hu|]. split; [|exact Hc].
  injection Hd as <-. vm_compute in Hp. by injection Hp.
Defined.

Lemma list_users_needs_an_admin_witness :
  ∃ l,
    list_users office (Some "admin") (Some "1234") = Success l
    ∧ l = user_to_dict <$> office.
Proof.
  eexists. split; [vm_compute; reflexivity|].
  exact (proj1 (list_users_needs_an_admin plain engine office (Some "admin")
                  (Some "1234") _ ltac:(vm_compute; reflexivity))).
Defined.

Lemma sales_add_to_the_history_witness :
  (sb_total_sold_in_history
     <$> body_of (ai_suggest sold_five (suggest_request "111" 9))) = Some 5
  ∧ (sb_total_sold_in_history
       <$> body_of (ai_suggest
                      (fst (sync_transactions 0 sold_five
                              (sync_request [scenario_a; scenario_c])))
                      (suggest_request "111" 9))) = Some (5 + 3).
Proof.
  split; [vm_compute; reflexivity|].
  destruct (ai_suggest sold_five (suggest_request "111" 9)) as [body| |]
    eqn:E; [|vm_compute in E; discriminate..].
  destruct (ai_suggest (fst (sync_transactions 0 sold_five
                               (sync_request [scenario_a; scenario_c])))
              (suggest_request "111" 9)) as [body'| |]
    eqn:E'; [|vm_compute in E'; discriminate..].
  destruct (sales_add_to_the_history engine 0 sold_five
              (sync_request [scenario_a; scenario_c]) "111" 9 body body' E E')
    as (rows & Hl & Ht).
  vm_compute in Hl.
  apply (app_inv_head
           [{| l_id := 1; l_transaction_id := 1; l_barcode := Some "111";
               l_name := None; l_qty := 2; l_price := Some float_zero;
               l_cost := Some float_zero |};
            {| l_id := 2; l_transaction_id := 1; l_barcode := Some "111";
               l_name := None; l_qty := 3; l_price := Some float_zero;
               l_cost := Some float_zero |}]) in Hl.
  subst rows. simpl. rewrite Ht.
  rewrite (ai_suggest_total _ _ _ _ E). vm_compute. reflexivity.
Defined.

End FurtherExamples.
